(** * PodcastHarvester: reconciliation engine and chunked summarization

    A shallow embedding of the parts of the harvester that carry invariants:
    - [Segmenter]: [create_5min_chunks] of content_summarizer.py;
    - the control ledger, the channel index and the fetch plan
      (create_download_control_v2.py, podcast_harvester.py,
      repair_unified_indexes.py, merge_channel_indexes.py);
    - the summarization client and the per-folder pipeline
      (content_summarizer.py).

    Conventions.  Python dictionaries that are only read by key are finite
    maps ([gmap]), Python sets are [gset]; times are exact rationals (an SRT
    timestamp is a decimal with three fractional digits); text is a string of
    ASCII characters; the wall clock and the file system are explicit
    arguments. *)

From Stdlib Require Import ZArith QArith Qround String Ascii List Lia Sorted.
From stdpp Require Import gmap strings pretty list sorting fin_maps.

#[local] Set Warnings "-clear-no-such-hyp".

Local Open Scope string_scope.
Local Open Scope list_scope.
Local Open Scope nat_scope.

(** ** Python string helpers *)

Module PyStr.

(** [str.isspace] on the code points below 256: TAB, LF, VT, FF, CR, FS,
    GS, RS, US, the space, NEL (U+0085) and the no-break space (U+00A0). *)
Definition isspace (c : ascii) : bool :=
  let n := nat_of_ascii c in
  ((9 <=? n)%nat && (n <=? 13)%nat) || ((28 <=? n)%nat && (n <=? 32)%nat)
  || (n =? 133)%nat || (n =? 160)%nat.

Fixpoint lstrip (s : string) : string :=
  match s with
  | String c s' => if isspace c then lstrip s' else s
  | EmptyString => EmptyString
  end.

(** The suffix is dropped from the right: a character is kept as soon as
    something after it is kept or it is not white space itself. *)
Fixpoint rstrip (s : string) : string :=
  match s with
  | String c s' =>
      match rstrip s' with
      | EmptyString => if isspace c then EmptyString else String c EmptyString
      | r => String c r
      end
  | EmptyString => EmptyString
  end.

Definition strip (s : string) : string := rstrip (lstrip s).

(** [sep.join(l)] *)
Definition join (sep : string) (l : list string) : string := String.concat sep l.

(** Truthiness of a string: non-empty. *)
Definition truthy (s : string) : bool :=
  match s with EmptyString => false | _ => true end.

(** [needle in hay] *)
Fixpoint contains (needle hay : string) : bool :=
  String.prefix needle hay
  || match hay with
     | String _ hay' => contains needle hay'
     | EmptyString => false
     end.

(** [s.endswith(suffix)] *)
Definition endswith (s suffix : string) : bool :=
  let n := String.length suffix in
  let m := String.length s in
  (n <=? m) && String.eqb (String.substring (m - n) n s) suffix.

(** [s.startswith(prefix)] *)
Definition startswith (s prefix : string) : bool := String.prefix prefix s.

(** [s.replace(old, '')] for a non-empty [old]: every occurrence is removed,
    scanning from the left; [skip] counts the characters of a matched
    occurrence still to drop. *)
Fixpoint remove_all_from (old : string) (skip : nat) (s : string) : string :=
  match s with
  | String c s' =>
      match skip with
      | S k => remove_all_from old k s'
      | O =>
          if String.prefix old s
          then remove_all_from old (String.length old - 1) s'
          else String c (remove_all_from old 0 s')
      end
  | EmptyString => EmptyString
  end.

Definition remove_all (old s : string) : string :=
  match old with
  | EmptyString => s
  | _ => remove_all_from old 0 s
  end.

(** [a or b] on optional strings ([None], a missing key and the empty string
    are falsy). *)
Definition or_else (a b : option string) : option string :=
  match a with
  | Some s => if truthy s then a else b
  | None => b
  end.

Definition truthy_opt (a : option string) : bool :=
  match a with
  | Some s => truthy s
  | None => false
  end.

(** [s[:n]] for any integer [n]: a negative [n] counts from the end. *)
Definition slice_to (s : string) (n : Z) : string :=
  if (0 <=? n)%Z then String.substring 0 (Z.to_nat n) s
  else String.substring 0 (Z.to_nat (Z.of_nat (String.length s) + n)) s.

End PyStr.

(** ** ChunkSegmenter: [create_5min_chunks] *)

Module Segmenter.

(** One parsed SRT block: [{'start_time': ..., 'text': ...}]. Times are exact
    rationals. The code holds them in double precision, where sums and
    differences of whole numbers of seconds are exact, while the sum
    [start_time + 60] that ends the last chunk is rounded to the nearest
    double when the start has a fractional part. *)
Record Subtitle := mkSubtitle {
  sub_start_time : Q;
  sub_text : string
}.

Record Chunk := mkChunk {
  chunk_number : nat;
  start_time : Q;
  end_time : Q;
  text : string
}.

(** [t % d] for a number [t] and an integer [d]: the remainder has the sign
    of the divisor; a zero divisor raises [ZeroDivisionError] ([None]). *)
Definition py_mod (t : Q) (d : Z) : option Q :=
  if (d =? 0)%Z then None
  else Some (t - inject_Z d * inject_Z (Qfloor (t / inject_Z d)))%Q.

Definition chunk_text (current_chunk : list Subtitle) : string :=
  PyStr.strip (PyStr.join " " (map sub_text current_chunk)).

(** [current_chunk[-1]['start_time']] of a non-empty list. *)
Definition last_start_time (current_chunk : list Subtitle) : Q :=
  match last current_chunk with
  | Some s => sub_start_time s
  | None => 0%Q
  end.

(** The [for subtitle in subtitles] loop with its four local variables,
    followed by the emission of the final chunk. *)
Fixpoint chunk_loop (chunk_duration : Z) (subtitles : list Subtitle)
    (chunks : list Chunk) (current_chunk : list Subtitle)
    (chunk_start_time : Q) (chunk_number : nat) : option (list Chunk) :=
  match subtitles with
  | subtitle :: rest =>
      if Qle_bool (chunk_start_time + inject_Z chunk_duration) (sub_start_time subtitle)
      then
        let '(chunks', chunk_number') :=
          match current_chunk with
          | [] => (chunks, chunk_number)
          | _ => (chunks ++ [mkChunk chunk_number chunk_start_time
                               (chunk_start_time + inject_Z chunk_duration)
                               (chunk_text current_chunk)],
                  S chunk_number)
          end in
        match py_mod (sub_start_time subtitle) chunk_duration with
        | None => None
        | Some r =>
            chunk_loop chunk_duration rest chunks' [subtitle]
              (sub_start_time subtitle - r) chunk_number'
        end
      else
        chunk_loop chunk_duration rest chunks (current_chunk ++ [subtitle])
          chunk_start_time chunk_number
  | [] =>
      Some match current_chunk with
           | [] => chunks
           | _ => chunks ++ [mkChunk chunk_number chunk_start_time
                               (last_start_time current_chunk + 60)
                               (chunk_text current_chunk)]
           end
  end.

Definition create_5min_chunks (subtitles : list Subtitle) (chunk_duration : Z)
    : option (list Chunk) :=
  chunk_loop chunk_duration subtitles [] [] 0 1.

(** The default [chunk_duration=300]. *)
Definition default_chunk_duration : Z := 300.

(** *** Vocabulary for the properties of a chunk sequence *)

(** The start is a non-negative integer multiple of the chunk duration. *)
Definition aligned (chunk_duration : Z) (c : Chunk) : Prop :=
  exists k : Z, (0 <= k)%Z /\ (start_time c == inject_Z (k * chunk_duration))%Q.

Definition starts_before (c c' : Chunk) : Prop :=
  (start_time c < start_time c')%Q.

(** The chunk spans exactly one window. *)
Definition full_window (chunk_duration : Z) (c : Chunk) : Prop :=
  end_time c = (start_time c + inject_Z chunk_duration)%Q.

(** A well-formed chunk sequence: aligned starts, strictly increasing in
    emission order, every chunk but the last spanning one window, and
    numbers 1..N. *)
Definition well_formed (chunk_duration : Z) (out : list Chunk) : Prop :=
  Forall (aligned chunk_duration) out
  /\ StronglySorted starts_before out
  /\ (forall i c, out !! i = Some c -> S i < length out -> full_window chunk_duration c)
  /\ map chunk_number out = seq 1 (length out).

(** What the loop maintains between two subtitles. *)
Definition loop_invariant (chunk_duration : Z) (chunks : list Chunk)
    (chunk_start_time : Q) (chunk_number_ : nat) : Prop :=
  (exists k : Z, (0 <= k)%Z /\ (chunk_start_time == inject_Z (k * chunk_duration))%Q)
  /\ Forall (fun c => aligned chunk_duration c /\ full_window chunk_duration c
                       /\ (start_time c < chunk_start_time)%Q) chunks
  /\ StronglySorted starts_before chunks
  /\ map chunk_number chunks = seq 1 (length chunks)
  /\ chunk_number_ = S (length chunks).

(** An event at a whole second. *)
Definition event_at (t : Z) (s : string) : Subtitle := mkSubtitle (inject_Z t) s.

End Segmenter.


(** ** The channel directory on disk *)

Module Disk.

(** What [extract_video_info] reads from an info.json file, after its
    [data.get(key, default)] defaults. *)
Record InfoJson := mkInfoJson {
  ij_video_id : string;
  ij_title : string;
  ij_upload_date : string;
  ij_duration : Z;
  ij_uploader : string;
  ij_channel_id : string;
  ij_webpage_url : string;
  ij_filesize : Z
}.

(** A directory entry as [exists], [glob] and [stat] see it, whether it is a
    regular file or a directory: its name, [st_size], [st_mtime] as [str]
    renders the float inside the hash, that same time as
    [datetime.fromtimestamp(...).isoformat()] renders it and, for an entry
    that [extract_video_info] reads as a yt-dlp descriptor, its content
    ([None] for every other entry: opening a directory fails). *)
Record File := mkFile {
  f_name : string;
  f_size : Z;
  f_mtime : string;
  f_mtime_iso : string;
  f_json : option InfoJson
}.

(** A sub-directory of the channel directory: its own entry and the entries
    in it. *)
Record Subdir := mkSubdir {
  d_entry : File;
  d_files : list File
}.

Definition d_name (sd : Subdir) : string := f_name (d_entry sd).

(** A channel directory: its entries that are not directories and its
    sub-directories, both in [iterdir] order. *)
Record ChannelDir := mkChannelDir {
  name : string;
  files : list File;
  subdirs : list Subdir
}.

(** The entries of a working directory that is the channel directory itself
    ([None]) or one of its sub-directories. The channel directory lists its
    sub-directories too: [Path.exists] and [glob] accept a directory as
    they accept a file. *)
Definition listing (dir : ChannelDir) (working_dir : option string) : list File :=
  match working_dir with
  | None => files dir ++ map d_entry (subdirs dir)
  | Some d =>
      match List.find (fun sd => String.eqb (d_name sd) d) (subdirs dir) with
      | Some sd => d_files sd
      | None => []
      end
  end.

Definition lookup_file (dir : ChannelDir) (working_dir : option string)
    (fname : string) : option File :=
  List.find (fun f => String.eqb (f_name f) fname) (listing dir working_dir).

(** [(working_dir / fname).exists()] *)
Definition exists_in (dir : ChannelDir) (working_dir : option string)
    (fname : string) : bool :=
  match lookup_file dir working_dir fname with Some _ => true | None => false end.

(** [str(working_dir.relative_to(channel_dir) / name)], or [name] itself in
    the flat layout. *)
Definition relative_path (working_dir : option string) (fname : string) : string :=
  match working_dir with
  | None => fname
  | Some d => d +:+ "/" +:+ fname
  end.

(** Every path below the channel directory, relative to it: its entries,
    sub-directories among them, and the entries of the sub-directories. *)
Definition relative_paths (dir : ChannelDir) : list string :=
  map f_name (files dir)
  ++ flat_map (fun sd => d_name sd :: map (fun f => relative_path (Some (d_name sd)) (f_name f))
                                        (d_files sd))
              (subdirs dir).

(** [(channel_dir / p).exists()] for a relative path [p] as the control
    file records it. *)
Definition path_exists (dir : ChannelDir) (p : string) : bool :=
  existsb (String.eqb p) (relative_paths dir).

(** [d.glob('*.info.json')] *)
Definition glob_info_json (fs : list File) : list File :=
  List.filter (fun f => PyStr.endswith (f_name f) ".info.json") fs.

(** [d.glob(f"{base}.*.srt")] for a [base] without pattern characters. *)
Definition glob_srt (fs : list File) (base : string) : list File :=
  List.filter (fun f =>
            PyStr.startswith (f_name f) (base +:+ ".")
            && PyStr.endswith (f_name f) ".srt"
            && (String.length base + 5 <=? String.length (f_name f)))
         fs.

End Disk.

(** ** ControlStore: create_download_control_v2.py *)

Module Control.
Import Disk.

(** What a loader finds under a file name: no such file, a file whose
    content is not a JSON document, or the parsed document. A file that
    cannot be read as UTF-8 text at all is [Corrupt] for the loaders that
    catch every exception; [load_index_file] of podcast_harvester.py
    catches only [JSONDecodeError] and [FileNotFoundError], so that such a
    file makes it raise: it is applied here to files that are absent or
    hold text. *)
Inductive OnDisk (A : Type) :=
| Absent
| Corrupt
| Content (a : A).
Arguments Absent {A}.
Arguments Corrupt {A}.
Arguments Content {A} a.

(** The [files] dictionary of a video: a role that is [None] or whose key
    is missing is [None] here. *)
Record Files := mkFiles {
  info_json : option string;
  description : option string;
  audio : option string;
  video : option string;
  thumbnails : list string;
  subtitles : list string;
  annotations : option string
}.

Record VideoRecord := mkVideoRecord {
  title : string;
  upload_date : string;
  duration : Z;
  uploader : string;
  webpage_url : string;
  vfiles : Files;
  file_size_bytes : Z;
  download_date : string;
  subfolder : option string
}.

Record Statistics := mkStatistics {
  total_videos : nat;
  total_audio_files : nat;
  total_video_files : nat;
  total_thumbnails : nat;
  total_subtitles : nat;
  total_annotations : nat;
  total_size_bytes : Z;
  earliest : option string;
  latest : option string
}.

(** [hashlib.md5(content.encode()).hexdigest()], kept symbolic. *)
Inductive Digest := MD5 (content : string).

Record ControlData := mkControlData {
  channel_name : string;
  last_updated : option string;
  downloaded_videos : gmap string VideoRecord;
  file_hashes : gmap string Digest;
  statistics : Statistics
}.

Definition zero_statistics : Statistics :=
  mkStatistics 0 0 0 0 0 0 0 None None.

Definition get_file_hash (f : File) : Digest :=
  MD5 (pretty (f_size f) +:+ "_" +:+ f_mtime f).

(** The first candidate name that exists in the directory. *)
Definition first_existing (dir : ChannelDir) (wd : option string)
    (candidates : list string) : option string :=
  List.find (exists_in dir wd) candidates.

Definition with_exts (bases exts : list string) : list string :=
  flat_map (fun base => map (fun ext => base +:+ ext) exts) bases.

(** The subtitle search of one base name, continuing the list found so far:
    the two glob patterns, then the fixed language/extension grid; a name
    is appended only if it is not there yet. *)
Definition add_new (found : list string) (fname : string) : list string :=
  if existsb (String.eqb fname) found then found else found ++ [fname].

Definition subtitles_of_base (dir : ChannelDir) (wd : option string)
    (found : list string) (base : string) : list string :=
  let globbed :=
    map f_name (glob_srt (listing dir wd) base)
    ++ (if exists_in dir wd (base +:+ ".srt") then [base +:+ ".srt"] else []) in
  let grid :=
    flat_map (fun lang => map (fun ext => base +:+ "." +:+ lang +:+ "." +:+ ext)
                            ["srt"; "vtt"; "ass"; "ssa"])
             ["en"; "pl"; "auto"] in
  fold_left add_new (List.filter (exists_in dir wd) grid) (fold_left add_new globbed found).

Definition find_matching_files (dir : ChannelDir) (wd : option string)
    (info_file : File) : Files :=
  let base_name := PyStr.remove_all ".info.json" (f_name info_file) in
  let alt_base_name := PyStr.remove_all ".info" base_name in
  let bases := [base_name; alt_base_name] in
  {| info_json := Some (f_name info_file);
     description := first_existing dir wd (with_exts bases [".description"]);
     audio := first_existing dir wd (with_exts bases [".mp3"; ".m4a"; ".wav"; ".opus"]);
     video := first_existing dir wd (with_exts bases [".mp4"; ".webm"; ".mkv"; ".avi"]);
     thumbnails :=
       List.filter (exists_in dir wd) (with_exts bases [".jpg"; ".jpeg"; ".png"; ".webp"]);
     subtitles := fold_left (subtitles_of_base dir wd) bases [];
     annotations := first_existing dir wd (with_exts bases [".annotations.xml"]) |}.

(** Size of a named file when it exists in the working directory. *)
Definition size_if_exists (dir : ChannelDir) (wd : option string) (fname : string) : Z :=
  match lookup_file dir wd fname with
  | Some f => f_size f
  | None => 0
  end.

Definition opt_size (dir : ChannelDir) (wd : option string) (o : option string) : Z :=
  match o with
  | Some fname => if PyStr.truthy fname then size_if_exists dir wd fname else 0%Z
  | None => 0%Z
  end.

Definition opt_count (dir : ChannelDir) (wd : option string) (o : option string) : nat :=
  match o with
  | Some fname => if PyStr.truthy fname && exists_in dir wd fname then 1 else 0
  | None => 0
  end.

Definition list_size (dir : ChannelDir) (wd : option string) (l : list string) : Z :=
  fold_left (fun acc fname => (acc + size_if_exists dir wd fname)%Z) l 0%Z.

(** [relative_files]: only truthy roles are stored, as paths relative to the
    channel directory. *)
Definition relative_opt (wd : option string) (o : option string) : option string :=
  match o with
  | Some fname => if PyStr.truthy fname then Some (relative_path wd fname) else None
  | None => None
  end.

Definition relative_files (wd : option string) (fs : Files) : Files :=
  {| info_json := relative_opt wd (info_json fs);
     description := relative_opt wd (description fs);
     audio := relative_opt wd (audio fs);
     video := relative_opt wd (video fs);
     thumbnails := map (relative_path wd) (thumbnails fs);
     subtitles := map (relative_path wd) (subtitles fs);
     annotations := relative_opt wd (annotations fs) |}.

(** The names of all roles, in the order of [associated_files.items()]. *)
Definition all_names (fs : Files) : list string :=
  let single o := match o with
                  | Some fname => if PyStr.truthy fname then [fname] else []
                  | None => []
                  end in
  single (info_json fs) ++ single (description fs) ++ single (audio fs)
  ++ single (video fs) ++ thumbnails fs ++ subtitles fs ++ single (annotations fs).

Definition add_hash (dir : ChannelDir) (wd : option string)
    (hashes : gmap string Digest) (fname : string) : gmap string Digest :=
  match lookup_file dir wd fname with
  | Some f => <[relative_path wd fname := get_file_hash f]> hashes
  | None => hashes
  end.

Definition update_earliest (e : option string) (upload_date : string) : option string :=
  match e with
  | Some d => if negb (PyStr.truthy d) || String.ltb upload_date d
              then Some upload_date else e
  | None => Some upload_date
  end.

Definition update_latest (l : option string) (upload_date : string) : option string :=
  match l with
  | Some d => if negb (PyStr.truthy d) || String.ltb d upload_date
              then Some upload_date else l
  | None => Some upload_date
  end.

(** One iteration of [for info_file in info_files]. *)
Definition scan_info_file (dir : ChannelDir) (control_data : ControlData)
    (entry : option string * File) : ControlData :=
  let '(working_dir, info_file) := entry in
  match f_json info_file with
  | None => control_data
  | Some video_info =>
      if negb (PyStr.truthy (ij_video_id video_info)) then control_data
      else
        let video_id := ij_video_id video_info in
        let upload_date := ij_upload_date video_info in
        let associated_files := find_matching_files dir working_dir info_file in
        let stats := statistics control_data in
        let total_file_size :=
          (opt_size dir working_dir (audio associated_files)
           + opt_size dir working_dir (video associated_files)
           + list_size dir working_dir (thumbnails associated_files)
           + list_size dir working_dir (subtitles associated_files)
           + opt_size dir working_dir (annotations associated_files))%Z in
        let record :=
          {| title := ij_title video_info;
             upload_date := upload_date;
             duration := ij_duration video_info;
             uploader := ij_uploader video_info;
             webpage_url := ij_webpage_url video_info;
             vfiles := relative_files working_dir associated_files;
             file_size_bytes := total_file_size;
             download_date := f_mtime_iso info_file;
             subfolder := working_dir |} in
        let stats' :=
          {| total_videos := total_videos stats + 1;
             total_audio_files :=
               total_audio_files stats + opt_count dir working_dir (audio associated_files);
             total_video_files :=
               total_video_files stats + opt_count dir working_dir (video associated_files);
             total_thumbnails :=
               total_thumbnails stats + length (thumbnails associated_files);
             total_subtitles :=
               total_subtitles stats + length (subtitles associated_files);
             total_annotations :=
               total_annotations stats
               + (if PyStr.truthy_opt (annotations associated_files) then 1 else 0);
             total_size_bytes := (total_size_bytes stats + total_file_size)%Z;
             earliest := if PyStr.truthy upload_date
                         then update_earliest (earliest stats) upload_date
                         else earliest stats;
             latest := if PyStr.truthy upload_date
                       then update_latest (latest stats) upload_date
                       else latest stats |} in
        {| channel_name := channel_name control_data;
           last_updated := last_updated control_data;
           downloaded_videos := <[video_id := record]> (downloaded_videos control_data);
           file_hashes :=
             fold_left (add_hash dir working_dir) (all_names associated_files)
                       (file_hashes control_data);
           statistics := stats' |}
  end.

(** The id a descriptor contributes to the ledger, if any. *)
Definition scanned_id (entry : option string * File) : option string :=
  match f_json entry.2 with
  | Some video_info =>
      if PyStr.truthy (ij_video_id video_info) then Some (ij_video_id video_info) else None
  | None => None
  end.

(** The descriptors of the flat layout, then those of every sub-directory
    whose name does not start with a dot. *)
Definition info_files (dir : ChannelDir) : list (option string * File) :=
  map (fun f => (None, f)) (glob_info_json (files dir))
  ++ flat_map (fun sd =>
                 if PyStr.startswith (d_name sd) "." then []
                 else map (fun f => (Some (d_name sd), f)) (glob_info_json (d_files sd)))
              (subdirs dir).

Definition scan_channel_directory (now : string) (dir : ChannelDir) : ControlData :=
  fold_left (scan_info_file dir) (info_files dir)
    {| channel_name := name dir;
       last_updated := Some now;
       downloaded_videos := ∅;
       file_hashes := ∅;
       statistics := zero_statistics |}.

(** A parsed control file is a non-empty dictionary, hence truthy in
    [if preserve_deleted and existing_control]. *)
Definition load_existing_control_file (control_file : OnDisk ControlData)
    : option ControlData :=
  match control_file with
  | Content c => Some c
  | _ => None
  end.

(** One entry of a channels configuration file, as far as the ledgers read
    it. *)
Record ChannelConfig := mkChannelConfig {
  cfg_channel_name : option string;
  cfg_redownload_deleted : option bool
}.

(** The three configuration files are tried in order; the first entry
    naming the channel decides. *)
Fixpoint should_preserve_deleted_records
    (config_files : list (OnDisk (list ChannelConfig))) (channel : string) : bool :=
  match config_files with
  | Content channels :: rest =>
      match List.find (fun c => bool_decide (cfg_channel_name c = Some channel)) channels with
      | Some c => negb (default false (cfg_redownload_deleted c))
      | None => should_preserve_deleted_records rest channel
      end
  | _ :: rest => should_preserve_deleted_records rest channel
  | [] => true
  end.

(** The control data [create_control_file] writes for an existing channel
    directory. *)
Definition merge_control (now : string) (dir : ChannelDir)
    (existing_control current_control_data : ControlData) : ControlData :=
  let merged_downloaded_videos :=
    downloaded_videos current_control_data ∪ downloaded_videos existing_control in
  let merged_file_hashes :=
    file_hashes current_control_data ∪ file_hashes existing_control in
  let stats := statistics current_control_data in
  {| channel_name := name dir;
     last_updated := Some now;
     downloaded_videos := merged_downloaded_videos;
     file_hashes := merged_file_hashes;
     statistics :=
       {| total_videos := size merged_downloaded_videos;
          total_audio_files := total_audio_files stats;
          total_video_files := total_video_files stats;
          total_thumbnails := total_thumbnails stats;
          total_subtitles := total_subtitles stats;
          total_annotations := total_annotations stats;
          total_size_bytes := total_size_bytes stats;
          earliest := earliest stats;
          latest := latest stats |} |}.

Definition control_data_for (now : string) (preserve_deleted : bool)
    (existing_control : option ControlData) (dir : ChannelDir) : ControlData :=
  let current_control_data := scan_channel_directory now dir in
  match preserve_deleted, existing_control with
  | true, Some existing => merge_control now dir existing current_control_data
  | _, _ => current_control_data
  end.

(** [create_control_file]: the returned flag and the content of
    .download_control.json afterwards ([dir] is [None] when the channel
    directory does not exist). *)
Definition create_control_file (now : string)
    (config_files : list (OnDisk (list ChannelConfig)))
    (control_file : OnDisk ControlData) (dir : option ChannelDir)
    : bool * OnDisk ControlData :=
  match dir with
  | None => (false, control_file)
  | Some d =>
      let existing_control := load_existing_control_file control_file in
      let preserve_deleted := should_preserve_deleted_records config_files (name d) in
      (true, Content (control_data_for now preserve_deleted existing_control d))
  end.

End Control.

(** ** Python [repr] of the values stored in an index *)

Module PyRepr.

Definition hex_digit (n : nat) : ascii :=
  ascii_of_nat (if n <? 10 then 48 + n else 87 + n).

(** [\xhh] *)
Definition hex_escape (c : ascii) : string :=
  let n := nat_of_ascii c in
  String "\" (String "x" (String (hex_digit (n / 16)) (String (hex_digit (n mod 16)) ""))).

(** Code points below 256 that [repr] prints as they are. *)
Definition printable (c : ascii) : bool :=
  let n := nat_of_ascii c in
  ((32 <=? n) && (n <? 127)) || ((161 <=? n) && negb (n =? 173)).

Definition escape_char (quote c : ascii) : string :=
  if Ascii.eqb c quote || Ascii.eqb c "\" then String "\" (String c "")
  else if Ascii.eqb c "009" then "\t"
  else if Ascii.eqb c "010" then "\n"
  else if Ascii.eqb c "013" then "\r"
  else if printable c then String c ""
  else hex_escape c.

Fixpoint escape (quote : ascii) (s : string) : string :=
  match s with
  | String c s' => escape_char quote c +:+ escape quote s'
  | EmptyString => EmptyString
  end.

Fixpoint has_char (c : ascii) (s : string) : bool :=
  match s with
  | String c' s' => Ascii.eqb c c' || has_char c s'
  | EmptyString => false
  end.

(** [repr(s)]: single quotes unless the string has a single quote and no
    double quote. *)
Definition repr_str (s : string) : string :=
  let quote : ascii :=
    if has_char "'" s && negb (has_char "034" s) then "034"%char else "'"%char in
  String quote (escape quote s) +:+ String quote "".

(** [repr] of an integer or [None]. *)
Definition repr_int (n : option Z) : string :=
  match n with
  | Some z => pretty z
  | None => "None"
  end.

End PyRepr.

(** ** IndexStore: podcast_harvester.py, repair_unified_indexes.py,
       merge_channel_indexes.py *)

Module Index.
Import Control (OnDisk, Absent, Corrupt, Content).

(** [video_info] as [create_channel_index] builds it. *)
Record Video := mkVideo {
  id : string;
  title : string;
  upload_date : string;
  duration : option Z;
  webpage_url : string;
  uploader : string;
  view_count : option Z;
  description : string
}.

(** [str(video)]: the dictionary display, keys in insertion order. *)
Definition str (v : Video) : string :=
  "{'id': " +:+ PyRepr.repr_str (id v)
  +:+ ", 'title': " +:+ PyRepr.repr_str (title v)
  +:+ ", 'upload_date': " +:+ PyRepr.repr_str (upload_date v)
  +:+ ", 'duration': " +:+ PyRepr.repr_int (duration v)
  +:+ ", 'webpage_url': " +:+ PyRepr.repr_str (webpage_url v)
  +:+ ", 'uploader': " +:+ PyRepr.repr_str (uploader v)
  +:+ ", 'view_count': " +:+ PyRepr.repr_int (view_count v)
  +:+ ", 'description': " +:+ PyRepr.repr_str (description v)
  +:+ "}".

(** [len(str(video))] *)
Definition payload_size (v : Video) : nat := String.length (str v).

Record HistoryEntry := mkHistoryEntry {
  h_cutoff_date : option string;
  h_created_date : option string;
  h_total_videos : Z;
  h_source_file : option string
}.

(** A channel index as a dictionary: an absent key is [None]. *)
Record IndexData := mkIndexData {
  channel_name : option string;
  channel_url : option string;
  cutoff_date : option string;
  created_date : option string;
  last_updated : option string;
  current_cutoff_date : option string;
  cutoff_dates : option (list string);
  total_videos : option Z;
  videos : option (gmap string Video);
  video_ids : option (list string);
  date_range : option (option string * option string);
  index_history : option (list HistoryEntry)
}.

(** [sorted(l)] on strings. *)
Fixpoint insert_sorted (x : string) (l : list string) : list string :=
  match l with
  | y :: l' => if String.leb x y then x :: l else y :: insert_sorted x l'
  | [] => [x]
  end.

Definition sorted (l : list string) : list string := foldr insert_sorted [] l.

(** [min(l)] and [max(l)] of a non-empty list of strings. *)
Definition str_min (a b : string) : string := if String.ltb b a then b else a.
Definition str_max (a b : string) : string := if String.ltb a b then b else a.

Definition min_of (l : list string) : option string :=
  match l with
  | x :: l' => Some (fold_left str_min l' x)
  | [] => None
  end.

Definition max_of (l : list string) : option string :=
  match l with
  | x :: l' => Some (fold_left str_max l' x)
  | [] => None
  end.

(** [l.append(x); l = sorted(l)] when [x] is not in [l] yet. *)
Definition add_cutoff_date (cutoff : string) (l : list string) : list string :=
  if existsb (String.eqb cutoff) l then l else sorted (l ++ [cutoff]).

(** The keys of a dictionary as a list; the order of the list is the map's,
    not the insertion order of the Python dictionary. *)
Definition keys (m : gmap string Video) : list string := (map_to_list m).*1.

Definition values (m : gmap string Video) : list Video := (map_to_list m).*2.

(** The non-empty upload dates of all videos. *)
Definition video_dates (m : gmap string Video) : list string :=
  List.filter PyStr.truthy (map upload_date (values m)).

Definition recalculated_range (m : gmap string Video)
    (old : option (option string * option string))
    : option (option string * option string) :=
  match video_dates m with
  | [] => old
  | dates => Some (min_of dates, max_of dates)
  end.

(** One iteration of [for video in new_videos]: a new id is inserted, a
    known id is replaced only by a strictly longer display. *)
Definition merge_video (existing_videos : gmap string Video) (video : Video)
    : gmap string Video :=
  let video_id := id video in
  match existing_videos !! video_id with
  | None => <[video_id := video]> existing_videos
  | Some old =>
      if payload_size old <? payload_size video
      then <[video_id := video]> existing_videos
      else existing_videos
  end.

Definition update_unified_index (now : string) (existing_index : IndexData)
    (new_videos : list Video) (cutoff : string) : IndexData :=
  let existing_videos :=
    fold_left merge_video new_videos (default ∅ (videos existing_index)) in
  {| channel_name := channel_name existing_index;
     channel_url := channel_url existing_index;
     cutoff_date := cutoff_date existing_index;
     created_date := created_date existing_index;
     last_updated := Some now;
     current_cutoff_date := Some cutoff;
     cutoff_dates := Some (add_cutoff_date cutoff (default [] (cutoff_dates existing_index)));
     total_videos := Some (Z.of_nat (size existing_videos));
     videos := Some existing_videos;
     video_ids := Some (keys existing_videos);
     date_range := recalculated_range existing_videos (date_range existing_index);
     index_history :=
       Some (default [] (index_history existing_index)
             ++ [mkHistoryEntry (Some cutoff) (Some now)
                   (Z.of_nat (length new_videos)) (Some "updated_existing")]) |}.

(** Of two payloads, the one with the longer display (the first on a
    tie). *)
Definition larger (a b : Video) : Video :=
  if payload_size a <? payload_size b then b else a.

(** The [videos] map of an index, empty when the key is missing. *)
Definition videos_of (index_data : IndexData) : gmap string Video :=
  default ∅ (videos index_data).

(** An index with no key at all. *)
Definition empty_index : IndexData :=
  mkIndexData None None None None None None None None None None None None.

(** [load_index_file] of podcast_harvester.py on a file that is absent or
    holds text: the file is absent or its text is not JSON ([None]), or its
    missing fields are initialised. *)
Definition load_index_file (now : string) (index_file : OnDisk IndexData)
    (cutoff : string) : option IndexData :=
  match index_file with
  | Content index_data =>
      Some {| channel_name := channel_name index_data;
              channel_url := channel_url index_data;
              cutoff_date := cutoff_date index_data;
              created_date := created_date index_data;
              last_updated :=
                match last_updated index_data with
                | Some u => Some u
                | None => Some (default now (created_date index_data))
                end;
              current_cutoff_date :=
                Some (default cutoff (current_cutoff_date index_data));
              cutoff_dates := Some (default [] (cutoff_dates index_data));
              total_videos := total_videos index_data;
              videos := videos index_data;
              video_ids := video_ids index_data;
              date_range := date_range index_data;
              index_history := Some (default [] (index_history index_data)) |}
  | _ => None
  end.

End Index.

(** ** repair_unified_indexes.py *)

Module Repair.
Import Control (OnDisk, Absent, Corrupt, Content).
Import Index.

Definition set_cutoff_dates (v : list string) (d : IndexData) : IndexData :=
  mkIndexData (channel_name d) (channel_url d) (cutoff_date d) (created_date d)
    (last_updated d) (current_cutoff_date d) (Some v) (total_videos d) (videos d)
    (video_ids d) (date_range d) (index_history d).

Definition set_index_history (v : list HistoryEntry) (d : IndexData) : IndexData :=
  mkIndexData (channel_name d) (channel_url d) (cutoff_date d) (created_date d)
    (last_updated d) (current_cutoff_date d) (cutoff_dates d) (total_videos d) (videos d)
    (video_ids d) (date_range d) (Some v).

Definition set_current_cutoff_date (v : string) (d : IndexData) : IndexData :=
  mkIndexData (channel_name d) (channel_url d) (cutoff_date d) (created_date d)
    (last_updated d) (Some v) (cutoff_dates d) (total_videos d) (videos d)
    (video_ids d) (date_range d) (index_history d).

Definition set_last_updated (v : string) (d : IndexData) : IndexData :=
  mkIndexData (channel_name d) (channel_url d) (cutoff_date d) (created_date d)
    (Some v) (current_cutoff_date d) (cutoff_dates d) (total_videos d) (videos d)
    (video_ids d) (date_range d) (index_history d).

Definition set_video_ids (v : list string) (d : IndexData) : IndexData :=
  mkIndexData (channel_name d) (channel_url d) (cutoff_date d) (created_date d)
    (last_updated d) (current_cutoff_date d) (cutoff_dates d) (total_videos d) (videos d)
    (Some v) (date_range d) (index_history d).

Definition set_total_videos (v : Z) (d : IndexData) : IndexData :=
  mkIndexData (channel_name d) (channel_url d) (cutoff_date d) (created_date d)
    (last_updated d) (current_cutoff_date d) (cutoff_dates d) (Some v) (videos d)
    (video_ids d) (date_range d) (index_history d).

(** The six checks of [repair_index_file], each acting on the dictionary
    and on the list [repairs_needed]; with [dry_run] only the list grows. *)
Definition check (needed : bool) (label : string) (dry_run : bool)
    (fix_ : IndexData -> IndexData) (st : IndexData * list string)
    : IndexData * list string :=
  if needed
  then ((if dry_run then st.1 else fix_ st.1), st.2 ++ [label])
  else st.

Definition repair_cutoff_dates (dry_run : bool) (st : IndexData * list string) :=
  check (bool_decide (cutoff_dates st.1 = None)) "cutoff_dates" dry_run
    (fun d =>
       set_cutoff_dates
         match cutoff_date d with
         | Some old_cutoff => if PyStr.truthy old_cutoff then [old_cutoff] else []
         | None => []
         end d)
    st.

Definition repair_index_history (now : string) (dry_run : bool)
    (st : IndexData * list string) :=
  check (bool_decide (index_history st.1 = None)) "index_history" dry_run
    (fun d =>
       set_index_history
         [mkHistoryEntry (Some (default "unknown" (cutoff_date d)))
            (Some (default now (created_date d)))
            (default 0%Z (total_videos d))
            (Some "repaired_legacy")] d)
    st.

Definition repair_current_cutoff_date (dry_run : bool) (st : IndexData * list string) :=
  check (bool_decide (current_cutoff_date st.1 = None)) "current_cutoff_date" dry_run
    (fun d =>
       set_current_cutoff_date
         (if PyStr.truthy_opt (cutoff_date d)
          then default "" (cutoff_date d)
          else default "unknown" (max_of (default [] (cutoff_dates d)))) d)
    st.

Definition repair_last_updated (now : string) (dry_run : bool)
    (st : IndexData * list string) :=
  check (bool_decide (last_updated st.1 = None)) "last_updated" dry_run
    (fun d => set_last_updated (default now (created_date d)) d)
    st.

Definition repair_video_ids (dry_run : bool) (st : IndexData * list string) :=
  check (match video_ids st.1 with Some (_ :: _) => false | _ => true end)
    "video_ids" dry_run
    (fun d => set_video_ids (keys (default ∅ (videos d))) d)
    st.

Definition repair_total_videos (dry_run : bool) (st : IndexData * list string) :=
  let actual_count := Z.of_nat (size (default ∅ (videos st.1))) in
  check (negb (default 0 (total_videos st.1) =? actual_count)%Z) "total_videos" dry_run
    (set_total_videos actual_count)
    st.

(** The dictionary and the list of repairs after all six checks. *)
Definition repair_index_data (now : string) (dry_run : bool) (index_data : IndexData)
    : IndexData * list string :=
  repair_total_videos dry_run
    (repair_video_ids dry_run
       (repair_last_updated now dry_run
          (repair_current_cutoff_date dry_run
             (repair_index_history now dry_run
                (repair_cutoff_dates dry_run (index_data, [])))))).

(** [repair_index_file]: the returned value ([None] where the function
    falls off its end) and the content of the index file afterwards. *)
Definition repair_index_file (now : string) (index_file : OnDisk IndexData)
    (dry_run : bool) : option bool * OnDisk IndexData :=
  match index_file with
  | Content index_data =>
      let '(repaired, repairs_needed) := repair_index_data now dry_run index_data in
      match repairs_needed with
      | [] => (Some true, index_file)
      | _ => if dry_run then (None, index_file) else (Some true, Content repaired)
      end
  | _ => (Some false, index_file)
  end.

End Repair.

(** ** merge_channel_indexes.py *)

Module MergeIndexes.
Import Control (OnDisk, Absent, Corrupt, Content).
Import Index.

(** [load_index_file] of the merge script: an unreadable file is the empty
    dictionary, which the caller drops. *)
Definition load_index_file (index_file : OnDisk IndexData) : option IndexData :=
  match index_file with
  | Content d => Some d
  | _ => None
  end.

(** [max(indexes, key=lambda x: x.get('created_date', ''))]: the first
    index with the greatest key. *)
Definition created_key (d : IndexData) : string := default "" (created_date d).

Definition later (best d : IndexData) : IndexData :=
  if String.ltb (created_key best) (created_key d) then d else best.

(** Folding one source's [videos] into [all_videos]. *)
Definition merge_videos (all_videos videos_ : gmap string Video) : gmap string Video :=
  union_with (fun existing video_data =>
                Some (if payload_size existing <? payload_size video_data
                      then video_data else existing))
             all_videos videos_.

Definition history_of (index : IndexData) : HistoryEntry :=
  mkHistoryEntry (cutoff_date index) (created_date index)
    (default 0%Z (total_videos index)) None.

Definition cutoff_of (index : IndexData) : list string :=
  match cutoff_date index with
  | Some c => if PyStr.truthy c then [c] else []
  | None => []
  end.

Definition merge_channel_indexes (now : string) (index_files : list (OnDisk IndexData))
    : option IndexData :=
  match omap load_index_file index_files with
  | [] => None
  | first :: others =>
      let indexes := first :: others in
      let base_index := fold_left later others first in
      let all_videos :=
        fold_left (fun acc index => merge_videos acc (default ∅ (videos index))) indexes ∅ in
      let all_cutoff_dates : gset string := list_to_set (flat_map cutoff_of indexes) in
      Some {| channel_name := Some (default "" (channel_name base_index));
              channel_url := Some (default "" (channel_url base_index));
              cutoff_date := None;
              created_date := Some now;
              last_updated := Some now;
              current_cutoff_date := None;
              cutoff_dates := Some (sorted (elements all_cutoff_dates));
              total_videos := Some (Z.of_nat (size all_videos));
              videos := Some all_videos;
              video_ids := Some (keys all_videos);
              date_range :=
                recalculated_range all_videos (Some (None, None));
              index_history := Some (map history_of indexes) |}
  end.

End MergeIndexes.

(** ** Reconciler: the skip sets and the fetch plan of podcast_harvester.py *)

Module Reconciler.
Import Disk.
Import Control.

(** [load_control_file]: a missing or unreadable control file is the empty
    ledger. *)
Definition load_control_file (dir : ChannelDir) (control_file : OnDisk ControlData)
    : ControlData :=
  match control_file with
  | Content c => c
  | _ => {| channel_name := name dir;
            last_updated := None;
            downloaded_videos := ∅;
            file_hashes := ∅;
            statistics := zero_statistics |}
  end.

(** [files.get('audio') or files.get('video')] *)
Definition main_file (video_info : VideoRecord) : option string :=
  PyStr.or_else (audio (vfiles video_info)) (video (vfiles video_info)).

(** The body of the loop of [get_existing_video_ids]: is the id added to
    [existing_ids]? *)
Definition skipped (dir : ChannelDir) (redownload_deleted : bool)
    (video_info : VideoRecord) : bool :=
  match main_file video_info with
  | Some p =>
      if PyStr.truthy p
      then if path_exists dir p then true
           else if negb redownload_deleted then true
           else false
      else false
  | None => false
  end.

Definition get_existing_video_ids (dir : ChannelDir) (control_file : OnDisk ControlData)
    (redownload_deleted : bool) : gset string :=
  let downloaded_videos := downloaded_videos (load_control_file dir control_file) in
  dom (filter (fun kv => skipped dir redownload_deleted kv.2 = true) downloaded_videos).

(** The body of the loop of [get_actually_existing_video_ids]. *)
Definition present (dir : ChannelDir) (video_info : VideoRecord) : bool :=
  match main_file video_info with
  | Some p => if PyStr.truthy p then path_exists dir p else false
  | None => false
  end.

Definition get_actually_existing_video_ids (dir : ChannelDir)
    (control_file : OnDisk ControlData) : gset string :=
  let downloaded_videos := downloaded_videos (load_control_file dir control_file) in
  dom (filter (fun kv => present dir kv.2 = true) downloaded_videos).

(** Steps 2 and 3 of [download_channel_with_index]: the ids to skip, then
    [videos_to_download]. *)
Definition downloaded_ids (dir : ChannelDir) (control_file : OnDisk ControlData)
    (redownload_deleted skip_existing : bool) : gset string :=
  if skip_existing
  then if redownload_deleted
       then get_actually_existing_video_ids dir control_file
       else get_existing_video_ids dir control_file redownload_deleted
  else ∅.

Definition videos_to_download (dir : ChannelDir) (control_file : OnDisk ControlData)
    (index_data : Index.IndexData) (redownload_deleted skip_existing : bool)
    : gset string :=
  let indexed_video_ids : gset string :=
    list_to_set (default [] (Index.video_ids index_data)) in
  if skip_existing
  then indexed_video_ids
       ∖ downloaded_ids dir control_file redownload_deleted skip_existing
  else indexed_video_ids.

End Reconciler.

(** ** SummaryClient and SummarizationPipeline: content_summarizer.py *)

Module Summarizer.
Import Segmenter.

(** A decoded JSON document (a number is kept as an integer: no branch of
    the client looks inside a number). The strings are texts of code points
    below 256, all of which UTF-8 encodes. *)
#[local] Set Warnings "-register-all".

Inductive json :=
| JNull
| JBool (b : bool)
| JInt (n : Z)
| JStr (s : string)
| JList (l : list json)
| JDict (kvs : list (string * json)).

Definition is_str (s : string) (j : json) : bool :=
  match j with JStr s' => String.eqb s s' | _ => false end.

(** [d[key]] on the items of a dictionary. *)
Definition dict_get (key : string) (kvs : list (string * json)) : option json :=
  option_map snd (List.find (fun kv => String.eqb key kv.1) kvs).

(** What the block that reads the completion does with a decoded body. *)
Inductive Extracted :=
| Completion (content : string)
| InvalidFormat
| Raises.

(** [j['message']['content']] followed by [len(content)] and
    [content.strip()]: anything but dictionaries holding a string raises
    [KeyError], [TypeError] or [AttributeError]. *)
Definition message_content (first : json) : Extracted :=
  match first with
  | JDict kvs =>
      match dict_get "message" kvs with
      | Some (JDict m) =>
          match dict_get "content" m with
          | Some (JStr content) => Completion content
          | _ => Raises
          end
      | _ => Raises
      end
  | _ => Raises
  end.

(** The test ['choices' in response_data and len(response_data['choices']) > 0]
    and the extraction in its true branch. *)
Definition extract (response_data : json) : Extracted :=
  match response_data with
  | JDict kvs =>
      match dict_get "choices" kvs with
      | None => InvalidFormat
      | Some (JList []) => InvalidFormat
      | Some (JList (first :: _)) => message_content first
      | Some (JStr s) => if PyStr.truthy s then Raises else InvalidFormat
      | Some (JDict []) => InvalidFormat
      | Some (JDict (_ :: _)) => Raises
      | Some _ => Raises
      end
  | JList l => if existsb (is_str "choices") l then Raises else InvalidFormat
  | JStr s => if PyStr.contains "choices" s then Raises else InvalidFormat
  | _ => Raises
  end.

Record LLMConfig := mkLLMConfig {
  server_url : string;
  model_name : string;
  system_prompts : gmap string string;
  temperature : option Q;
  context_length : option Z;
  max_retries : option Z;
  retry_delay : option Z;
  request_timeout : option Z
}.

(** The chat payload posted to [api_url]. *)
Record Request := mkRequest {
  api_url : string;
  model : string;
  system_content : string;
  user_content : string;
  req_temperature : Q;
  max_tokens : Z;
  stream : bool
}.

(** What one [urlopen] call does. *)
Inductive Outcome :=
| Response (status : Z) (body : option json)
    (** a response object; [body] is [None] when the bytes are not UTF-8
        JSON *)
| HTTPError (code : Z) (details_decode : bool)
    (** raised for an error status; the flag tells whether
        [e.read().decode('utf-8')] returns in the handler (it does too
        when there is no body) *)
| URLError
| OtherError.

(** The observable effects of the client. *)
Inductive Event :=
| Urlopen (req : Request) (timeout : Z) (attempt : nat)
| Sleep (seconds : Z).

Definition truncate_text_to_context (text : string) (max_tokens_ : Z) : string :=
  let max_chars := (max_tokens_ * 4)%Z in
  if (Z.of_nat (String.length text) <=? max_chars)%Z then text
  else PyStr.slice_to text (max_chars - 100)
       +:+ String "010" (String "010" "[Note: Content truncated to fit context length]").

Definition user_prompt (prompt_type truncated_text : string) : string :=
  if String.eqb prompt_type "chunk"
  then "Please summarize this transcript chunk:" +:+ String "010" (String "010" truncated_text)
  else if String.eqb prompt_type "final"
  then "Please create a final comprehensive summary based on these chunk summaries:"
       +:+ String "010" (String "010" truncated_text)
  else truncated_text.

Definition build_request (cfg : LLMConfig) (system_prompt text prompt_type : string)
    : Request :=
  let max_context := default 4096%Z (context_length cfg) in
  let available_tokens := (max_context - 1000)%Z in
  let truncated_text := truncate_text_to_context text available_tokens in
  {| api_url := server_url cfg +:+ "/v1/chat/completions";
     model := model_name cfg;
     system_content := system_prompt;
     user_content := user_prompt prompt_type truncated_text;
     req_temperature := default (7 # 10)%Q (temperature cfg);
     max_tokens := 1000;
     stream := false |}.

(** The artifacts of one video folder. *)
Record Metadata := mkMetadata {
  md_video_folder : string;
  md_srt_file_used : string;
  md_total_chunks : nat;
  md_processed_chunks : nat;
  md_processing_date : string;
  md_preferred_language : string
}.

Record Folder := mkFolder {
  folder_name : string;
  srt_files : list (string * list Subtitle);
    (** [*.srt] in glob order, each with what [parse_srt_file] returns *)
  chunk_files : gmap nat Chunk;       (** chunks/chunk_NNN.txt *)
  summary_files : gmap nat string;    (** chunk_summaries/summary_NNN.txt *)
  final_summary_file : option string; (** content_summary/final_summary.txt *)
  metadata_file : option Metadata     (** content_summary/summary_metadata.json *)
}.

Record World := mkWorld {
  folder : Folder;
  log : list Event
}.

(** Computations that read and change the world and may raise. *)
Inductive Result (A : Type) :=
| Ok (a : A)
| Raised.
Arguments Ok {A} a.
Arguments Raised {A}.

Definition M (A : Type) : Type := World -> Result A * World.

Definition ret {A} (a : A) : M A := fun w => (Ok a, w).

Definition bind {A B} (m : M A) (k : A -> M B) : M B :=
  fun w => match m w with
           | (Ok a, w') => k a w'
           | (Raised, w') => (Raised, w')
           end.

Definition raise {A} : M A := fun w => (Raised, w).

Definition emit (e : Event) : M unit :=
  fun w => (Ok tt, mkWorld (folder w) (log w ++ [e])).

Definition get_folder : M Folder := fun w => (Ok (folder w), w).

Definition put_folder (f : Folder) : M unit := fun w => (Ok tt, mkWorld f (log w)).

Definition get_log : M (list Event) := fun w => (Ok (log w), w).

Declare Scope m_scope.
Delimit Scope m_scope with M.
Notation "'do' x <- m ; k" := (bind m (fun x => k))
  (at level 10, x name, m at level 100, k at level 200) : m_scope.
Notation "'run' m ; k" := (bind m (fun _ => k))
  (at level 10, m at level 100, k at level 200) : m_scope.

Section Client.

(** The global [LLM_CONFIG], the service behind [server_url] (its answer
    may depend on everything that happened before) and the clock. *)
Variable LLM_CONFIG : option LLMConfig.
Variable server : list Event -> Request -> Outcome.
Variable now : string.

(** The tail of a failed attempt: [time.sleep(retry_delay)] unless it was
    the last one. [time.sleep] raises [ValueError] for a negative delay; in
    the three handlers the exception leaves the function at once, and after
    a response that is not 200 it is caught by [except Exception], whose
    own [time.sleep] raises it again: either way the call ends in an
    exception, without having slept. *)
Definition retry_wait (attempt max_retries_ : nat) (retry_delay_ : Z) : M unit :=
  if (Z.of_nat attempt <? Z.of_nat max_retries_ - 1)%Z
  then if (retry_delay_ <? 0)%Z then raise else emit (Sleep retry_delay_)
  else ret tt.

(** [for attempt in range(max_retries)] over the attempts still to make,
    then the final [return None]. *)
Fixpoint attempt_loop (req : Request) (timeout retry_delay_ : Z) (max_retries_ : nat)
    (todo : list nat) : M (option string) :=
  match todo with
  | attempt :: rest =>
      let again :=
        (run retry_wait attempt max_retries_ retry_delay_ ;
         attempt_loop req timeout retry_delay_ max_retries_ rest)%M in
      (do history <- get_log ;
       run emit (Urlopen req timeout attempt) ;
       match server history req with
       | Response status body =>
           if (status =? 200)%Z
           then match body with
                | Some response_data =>
                    match extract response_data with
                    | Completion content => ret (Some (PyStr.strip content))
                    | InvalidFormat => ret None
                    | Raises => again
                    end
                | None => again
                end
           else again
       | HTTPError _ details_decode =>
           if details_decode then again else raise
       | URLError => again
       | OtherError => again
       end)%M
  | [] => ret None
  end.

Definition call_llm_api (text prompt_type : string) : M (option string) :=
  match LLM_CONFIG with
  | None => ret None
  | Some cfg =>
      let system_prompt := default "" (system_prompts cfg !! prompt_type) in
      if negb (PyStr.truthy system_prompt) then ret None
      else
        let req := build_request cfg system_prompt text prompt_type in
        let max_retries_ := Z.to_nat (default 3%Z (max_retries cfg)) in
        attempt_loop req (default 60%Z (request_timeout cfg))
          (default 2%Z (retry_delay cfg)) max_retries_ (seq 0 max_retries_)
  end.

(** The SRT file to read: the first whose name contains
    [.{preferred_language}.srt], else the first of all. *)
Definition preferred_srt (preferred_language : string)
    (srts : list (string * list Subtitle)) : option (string * list Subtitle) :=
  match List.find (fun f => PyStr.contains ("." +:+ preferred_language +:+ ".srt") f.1) srts with
  | Some f => Some f
  | None => head srts
  end.

Definition save_chunks (chunks : list Chunk) : M unit :=
  (do f <- get_folder ;
   put_folder
     (mkFolder (folder_name f) (srt_files f)
        (fold_left (fun m c => <[chunk_number c := c]> m) chunks (chunk_files f))
        (summary_files f) (final_summary_file f) (metadata_file f)))%M.

Definition write_summary (n : nat) (summary : string) : M unit :=
  (do f <- get_folder ;
   put_folder
     (mkFolder (folder_name f) (srt_files f) (chunk_files f)
        (<[n := summary]> (summary_files f)) (final_summary_file f) (metadata_file f)))%M.

(** final_summary.txt, then summary_metadata.json. Every text of this
    model can be encoded, so both writes complete; in the code a text that
    UTF-8 refuses makes [f.write] raise after [open] has created the
    file. *)
Definition write_final (final_summary : string) (md : Metadata) : M unit :=
  (do f <- get_folder ;
   put_folder
     (mkFolder (folder_name f) (srt_files f) (chunk_files f)
        (summary_files f) (Some final_summary) (Some md)))%M.

(** [for i, chunk in enumerate(chunks, 1)]: the list [chunk_summaries]
    grows by the loaded or the fresh summary; a chunk whose call fails is
    left out. *)
Fixpoint summarize_chunks (chunks : list Chunk) (chunk_summaries : list (nat * string))
    : M (list (nat * string)) :=
  match chunks with
  | chunk :: rest =>
      (do f <- get_folder ;
       match summary_files f !! chunk_number chunk with
       | Some summary =>
           summarize_chunks rest (chunk_summaries ++ [(chunk_number chunk, summary)])
       | None =>
           do r <- call_llm_api (text chunk) "chunk" ;
           match r with
           | Some summary =>
               if PyStr.truthy summary
               then run write_summary (chunk_number chunk) summary ;
                    summarize_chunks rest
                      (chunk_summaries ++ [(chunk_number chunk, summary)])
               else summarize_chunks rest chunk_summaries
           | None => summarize_chunks rest chunk_summaries
           end
       end)%M
  | [] => ret chunk_summaries
  end.

Definition combined_summaries (chunk_summaries : list (nat * string)) : string :=
  PyStr.join (String "010" (String "010" ""))
    (map (fun cs => "Chunk " +:+ pretty cs.1 +:+ ":" +:+ String "010" cs.2)
         chunk_summaries).

Definition process_video_folder (preferred_language : string) : M bool :=
  (do f <- get_folder ;
   match preferred_srt preferred_language (srt_files f) with
   | None => ret false
   | Some (srt_name, subtitles) =>
       match final_summary_file f with
       | Some _ => ret true
       | None =>
           match subtitles with
           | [] => ret false
           | _ =>
               match create_5min_chunks subtitles default_chunk_duration with
               | None => raise
               | Some chunks =>
                   run save_chunks chunks ;
                   do chunk_summaries <- summarize_chunks chunks [] ;
                   do final_summary <-
                     call_llm_api (combined_summaries chunk_summaries) "final" ;
                   match final_summary with
                   | Some s =>
                       if PyStr.truthy s
                       then run write_final s
                                  (mkMetadata (folder_name f) srt_name (length chunks)
                                     (length chunk_summaries) now preferred_language) ;
                            ret true
                       else ret false
                   | None => ret false
                   end
               end
           end
       end
   end)%M.

End Client.

(** *** Vocabulary for the properties of the client and the pipeline *)

(** An outcome after which the retry loop goes on to the next attempt. *)
Definition retryable (o : Outcome) : bool :=
  match o with
  | Response status body =>
      if (status =? 200)%Z
      then match body with
           | Some response_data =>
               match extract response_data with
               | Raises => true
               | _ => false
               end
           | None => true
           end
      else true
  | HTTPError _ details_decode => details_decode
  | URLError => true
  | OtherError => true
  end.


(** The requests of a log, and those that open a call (attempt 0). *)
Definition requests (evs : list Event) : list Request :=
  flat_map (fun e => match e with Urlopen req _ _ => [req] | Sleep _ => [] end) evs.




(** A configuration with the defaults of llm_config.json left out. *)
Definition example_config : LLMConfig :=
  mkLLMConfig "http://localhost:1234" "local-model"
    {["chunk" := "Summarize the chunk."; "final" := "Summarize the summaries."]}
    None None (Some 3%Z) (Some 2%Z) (Some 60%Z).

Definition empty_folder (srts : list (string * list Subtitle)) : Folder :=
  mkFolder "episode" srts ∅ ∅ None None.

End Summarizer.

(** ** Concrete channel directories and ledgers *)

Module Scenarios.
Import Disk Control.

Definition clock : string := "2024-06-01T12:00:00".

Definition descriptor_X : InfoJson :=
  mkInfoJson "X" "Episode" "20240101" 1800 "chan" "UC1" "https://example.org/watch?v=X" 0.

Definition file_descriptor : File :=
  mkFile "a.info.json" 512 "1704182400.0" "2024-01-02T08:00:00" (Some descriptor_X).

Definition file_media : File :=
  mkFile "a.mp3" 1000000 "1704182405.0" "2024-01-02T08:00:05" None.

(** The channel directory with item X complete. *)
Definition dir_complete : ChannelDir :=
  mkChannelDir "chan" [file_descriptor; file_media] [].

(** The same directory after a.mp3 was deleted: the descriptor stays. *)
Definition dir_media_deleted : ChannelDir :=
  mkChannelDir "chan" [file_descriptor] [].

(** The same directory after every file of X was deleted. *)
Definition dir_all_deleted : ChannelDir :=
  mkChannelDir "chan" [] [].

(** The ledger written while X was complete: it records a.mp3 for X. *)
Definition previous_control : ControlData :=
  scan_channel_directory "2024-01-02T09:00:00" dir_complete.

(** The ledger after a refresh with deleted records preserved. *)
Definition refreshed_control (dir : ChannelDir) : ControlData :=
  control_data_for clock true (Some previous_control) dir.

Definition video_X : Index.Video :=
  Index.mkVideo "X" "Episode" "20240101" (Some 1800%Z)
    "https://example.org/watch?v=X" "chan" (Some 10%Z) "".

Definition index_X : Index.IndexData :=
  Index.mkIndexData (Some "chan") None None None None (Some "2024-01-01")
    (Some ["2024-01-01"]) (Some 1%Z) (Some {["X" := video_X]}) (Some ["X"]) None (Some []).

(** A second description of X with a longer title. *)
Definition video_X_long : Index.Video :=
  Index.mkVideo "X" "Episode (remastered)" "20240101" (Some 1800%Z)
    "https://example.org/watch?v=X" "chan" (Some 10%Z) "".

Definition video_Y : Index.Video :=
  Index.mkVideo "Y" "Pilot" "20231201" (Some 600%Z)
    "https://example.org/watch?v=Y" "chan" None "".

(** An index file of the old schema: a singular cutoff date and the videos
    map, nothing else. *)
Definition legacy_index : Index.IndexData :=
  Index.mkIndexData None None (Some "2024-01-01") None None None None None
    (Some {["X" := video_X]}) None None None.

(** A video folder whose transcript falls into three chunks and whose
    first two chunk summaries are persisted, the same folder once it is
    done, and a service that always answers with a completion. *)
Definition transcript : list Segmenter.Subtitle :=
  [Segmenter.event_at 0 "a"; Segmenter.event_at 290 "b";
   Segmenter.event_at 305 "c"; Segmenter.event_at 610 "d"].

Definition folder_two_of_three : Summarizer.Folder :=
  Summarizer.mkFolder "episode" [("episode.pl.srt", transcript)] ∅
    {[1 := "first"; 2 := "second"]} None None.


Definition completion (s : string) : Summarizer.json :=
  Summarizer.JDict
    [("choices",
      Summarizer.JList
        [Summarizer.JDict
           [("message", Summarizer.JDict [("content", Summarizer.JStr s)])]])].

Definition answering_server (_ : list Summarizer.Event) (_ : Summarizer.Request)
    : Summarizer.Outcome :=
  Summarizer.Response 200 (Some (completion "summary")).

(** One video downloaded twice under two titles: two descriptors with the
    same id, each in its own sub-directory. *)
Definition dir_duplicate : ChannelDir :=
  mkChannelDir "chan" []
    [mkSubdir (mkFile "old_title" 4096 "1704182400.0" "2024-01-02T08:00:00" None)
       [mkFile "old_title.info.json" 512 "1704182400.0" "2024-01-02T08:00:00"
          (Some descriptor_X)];
     mkSubdir (mkFile "new_title" 4096 "1709366400.0" "2024-03-02T08:00:00" None)
       [mkFile "new_title.info.json" 512 "1709366400.0" "2024-03-02T08:00:00"
          (Some descriptor_X)]].

End Scenarios.

(** ** A channel of video folders: [process_channel] of content_summarizer.py *)

Module Channel.
Import Summarizer.

Section Batch.
Variable LLM_CONFIG : option LLMConfig.
Variable server : list Event -> Request -> Outcome.
Variable now : string.

(** The counters and the world of the loop over the video folders: the
    folders already visited, in order, and the request log. *)
Record Progress := mkProgress {
  processed_count : nat;
  failed_count : nat;
  visited : list Folder;
  requests_log : list Event
}.

(** One iteration of [for video_folder in video_folders]: the folder is
    processed with the default language; a run that returns true counts as
    processed, a run that returns false or raises counts as failed. *)
Definition visit (p : Progress) (video_folder : Folder) : Progress :=
  match process_video_folder LLM_CONFIG server now "pl"
          (mkWorld video_folder (requests_log p)) with
  | (Ok true, w) =>
      mkProgress (processed_count p + 1) (failed_count p) (visited p ++ [folder w]) (log w)
  | (_, w) =>
      mkProgress (processed_count p) (failed_count p + 1) (visited p ++ [folder w]) (log w)
  end.

(** The sub-directories that count as video folders. *)
Definition video_folders (subdirs : list Folder) : list Folder :=
  List.filter (fun d => negb (PyStr.startswith (folder_name d) ".")) subdirs.

(** [process_channel]: the returned flag with the counters and the state
    after the loop; [channel_dir] is [None] when the directory does not
    exist, and else lists its sub-directories. *)
Definition process_channel (channel_dir : option (list Folder)) (log0 : list Event)
    : bool * Progress :=
  match channel_dir with
  | None => (false, mkProgress 0 0 [] log0)
  | Some subdirs =>
      match video_folders subdirs with
      | [] => (false, mkProgress 0 0 [] log0)
      | folders =>
          let p := fold_left visit folders (mkProgress 0 0 [] log0) in
          ((0 <? processed_count p), p)
      end
  end.

End Batch.

(** *** Vocabulary for the properties of the loop *)

(** A folder that holds its final summary. *)
Definition summarized (f : Folder) : bool :=
  match final_summary_file f with Some _ => true | None => false end.

(** The same video folder at a later time: its name and transcripts are the
    same and every chunk summary it held is still there. *)
Definition same_item (before after : Folder) : Prop :=
  folder_name after = folder_name before
  /\ srt_files after = srt_files before
  /\ (forall k s, summary_files before !! k = Some s -> summary_files after !! k = Some s).

End Channel.

(** ** Upkeep of the unified index: step 1 of [download_channel_with_index] *)

Module Harvester.
Import Control (OnDisk, Absent, Corrupt, Content).
Import Index.

(** [save_index_file]: the dictionary that is written to
    .channel_index.json. *)
Definition save_index_file (now cutoff : string) (index_data : IndexData) : IndexData :=
  {| channel_name := channel_name index_data;
     channel_url := channel_url index_data;
     cutoff_date := cutoff_date index_data;
     created_date := created_date index_data;
     last_updated := Some now;
     current_cutoff_date := Some cutoff;
     cutoff_dates := Some (add_cutoff_date cutoff (default [] (cutoff_dates index_data)));
     total_videos := total_videos index_data;
     videos := videos index_data;
     video_ids := video_ids index_data;
     date_range := date_range index_data;
     index_history := index_history index_data |}.

(** [cutoff_date_str not in cutoff_dates or current_cutoff != cutoff_date_str] *)
Definition stale (index_data : IndexData) (cutoff : string) : bool :=
  negb (existsb (String.eqb cutoff) (default [] (cutoff_dates index_data)))
  || negb (bool_decide (current_cutoff_date index_data = Some cutoff)).

(** The branch that only tracks the cutoff date, with the dictionary it
    saves. *)
Definition track_cutoff_date (now now' cutoff : string) (index_data : IndexData)
    : IndexData :=
  save_index_file now' cutoff
    {| channel_name := channel_name index_data;
       channel_url := channel_url index_data;
       cutoff_date := cutoff_date index_data;
       created_date := created_date index_data;
       last_updated := Some now;
       current_cutoff_date := Some cutoff;
       cutoff_dates := Some (add_cutoff_date cutoff (default [] (cutoff_dates index_data)));
       total_videos := total_videos index_data;
       videos := videos index_data;
       video_ids := video_ids index_data;
       date_range := date_range index_data;
       index_history := Some (default [] (index_history index_data)) |}.

(** What step 1 does with an index that was loaded: [new_index] is what
    [create_channel_index] returns for the requested cutoff date ([None]
    for the empty dictionary of a failed listing); [now] and [now'] are the
    clock readings of the update and of the save. *)
Definition refresh_index (now now' cutoff : string) (index_data : IndexData)
    (new_index : option IndexData) : IndexData :=
  if stale index_data cutoff
  then match new_index with
       | Some new_index_data =>
           match videos new_index_data with
           | Some new_videos =>
               if bool_decide (new_videos = ∅)
               then track_cutoff_date now now' cutoff index_data
               else save_index_file now' cutoff
                      (update_unified_index now index_data (values new_videos) cutoff)
           | None => track_cutoff_date now now' cutoff index_data
           end
       | None => track_cutoff_date now now' cutoff index_data
       end
  else index_data.

(** *** Vocabulary for the properties of the index *)

(** A list of dates in ascending order. *)
Definition ascending (l : list string) : Prop :=
  Sorted (fun a b => String.leb a b = true) l.

End Harvester.

(** ** The recorded download history *)

Module History.
Import Disk Control Reconciler.

(** [get_downloaded_video_ids]: every id of the ledger. *)
Definition get_downloaded_video_ids (dir : ChannelDir) (control_file : OnDisk ControlData)
    : gset string :=
  dom (downloaded_videos (load_control_file dir control_file)).

(** [deleted_count] of step 2, computed when [redownload_deleted] is on. *)
Definition deleted_count (dir : ChannelDir) (control_file : OnDisk ControlData) : Z :=
  let downloaded_ids := get_actually_existing_video_ids dir control_file in
  let total_in_history := size (downloaded_videos (load_control_file dir control_file)) in
  (Z.of_nat total_in_history - Z.of_nat (size downloaded_ids))%Z.

End History.

(** * Verification *)

(** ** Segmentation *)

Module SegmenterSpec.
Import Segmenter.

Example strip_inner_space : PyStr.strip "  a b  " = "a b".
Proof. reflexivity. Qed.

Example strip_all_space : PyStr.strip "   " = "".
Proof. reflexivity. Qed.

Example zero_duration_raises :
  create_5min_chunks [event_at 0 "a"] 0 = None.
Proof. reflexivity. Qed.

(** An event before the first boundary never opens a window: a first event
    at 700 s opens the window starting at 600 s and no chunk starts at 0. *)
Example late_first_event :
  option_map (map start_time) (create_5min_chunks [event_at 700 "a"] 300)
  = Some [600%Q].
Proof. reflexivity. Qed.

(** The window opened by an event at or after the current boundary starts
    at a strictly later multiple of the duration. *)
Lemma realign (d k : Z) (start t r : Q) :
  (0 < d)%Z ->
  (start == inject_Z (k * d))%Q ->
  (start + inject_Z d <= t)%Q ->
  py_mod t d = Some r ->
  exists k', (k < k')%Z /\ (t - r == inject_Z (k' * d))%Q.
Proof.
  intros Hd Hstart Hle Hr. unfold py_mod in Hr.
  destruct (d =? 0)%Z eqn:E; [apply Z.eqb_eq in E; lia |].
  assert (Hr' : r = (t - inject_Z d * inject_Z (Qfloor (t / inject_Z d)))%Q)
    by congruence.
  clear Hr. set (fl := Qfloor (t / inject_Z d)) in *.
  exists fl. split.
  - assert (Hk : (inject_Z (k + 1) <= t / inject_Z d)%Q).
    { apply Qle_shift_div_l.
      - change 0%Q with (inject_Z 0). rewrite <- Zlt_Qlt. exact Hd.
      - rewrite <- inject_Z_mult.
        replace ((k + 1) * d)%Z with (k * d + d)%Z by ring.
        rewrite inject_Z_plus, <- Hstart. exact Hle. }
    apply Qfloor_resp_le in Hk. rewrite Qfloor_Z in Hk. subst fl. lia.
  - rewrite Hr', inject_Z_mult. ring.
Qed.

Lemma well_formed_snoc (d : Z) (chunks : list Chunk) (start e : Q) (n : nat) (txt : string) :
  loop_invariant d chunks start n ->
  well_formed d (chunks ++ [mkChunk n start e txt]).
Proof.
  intros ([k [Hk Hs]] & Hall & Hsorted & Hnum & ->).
  repeat split.
  - apply Forall_app. split.
    + eapply Forall_impl; [exact Hall |]. intros c (Ha & _). exact Ha.
    + constructor; [| constructor]. exists k. split; [exact Hk | exact Hs].
  - apply StronglySorted_app_2; [| exact Hsorted | repeat constructor].
    intros c1 c2 H1 H2. apply list_elem_of_singleton in H2 as ->.
    rewrite Forall_forall in Hall. apply Hall in H1 as (_ & _ & Hlt). exact Hlt.
  - intros i c Hi Hlen. rewrite length_app in Hlen. simpl in Hlen.
    rewrite lookup_app_l in Hi by lia.
    rewrite Forall_forall in Hall.
    apply list_elem_of_lookup_2 in Hi. apply Hall in Hi as (_ & Hw & _). exact Hw.
  - rewrite map_app, length_app, Hnum. simpl.
    rewrite Nat.add_1_r, seq_S. reflexivity.
Qed.

Lemma well_formed_of_invariant (d : Z) (chunks : list Chunk) (start : Q) (n : nat) :
  loop_invariant d chunks start n -> well_formed d chunks.
Proof.
  intros (_ & Hall & Hsorted & Hnum & _).
  repeat split; try assumption.
  - eapply Forall_impl; [exact Hall |]. intros c (Ha & _). exact Ha.
  - intros i c Hi _. rewrite Forall_forall in Hall.
    apply list_elem_of_lookup_2 in Hi. apply Hall in Hi as (_ & Hw & _). exact Hw.
Qed.

(** Closing the current window and opening a later one keeps the
    invariant, whether or not a chunk is emitted. *)
Lemma invariant_advance (d k' : Z) (chunks : list Chunk) (start start' : Q) (n : nat) :
  (0 < d)%Z ->
  loop_invariant d chunks start n ->
  (0 <= k')%Z -> (start' == inject_Z (k' * d))%Q -> (start < start')%Q ->
  loop_invariant d chunks start' n.
Proof.
  intros Hd (Hk & Hall & Hsorted & Hnum & Hn) Hk' Hs' Hlt.
  repeat split; try assumption.
  - exists k'. split; assumption.
  - eapply Forall_impl; [exact Hall |]. intros c (Ha & Hw & Hc).
    repeat split; try assumption. eapply Qlt_trans; eassumption.
Qed.

Lemma invariant_emit (d k' : Z) (chunks : list Chunk) (start start' : Q) (n : nat)
    (txt : string) :
  (0 < d)%Z ->
  loop_invariant d chunks start n ->
  (0 <= k')%Z -> (start' == inject_Z (k' * d))%Q -> (start < start')%Q ->
  loop_invariant d (chunks ++ [mkChunk n start (start + inject_Z d) txt]) start' (S n).
Proof.
  intros Hd Hinv Hk' Hs' Hlt.
  pose proof (well_formed_snoc d chunks start (start + inject_Z d) n txt Hinv)
    as (_ & Hsorted' & _ & Hnum').
  destruct Hinv as ([k [Hk Hs]] & Hall & Hsorted & Hnum & ->).
  repeat split; try assumption.
  - exists k'. split; assumption.
  - apply Forall_app. split.
    + eapply Forall_impl; [exact Hall |]. intros c (Ha & Hw & Hc).
      repeat split; try assumption. eapply Qlt_trans; eassumption.
    + constructor; [| constructor]. repeat split; try assumption.
      exists k. split; assumption.
  - rewrite length_app. simpl. lia.
Qed.

(** The loop returns, and what it returns is well formed. *)
Lemma chunk_loop_well_formed (d : Z) (subtitles : list Subtitle) :
  (0 < d)%Z ->
  forall chunks current start n,
    loop_invariant d chunks start n ->
    exists out, chunk_loop d subtitles chunks current start n = Some out
                /\ well_formed d out.
Proof.
  intros Hd. induction subtitles as [| subtitle rest IH]; intros chunks current start n Hinv.
  - simpl. destruct current as [| s current].
    + eexists. split; [reflexivity |]. eapply well_formed_of_invariant; eassumption.
    + eexists. split; [reflexivity |]. apply well_formed_snoc; assumption.
  - simpl. destruct (Qle_bool (start + inject_Z d) (sub_start_time subtitle)) eqn:Hb.
    + apply Qle_bool_iff in Hb.
      destruct (py_mod (sub_start_time subtitle) d) as [r |] eqn:Hr.
      2:{ unfold py_mod in Hr. destruct (d =? 0)%Z eqn:E; [| discriminate].
          apply Z.eqb_eq in E. lia. }
      pose proof Hinv as ([k [Hk Hs]] & _).
      destruct (realign d k start (sub_start_time subtitle) r Hd Hs Hb Hr)
        as (k' & Hkk' & Hs').
      assert (Hlt : (start < sub_start_time subtitle - r)%Q).
      { rewrite Hs, Hs'. rewrite <- Zlt_Qlt. nia. }
      destruct current as [| s current].
      * apply IH. eapply invariant_advance with (k' := k'); eauto; lia.
      * apply IH. eapply invariant_emit with (k' := k'); eauto; lia.
    + apply IH. exact Hinv.
Qed.

(** C10: for every event sequence and every positive chunk duration,
    segmentation returns a chunk sequence in which every start is a
    non-negative integer multiple of the duration, starts increase strictly
    in emission order, every chunk but the last ends one duration after its
    start, and the chunk numbers are 1..N in emission order. *)
Theorem segmentation_well_formed (subtitles : list Subtitle) (chunk_duration : Z) :
  (0 < chunk_duration)%Z ->
  exists chunks,
    create_5min_chunks subtitles chunk_duration = Some chunks
    /\ Forall (aligned chunk_duration) chunks
    /\ StronglySorted starts_before chunks
    /\ (forall i c, chunks !! i = Some c -> S i < length chunks ->
                    end_time c = (start_time c + inject_Z chunk_duration)%Q)
    /\ map chunk_number chunks = seq 1 (length chunks).
Proof.
  intros Hd. unfold create_5min_chunks.
  destruct (chunk_loop_well_formed chunk_duration subtitles Hd [] [] 0%Q 1)
    as (out & Hout & Hwf).
  - repeat split; try constructor.
    exists 0%Z. split; [lia | reflexivity].
  - exists out. split; [exact Hout | exact Hwf].
Qed.

(** The invariants at the transcript of the boundary example. *)
Lemma segmentation_well_formed_witness :
  (0 < 300)%Z
  /\ exists chunks,
       create_5min_chunks
         [event_at 0 "a"; event_at 290 "b"; event_at 305 "c"; event_at 610 "d"] 300
       = Some chunks
       /\ Forall (aligned 300) chunks
       /\ StronglySorted starts_before chunks
       /\ (forall i c, chunks !! i = Some c -> S i < length chunks ->
                       end_time c = (start_time c + inject_Z 300)%Q)
       /\ map chunk_number chunks = seq 1 (length chunks).
Proof.
  split; [lia |]. apply segmentation_well_formed. lia.
Defined.

(** C8: the transcript with events at 0, 290, 305 and 610 seconds and a
    300 second window yields exactly three chunks, numbered 1 to 3, starting
    at 0, 300 and 600; the first holds the events at 0 and 290, the second
    the event at 305, the third the event at 610; the empty transcript
    yields the empty chunk sequence. *)
Theorem chunk_boundaries (ta tb tc td : string) :
  (exists c1 c2 c3,
      create_5min_chunks
        [event_at 0 ta; event_at 290 tb; event_at 305 tc; event_at 610 td] 300
      = Some [c1; c2; c3]
      /\ map chunk_number [c1; c2; c3] = [1; 2; 3]
      /\ map start_time [c1; c2; c3] = [0; 300; 600]%Q
      /\ text c1 = chunk_text [event_at 0 ta; event_at 290 tb]
      /\ text c2 = chunk_text [event_at 305 tc]
      /\ text c3 = chunk_text [event_at 610 td])
  /\ (forall chunk_duration, create_5min_chunks [] chunk_duration = Some []).
Proof.
  split; [| reflexivity].
  eexists _, _, _. split; [reflexivity |].
  repeat split; reflexivity.
Qed.

End SegmenterSpec.

(** ** Reconciliation *)

Module ReconcilerSpec.
Import Disk Control Reconciler.

Lemma elem_of_existing dir control_file redownload_deleted video_id :
  video_id ∈ get_existing_video_ids dir control_file redownload_deleted
  <-> exists video_info,
        downloaded_videos (load_control_file dir control_file) !! video_id = Some video_info
        /\ skipped dir redownload_deleted video_info = true.
Proof.
  unfold get_existing_video_ids. rewrite elem_of_dom. unfold is_Some.
  setoid_rewrite map_lookup_filter_Some. naive_solver.
Qed.

Lemma elem_of_actually_existing dir control_file video_id :
  video_id ∈ get_actually_existing_video_ids dir control_file
  <-> exists video_info,
        downloaded_videos (load_control_file dir control_file) !! video_id = Some video_info
        /\ present dir video_info = true.
Proof.
  unfold get_actually_existing_video_ids. rewrite elem_of_dom. unfold is_Some.
  setoid_rewrite map_lookup_filter_Some. naive_solver.
Qed.

(** An item whose primary file is on disk is skipped under either policy. *)
Lemma present_skipped dir redownload_deleted video_info :
  present dir video_info = true -> skipped dir redownload_deleted video_info = true.
Proof.
  unfold present, skipped. destruct (main_file video_info) as [p |]; [| done].
  destruct (PyStr.truthy p); [| done]. by intros ->.
Qed.

(** With [redownload_deleted] off, every recorded primary file counts,
    deleted or not. *)
Lemma skipped_keep_deleted dir video_info p :
  main_file video_info = Some p -> PyStr.truthy p = true ->
  skipped dir false video_info = true.
Proof.
  unfold skipped. intros -> ->. by destruct (path_exists dir p).
Qed.

(** With [redownload_deleted] on, the two skip functions agree. *)
Lemma skipped_redownload dir video_info :
  skipped dir true video_info = present dir video_info.
Proof.
  unfold skipped, present. destruct (main_file video_info) as [p |]; [| done].
  destruct (PyStr.truthy p); [| done]. by destruct (path_exists dir p).
Qed.

Lemma actually_existing_subseteq dir control_file redownload_deleted :
  get_actually_existing_video_ids dir control_file
  ⊆ get_existing_video_ids dir control_file redownload_deleted.
Proof.
  intros x. rewrite elem_of_actually_existing, elem_of_existing.
  intros (v & Hv & Hp). exists v. split; [done |]. by apply present_skipped.
Qed.

(** C1: with skipping enabled, the planned ids are among the ids the index
    lists, whatever the policy flag, and with [redownload_deleted] off no
    planned id has its recorded primary-media file on disk. *)
Theorem plan_set_algebra (dir : ChannelDir) (control_file : OnDisk ControlData)
    (index_data : Index.IndexData) :
  (forall redownload_deleted skip_existing,
      videos_to_download dir control_file index_data redownload_deleted skip_existing
      ⊆ list_to_set (default [] (Index.video_ids index_data)))
  /\ videos_to_download dir control_file index_data false true
     ## get_actually_existing_video_ids dir control_file.
Proof.
  split.
  - intros rd skip. unfold videos_to_download.
    destruct skip; [apply subseteq_difference_l |]; reflexivity.
  - unfold videos_to_download, downloaded_ids.
    apply disjoint_difference_l1, actually_existing_subseteq.
Qed.

(** Without skipping (the --no-skip switch) the plan is the whole index. *)
Lemma plan_no_skip dir control_file index_data redownload_deleted :
  videos_to_download dir control_file index_data redownload_deleted false
  = list_to_set (default [] (Index.video_ids index_data)).
Proof. reflexivity. Qed.

Lemma main_file_none video_info :
  PyStr.truthy_opt (audio (vfiles video_info)) = false ->
  PyStr.truthy_opt (video (vfiles video_info)) = false ->
  PyStr.truthy_opt (main_file video_info) = false.
Proof.
  unfold main_file, PyStr.or_else, PyStr.truthy_opt.
  destruct (audio (vfiles video_info)) as [a |]; [| done].
  intros ->. done.
Qed.

(** An entry without a primary file is never skipped. *)
Lemma no_media_not_skipped (dir : ChannelDir) (control_file : OnDisk ControlData)
    (video_id : string) (video_info : VideoRecord) :
  downloaded_videos (load_control_file dir control_file) !! video_id = Some video_info ->
  PyStr.truthy_opt (audio (vfiles video_info)) = false ->
  PyStr.truthy_opt (video (vfiles video_info)) = false ->
  forall redownload_deleted,
    (video_id ∉ get_existing_video_ids dir control_file redownload_deleted)
    /\ (video_id ∉ get_actually_existing_video_ids dir control_file).
Proof.
  intros Hv Ha Hvid.
  pose proof (main_file_none video_info Ha Hvid) as Hm.
  assert (Hs : forall rd', skipped dir rd' video_info = false).
  { intros rd'. unfold skipped. unfold PyStr.truthy_opt in Hm.
    destruct (main_file video_info) as [p |]; [| done]. by rewrite Hm. }
  assert (H1 : forall rd', video_id ∉ get_existing_video_ids dir control_file rd').
  { intros rd'. rewrite elem_of_existing. intros (v & Hv' & Hsk).
    rewrite Hv in Hv'. injection Hv' as <-. rewrite Hs in Hsk. done. }
  intros rd. split; [apply H1 |].
  intros Hin. eapply H1. by apply (actually_existing_subseteq _ _ true).
Qed.

(** An indexed id outside the skip sets is planned. *)
Lemma not_skipped_planned dir control_file index_data redownload_deleted skip_existing
    (video_id : string) :
  video_id ∈ default [] (Index.video_ids index_data) ->
  video_id ∉ get_existing_video_ids dir control_file redownload_deleted ->
  video_id ∉ get_actually_existing_video_ids dir control_file ->
  video_id ∈ videos_to_download dir control_file index_data
               redownload_deleted skip_existing.
Proof.
  intros Hin H1 H2. unfold videos_to_download, downloaded_ids.
  destruct skip_existing; [| by apply elem_of_list_to_set].
  apply elem_of_difference. split; [by apply elem_of_list_to_set |].
  destruct redownload_deleted; [exact H2 | exact H1].
Qed.

(** C9: a ledger entry that records neither an audio nor a video path is
    in no skip set, under either value of [redownload_deleted], and so is
    planned whenever the index lists it. *)
Theorem entry_without_media_replanned (dir : ChannelDir)
    (control_file : OnDisk ControlData) (video_id : string) (video_info : VideoRecord) :
  downloaded_videos (load_control_file dir control_file) !! video_id = Some video_info ->
  PyStr.truthy_opt (audio (vfiles video_info)) = false ->
  PyStr.truthy_opt (video (vfiles video_info)) = false ->
  forall redownload_deleted,
    (video_id ∉ get_existing_video_ids dir control_file redownload_deleted)
    /\ (video_id ∉ get_actually_existing_video_ids dir control_file)
    /\ forall index_data skip_existing,
         video_id ∈ default [] (Index.video_ids index_data) ->
         video_id ∈ videos_to_download dir control_file index_data
                      redownload_deleted skip_existing.
Proof.
  intros Hv Ha Hvid rd.
  destruct (no_media_not_skipped dir control_file video_id video_info Hv Ha Hvid rd)
    as [H1 H2].
  split; [exact H1 |]. split; [exact H2 |].
  intros index_data skip Hin. by apply not_skipped_planned.
Qed.

(** The entry of X in the refreshed ledger of the directory that lost
    a.mp3 records no primary file: X is in no skip set and is planned under
    both policies. *)
Lemma entry_without_media_replanned_witness :
  ("X" ∉ get_existing_video_ids Scenarios.dir_media_deleted
           (Content (Scenarios.refreshed_control Scenarios.dir_media_deleted)) false)
  /\ ("X" ∉ get_existing_video_ids Scenarios.dir_media_deleted
              (Content (Scenarios.refreshed_control Scenarios.dir_media_deleted)) true)
  /\ ("X" ∉ get_actually_existing_video_ids Scenarios.dir_media_deleted
              (Content (Scenarios.refreshed_control Scenarios.dir_media_deleted)))
  /\ "X" ∈ videos_to_download Scenarios.dir_media_deleted
             (Content (Scenarios.refreshed_control Scenarios.dir_media_deleted))
             Scenarios.index_X false true
  /\ "X" ∈ videos_to_download Scenarios.dir_media_deleted
             (Content (Scenarios.refreshed_control Scenarios.dir_media_deleted))
             Scenarios.index_X true true.
Proof.
  set (v := default
              (mkVideoRecord "" "" 0 "" "" (mkFiles None None None None [] [] None) 0 "" None)
              (downloaded_videos (Scenarios.refreshed_control Scenarios.dir_media_deleted)
               !! "X")).
  assert (Hv : downloaded_videos
                 (load_control_file Scenarios.dir_media_deleted
                    (Content (Scenarios.refreshed_control Scenarios.dir_media_deleted)))
               !! "X" = Some v) by (vm_compute; reflexivity).
  assert (Ha : PyStr.truthy_opt (audio (vfiles v)) = false) by reflexivity.
  assert (Hvi : PyStr.truthy_opt (video (vfiles v)) = false) by reflexivity.
  pose proof (entry_without_media_replanned Scenarios.dir_media_deleted
                (Content (Scenarios.refreshed_control Scenarios.dir_media_deleted))
                "X" v Hv Ha Hvi) as H.
  destruct (H false) as (A1 & A2 & A3). destruct (H true) as (B1 & _ & B3).
  split; [exact A1 |]. split; [exact B1 |]. split; [exact A2 |].
  split; [apply A3 | apply B3]; simpl; apply list_elem_of_here.
Defined.

End ReconcilerSpec.

(** ** The control ledger *)

Module ControlSpec.
Import Disk Control.

Lemma scan_info_file_total dir c entry :
  total_videos (statistics (scan_info_file dir c entry))
  = total_videos (statistics c) + length (option_list (scanned_id entry)).
Proof.
  destruct entry as [wd f]. unfold scan_info_file, scanned_id. simpl.
  destruct (f_json f) as [v |]; simpl; [| lia].
  destruct (PyStr.truthy (ij_video_id v)); simpl; lia.
Qed.

Lemma scan_info_file_dom dir c entry :
  dom (downloaded_videos (scan_info_file dir c entry))
  = dom (downloaded_videos c) ∪ list_to_set (option_list (scanned_id entry)).
Proof.
  destruct entry as [wd f]. unfold scan_info_file, scanned_id. simpl.
  destruct (f_json f) as [v |]; simpl; [| set_solver].
  destruct (PyStr.truthy (ij_video_id v)); simpl; [| set_solver].
  rewrite dom_insert_L. set_solver.
Qed.

(** The counter grows with every descriptor that carries an id. *)
Lemma scan_fold_total dir entries : forall c,
  total_videos (statistics (fold_left (scan_info_file dir) entries c))
  = total_videos (statistics c) + length (omap scanned_id entries).
Proof.
  induction entries as [| e entries IH]; intros c; simpl; [lia |].
  rewrite IH, scan_info_file_total.
  destruct (scanned_id e); simpl; unfold omap; lia.
Qed.

(** The ledger holds one entry per distinct id. *)
Lemma scan_fold_dom dir entries : forall c,
  dom (downloaded_videos (fold_left (scan_info_file dir) entries c))
  = dom (downloaded_videos c) ∪ list_to_set (omap scanned_id entries).
Proof.
  induction entries as [| e entries IH]; intros c; simpl; [set_solver |].
  rewrite IH, scan_info_file_dom.
  destruct (scanned_id e); simpl; unfold omap; set_solver.
Qed.

Lemma scan_dom now dir :
  dom (downloaded_videos (scan_channel_directory now dir))
  = list_to_set (omap scanned_id (info_files dir)).
Proof.
  unfold scan_channel_directory. rewrite scan_fold_dom. simpl. set_solver.
Qed.

(** A rescan counts right when no two descriptors carry the same id. *)
Lemma scan_total_distinct now dir :
  NoDup (omap scanned_id (info_files dir)) ->
  total_videos (statistics (scan_channel_directory now dir))
  = size (downloaded_videos (scan_channel_directory now dir)).
Proof.
  intros Hnd. rewrite <- size_dom, scan_dom, size_list_to_set by exact Hnd.
  unfold scan_channel_directory. rewrite scan_fold_total. reflexivity.
Qed.

(** The merge with a previous ledger recomputes the count. *)
Lemma merge_total now dir existing current :
  total_videos (statistics (merge_control now dir existing current))
  = size (downloaded_videos (merge_control now dir existing current)).
Proof. reflexivity. Qed.

(** The rescan is written verbatim unless deleted records are preserved and
    a previous ledger exists. *)
Lemma control_data_verbatim now dir existing :
  control_data_for now false existing dir = scan_channel_directory now dir
  /\ control_data_for now true None dir = scan_channel_directory now dir.
Proof. split; [by destruct existing | reflexivity]. Qed.

(** C6: for the directory that holds two descriptors of the video X, the
    rescan reports two videos while its entries map has the single key X;
    the record is written as it is when deleted records are not preserved
    and when there is no previous ledger. *)
Theorem duplicate_descriptor_miscount :
  let rescanned := scan_channel_directory Scenarios.clock Scenarios.dir_duplicate in
  total_videos (statistics rescanned) = 2
  /\ size (downloaded_videos rescanned) = 1
  /\ dom (downloaded_videos rescanned) = {["X"]}
  /\ control_data_for Scenarios.clock false (Some Scenarios.previous_control)
       Scenarios.dir_duplicate = rescanned
  /\ control_data_for Scenarios.clock true None Scenarios.dir_duplicate = rescanned.
Proof.
  assert (Hdom : dom (downloaded_videos
                        (scan_channel_directory Scenarios.clock Scenarios.dir_duplicate))
                 = {["X"]}).
  { rewrite scan_dom. vm_compute omap. set_solver. }
  cbv zeta. split; [| split; [| split; [exact Hdom | split; reflexivity]]].
  - unfold scan_channel_directory. rewrite scan_fold_total. reflexivity.
  - rewrite <- size_dom, Hdom. apply size_singleton.
Qed.

End ControlSpec.

(** ** The deletion policy across a ledger refresh *)

Module DeletionSpec.
Import Disk Control Reconciler ReconcilerSpec.

(** A refresh that preserves deleted records keeps every id of the previous
    ledger. *)
Lemma preserved_listed now dir existing (video_id : string) :
  is_Some (downloaded_videos existing !! video_id) ->
  is_Some (downloaded_videos (control_data_for now true (Some existing) dir) !! video_id).
Proof.
  intros [v Hv]. simpl. unfold merge_control. simpl.
  destruct (downloaded_videos (scan_channel_directory now dir) !! video_id) as [v' |] eqn:E.
  - exists v'. by apply lookup_union_Some_l.
  - exists v. rewrite lookup_union_r; done.
Qed.

(** When the rescan finds no descriptor of the item, the preserved record
    is the previous one, and with [redownload_deleted] off the item stays
    out of the plan although its file is gone. *)
Lemma preserved_record_skipped now dir existing index_data (video_id : string)
    (video_info : VideoRecord) (p : string) :
  downloaded_videos existing !! video_id = Some video_info ->
  main_file video_info = Some p -> PyStr.truthy p = true ->
  video_id ∉ omap scanned_id (info_files dir) ->
  downloaded_videos (control_data_for now true (Some existing) dir) !! video_id
  = Some video_info
  /\ (video_id ∉ videos_to_download dir
                   (Content (control_data_for now true (Some existing) dir))
                   index_data false true).
Proof.
  intros Hv Hm Hp Hnew.
  assert (Hlook : downloaded_videos (control_data_for now true (Some existing) dir)
                  !! video_id = Some video_info).
  { simpl. rewrite lookup_union_r; [exact Hv |].
    apply not_elem_of_dom. rewrite ControlSpec.scan_dom.
    by rewrite elem_of_list_to_set. }
  split; [exact Hlook |].
  unfold videos_to_download, downloaded_ids. rewrite elem_of_difference.
  intros [_ Hno]. apply Hno. apply elem_of_existing.
  exists video_info. split; [exact Hlook |]. by eapply skipped_keep_deleted.
Qed.

(** With [redownload_deleted] on, a recorded item whose primary file is
    gone is not counted as present and is planned when indexed. *)
Lemma deleted_replanned_when_enabled dir control_file index_data (video_id : string)
    (video_info : VideoRecord) :
  downloaded_videos (load_control_file dir control_file) !! video_id = Some video_info ->
  present dir video_info = false ->
  (video_id ∉ get_actually_existing_video_ids dir control_file)
  /\ (video_id ∈ default [] (Index.video_ids index_data) ->
      video_id ∈ videos_to_download dir control_file index_data true true).
Proof.
  intros Hv Hp.
  assert (Hno : video_id ∉ get_actually_existing_video_ids dir control_file).
  { rewrite elem_of_actually_existing. intros (v & Hv' & Hp').
    rewrite Hv in Hv'. injection Hv' as <-. rewrite Hp in Hp'. done. }
  split; [exact Hno |]. intros Hin.
  unfold videos_to_download, downloaded_ids.
  apply elem_of_difference. split; [by apply elem_of_list_to_set | exact Hno].
Qed.

(** C2: the ledger records X with a.mp3 and a.mp3 has been deleted while
    the descriptor a.info.json is still there.  With [redownload_deleted]
    off, the refreshed ledger still lists X, but its record of X comes from
    the rescan and names no primary file, so the fetch plan contains X. *)
Theorem deleted_media_replanned :
  let dir := Scenarios.dir_media_deleted in
  let refreshed := Scenarios.refreshed_control dir in
  (audio ∘ vfiles <$> downloaded_videos Scenarios.previous_control !! "X")
  = Some (Some "a.mp3")
  /\ path_exists dir "a.mp3" = false
  /\ should_preserve_deleted_records
       [Content [mkChannelConfig (Some "chan") (Some false)]] "chan" = true
  /\ (main_file <$> downloaded_videos refreshed !! "X") = Some None
  /\ "X" ∈ videos_to_download dir (Content refreshed) Scenarios.index_X false true.
Proof.
  cbv zeta. split; [by vm_compute |]. split; [reflexivity |]. split; [reflexivity |].
  assert (Hrec : exists v,
             downloaded_videos (Scenarios.refreshed_control Scenarios.dir_media_deleted)
             !! "X" = Some v
             /\ PyStr.truthy_opt (audio (vfiles v)) = false
             /\ PyStr.truthy_opt (video (vfiles v)) = false
             /\ main_file v = None).
  { eexists. split; [vm_compute; reflexivity |]. repeat split. }
  destruct Hrec as (v & Hv & Ha & Hvi & Hm).
  split; [by rewrite Hv; simpl; rewrite Hm |].
  destruct (no_media_not_skipped Scenarios.dir_media_deleted
              (Content (Scenarios.refreshed_control Scenarios.dir_media_deleted))
              "X" v Hv Ha Hvi false) as [H1 H2].
  apply not_skipped_planned; [| exact H1 | exact H2].
  simpl. apply list_elem_of_here.
Qed.

(** The same scenario when every file of X is gone: the refreshed ledger
    keeps the old record and the plan leaves X out. *)
Example all_files_deleted_skipped :
  "X" ∉ videos_to_download Scenarios.dir_all_deleted
          (Content (Scenarios.refreshed_control Scenarios.dir_all_deleted))
          Scenarios.index_X false true.
Proof.
  eapply (preserved_record_skipped _ _ _ _ "X").
  - vm_compute. reflexivity.
  - reflexivity.
  - reflexivity.
  - vm_compute. apply not_elem_of_nil.
Qed.

(** The second half of the scenario: with [redownload_deleted] on, X is not
    among the items present on disk and is planned. *)
Example deleted_media_redownloaded :
  ("X" ∉ get_actually_existing_video_ids Scenarios.dir_media_deleted
           (Content Scenarios.previous_control))
  /\ "X" ∈ videos_to_download Scenarios.dir_media_deleted
             (Content Scenarios.previous_control) Scenarios.index_X true true.
Proof.
  destruct (deleted_replanned_when_enabled Scenarios.dir_media_deleted
              (Content Scenarios.previous_control) Scenarios.index_X "X")
    with (video_info := (default
            (mkVideoRecord "" "" 0 "" "" (mkFiles None None None None [] [] None) 0 "" None)
            (downloaded_videos Scenarios.previous_control !! "X")))
    as [H1 H2].
  - vm_compute. reflexivity.
  - reflexivity.
  - split; [exact H1 |]. apply H2. simpl. apply list_elem_of_here.
Qed.

End DeletionSpec.

(** ** The channel index *)

Module IndexSpec.
Import Control (OnDisk, Absent, Corrupt, Content).
Import Index.

Example str_video_X :
  str Scenarios.video_X
  = "{'id': 'X', 'title': 'Episode', 'upload_date': '20240101', 'duration': 1800, "
    +:+ "'webpage_url': 'https://example.org/watch?v=X', 'uploader': 'chan', "
    +:+ "'view_count': 10, 'description': ''}".
Proof. reflexivity. Qed.

Example repr_quotes :
  PyRepr.repr_str "it's" = String "034" ("it's" +:+ String "034" "")
  /\ PyRepr.repr_str "a\b" = "'a\\b'".
Proof. split; reflexivity. Qed.

Example sorted_dates :
  sorted ["2024-03-01"; "2023-12-31"; "2024-01-01"]
  = ["2023-12-31"; "2024-01-01"; "2024-03-01"].
Proof. reflexivity. Qed.

Lemma merge_video_dom m v : dom (merge_video m v) = dom m ∪ {[id v]}.
Proof.
  unfold merge_video. destruct (m !! id v) as [old |] eqn:E.
  - assert (id v ∈ dom m) by (apply elem_of_dom; eauto).
    destruct (payload_size old <? payload_size v); [rewrite dom_insert_L |]; set_solver.
  - rewrite dom_insert_L. set_solver.
Qed.

Lemma merge_video_other m v (k : string) : k ≠ id v -> merge_video m v !! k = m !! k.
Proof.
  intros Hne. unfold merge_video. destruct (m !! id v) as [old |].
  - destruct (payload_size old <? payload_size v); [| done]. by rewrite lookup_insert_ne.
  - by rewrite lookup_insert_ne.
Qed.

Lemma merge_video_self m v :
  merge_video m v !! id v
  = Some (match m !! id v with Some old => larger old v | None => v end).
Proof.
  unfold merge_video, larger. destruct (m !! id v) as [old |] eqn:E.
  - destruct (payload_size old <? payload_size v); [by rewrite lookup_insert_eq | done].
  - by rewrite lookup_insert_eq.
Qed.

(** The ids after the loop: those before and those of the new videos. *)
Lemma fold_merge_dom new_videos : forall m,
  dom (fold_left merge_video new_videos m) = dom m ∪ list_to_set (map id new_videos).
Proof.
  induction new_videos as [| v l IH]; intros m; simpl; [set_solver |].
  rewrite IH, merge_video_dom. set_solver.
Qed.

Lemma fold_merge_other new_videos (k : string) : forall m,
  k ∉ map id new_videos -> fold_left merge_video new_videos m !! k = m !! k.
Proof.
  induction new_videos as [| v l IH]; intros m Hk; simpl; [done |].
  simpl in Hk. apply not_elem_of_cons in Hk as [Hne Hk].
  rewrite IH by exact Hk. by apply merge_video_other.
Qed.

(** The payload of a new video whose id occurs once in the batch. *)
Lemma fold_merge_member new_videos (a : Video) : forall m,
  NoDup (map id new_videos) -> a ∈ new_videos ->
  fold_left merge_video new_videos m !! id a
  = Some (match m !! id a with Some old => larger old a | None => a end).
Proof.
  induction new_videos as [| v l IH]; intros m Hnd Ha; [by apply elem_of_nil in Ha |].
  simpl in *. apply NoDup_cons in Hnd as [Hv Hnd].
  apply elem_of_cons in Ha as [-> | Ha].
  - rewrite fold_merge_other by exact Hv. apply merge_video_self.
  - rewrite IH by assumption.
    assert (id a ≠ id v).
    { intros Heq. apply Hv. rewrite <- Heq. by apply list_elem_of_fmap_2. }
    by rewrite merge_video_other.
Qed.

Lemma update_videos now existing new_videos cutoff :
  videos_of (update_unified_index now existing new_videos cutoff)
  = fold_left merge_video new_videos (videos_of existing).
Proof. reflexivity. Qed.

Lemma larger_comm a b :
  payload_size a ≠ payload_size b -> larger b a = larger a b.
Proof.
  intros Hne. unfold larger.
  destruct (payload_size a <? payload_size b) eqn:E1;
    destruct (payload_size b <? payload_size a) eqn:E2; try done.
  - apply Nat.ltb_lt in E1, E2. lia.
  - apply Nat.ltb_ge in E1, E2. lia.
Qed.

(** One batch merged into an index without videos. *)
Lemma first_batch_member now existing new_videos cutoff (a : Video) :
  videos_of existing = ∅ -> NoDup (map id new_videos) -> a ∈ new_videos ->
  videos_of (update_unified_index now existing new_videos cutoff) !! id a = Some a.
Proof.
  intros He Hnd Ha. rewrite update_videos, He.
  rewrite fold_merge_member by assumption. by rewrite lookup_empty.
Qed.

Lemma two_batches now1 now2 existing (A B : list Video) ca cb (a b : Video) :
  videos_of existing = ∅ -> NoDup (map id A) -> NoDup (map id B) ->
  a ∈ A -> b ∈ B -> id a = id b ->
  videos_of (update_unified_index now2 (update_unified_index now1 existing A ca) B cb)
  !! id a = Some (larger a b).
Proof.
  intros He HA HB Ha Hb Hid.
  rewrite (update_videos now2), Hid. rewrite fold_merge_member by assumption.
  rewrite <- Hid. by rewrite (first_batch_member now1 existing A ca a).
Qed.

Lemma two_batches_dom now1 now2 existing (A B : list Video) ca cb :
  videos_of existing = ∅ ->
  dom (videos_of (update_unified_index now2 (update_unified_index now1 existing A ca) B cb))
  = list_to_set (map id A) ∪ list_to_set (map id B).
Proof.
  intros He. rewrite !update_videos, !fold_merge_dom, He. set_solver.
Qed.

(** C7: two batches of incoming videos, each with pairwise distinct ids,
    merged into an index without videos in either order: the ids of the
    result are exactly the ids of the two batches, and an id that occurs in
    both with displays of different lengths keeps the video with the longer
    display, whatever the order. *)
Theorem merge_completeness (now1 now2 ca cb : string) (existing : IndexData)
    (A B : list Video) :
  videos_of existing = ∅ ->
  NoDup (map id A) -> NoDup (map id B) ->
  let AB :=
    videos_of (update_unified_index now2 (update_unified_index now1 existing A ca) B cb) in
  let BA :=
    videos_of (update_unified_index now2 (update_unified_index now1 existing B cb) A ca) in
  dom AB = list_to_set (map id A) ∪ list_to_set (map id B)
  /\ dom BA = list_to_set (map id A) ∪ list_to_set (map id B)
  /\ forall a b, a ∈ A -> b ∈ B -> id a = id b -> payload_size a ≠ payload_size b ->
       AB !! id a = Some (larger a b)
       /\ BA !! id a = Some (larger a b)
       /\ payload_size (larger a b) = Nat.max (payload_size a) (payload_size b).
Proof.
  intros He HA HB AB BA. subst AB BA.
  split; [by apply two_batches_dom |].
  split; [rewrite two_batches_dom by exact He; set_solver |].
  intros a b Ha Hb Hid Hne. split; [by apply two_batches |]. split.
  - rewrite Hid, <- (larger_comm a b) by exact Hne.
    by apply two_batches.
  - unfold larger. destruct (payload_size a <? payload_size b) eqn:E.
    + apply Nat.ltb_lt in E. lia.
    + apply Nat.ltb_ge in E. lia.
Qed.

(** The two descriptions of X, together with Y on one side, merged into
    the empty index: X keeps the longer title in both orders. *)
Lemma merge_completeness_witness :
  let A := [Scenarios.video_X; Scenarios.video_Y] in
  let B := [Scenarios.video_X_long] in
  let AB :=
    videos_of (update_unified_index "t2" (update_unified_index "t1" empty_index A "2024-01-01")
                 B "2023-12-01") in
  let BA :=
    videos_of (update_unified_index "t2" (update_unified_index "t1" empty_index B "2023-12-01")
                 A "2024-01-01") in
  dom AB = list_to_set (map id A) ∪ list_to_set (map id B)
  /\ dom BA = list_to_set (map id A) ∪ list_to_set (map id B)
  /\ AB !! "X" = Some Scenarios.video_X_long
  /\ BA !! "X" = Some Scenarios.video_X_long.
Proof.
  destruct (merge_completeness "t1" "t2" "2024-01-01" "2023-12-01" empty_index
              [Scenarios.video_X; Scenarios.video_Y] [Scenarios.video_X_long])
    as (HAB & HBA & Hboth).
  - reflexivity.
  - apply (bool_decide_unpack _). vm_compute. exact I.
  - apply (bool_decide_unpack _). vm_compute. exact I.
  - destruct (Hboth Scenarios.video_X Scenarios.video_X_long) as (H1 & H2 & _).
    + apply list_elem_of_here.
    + apply list_elem_of_here.
    + reflexivity.
    + vm_compute. lia.
    + cbv zeta. split; [exact HAB |]. split; [exact HBA |].
      split; [exact H1 | exact H2].
Defined.

(** The same rule in merge_channel_indexes.py, where the sources are whole
    index files: an id that two sources describe with displays of different
    lengths keeps the longer one in either order of the sources. *)
Lemma merge_sources_larger (A B : gmap string Video) (k : string) (a b : Video) :
  A !! k = Some a -> B !! k = Some b -> payload_size a ≠ payload_size b ->
  MergeIndexes.merge_videos (MergeIndexes.merge_videos ∅ A) B !! k = Some (larger a b)
  /\ MergeIndexes.merge_videos (MergeIndexes.merge_videos ∅ B) A !! k = Some (larger a b).
Proof.
  intros Ha Hb Hne. unfold MergeIndexes.merge_videos.
  rewrite !lookup_union_with, !lookup_empty, Ha, Hb. simpl.
  split; [reflexivity |]. by rewrite <- (larger_comm a b).
Qed.

Lemma merge_sources_dom (A B : gmap string Video) :
  dom (MergeIndexes.merge_videos (MergeIndexes.merge_videos ∅ A) B) = dom A ∪ dom B.
Proof.
  unfold MergeIndexes.merge_videos. apply set_eq. intros k.
  rewrite elem_of_union, !elem_of_dom, !lookup_union_with, lookup_empty.
  destruct (A !! k), (B !! k); simpl; unfold is_Some; naive_solver.
Qed.

Example merged_keeps_long_title :
  videos_of (update_unified_index "t2"
               (update_unified_index "t1" empty_index [Scenarios.video_X_long] "2023-12-01")
               [Scenarios.video_X; Scenarios.video_Y] "2024-01-01") !! "X"
  = Some Scenarios.video_X_long.
Proof. by vm_compute. Qed.

(** On a tie the first payload stays: the order of the batches decides. *)
Lemma larger_tie a b : payload_size a = payload_size b -> larger a b = a.
Proof. intros Heq. unfold larger. by rewrite Heq, Nat.ltb_irrefl. Qed.

End IndexSpec.

(** ** Legacy index records *)

Module RepairSpec.
Import Control (OnDisk, Absent, Corrupt, Content).
Import Index Repair.

(** The harvester's loader fills the missing lists with empty lists and
    takes the current cutoff date from its argument. *)
Lemma load_fills_defaults now index_data cutoff :
  cutoff_dates index_data = None -> index_history index_data = None ->
  current_cutoff_date index_data = None ->
  exists d, load_index_file now (Content index_data) cutoff = Some d
            /\ cutoff_dates d = Some []
            /\ index_history d = Some []
            /\ current_cutoff_date d = Some cutoff.
Proof.
  intros H1 H2 H3. eexists. split; [reflexivity |]. simpl.
  by rewrite H1, H2, H3.
Qed.

(** C4, as stated, at the legacy record with cutoff date 2024-01-01 and
    one video, loaded for that same cutoff date: what [load_index_file]
    returns has an empty list of cutoff dates and an empty history, not the
    legacy date and one entry. *)
Lemma load_legacy_counterexample :
  exists d,
    load_index_file Scenarios.clock (Content Scenarios.legacy_index) "2024-01-01" = Some d
    /\ cutoff_dates d = Some []
    /\ index_history d = Some []
    /\ ~ (cutoff_dates d = Some ["2024-01-01"]
          /\ current_cutoff_date d = Some "2024-01-01"
          /\ length (default [] (index_history d)) = 1).
Proof.
  eexists. split; [reflexivity |]. split; [reflexivity |]. split; [reflexivity |].
  intros (Hdates & _). simpl in Hdates. discriminate.
Qed.

Lemma repair_cutoff_dates_legacy d l c :
  cutoff_dates d = None -> cutoff_date d = Some c -> PyStr.truthy c = true ->
  repair_cutoff_dates false (d, l) = (set_cutoff_dates [c] d, l ++ ["cutoff_dates"]).
Proof.
  intros H1 H2 H3. unfold repair_cutoff_dates, check. cbn [fst snd].
  rewrite bool_decide_eq_true_2 by exact H1. by rewrite H2, H3.
Qed.

Lemma repair_index_history_legacy now d l :
  index_history d = None ->
  repair_index_history now false (d, l)
  = (set_index_history
       [mkHistoryEntry (Some (default "unknown" (cutoff_date d)))
          (Some (default now (created_date d))) (default 0%Z (total_videos d))
          (Some "repaired_legacy")] d,
     l ++ ["index_history"]).
Proof.
  intros H1. unfold repair_index_history, check. cbn [fst snd].
  by rewrite bool_decide_eq_true_2 by exact H1.
Qed.

Lemma repair_current_cutoff_date_legacy d l c :
  current_cutoff_date d = None -> cutoff_date d = Some c -> PyStr.truthy c = true ->
  repair_current_cutoff_date false (d, l)
  = (set_current_cutoff_date c d, l ++ ["current_cutoff_date"]).
Proof.
  intros H1 H2 H3. unfold repair_current_cutoff_date, check. cbn [fst snd].
  rewrite bool_decide_eq_true_2 by exact H1.
  rewrite H2. cbn [PyStr.truthy_opt default from_option]. by rewrite H3.
Qed.

(** The last three checks leave the cutoff fields, the history and the
    videos alone, and never shorten the list of repairs. *)
Lemma repair_tail_frame now dry_run st :
  let st' :=
    repair_total_videos dry_run (repair_video_ids dry_run (repair_last_updated now dry_run st)) in
  cutoff_dates st'.1 = cutoff_dates st.1
  /\ current_cutoff_date st'.1 = current_cutoff_date st.1
  /\ index_history st'.1 = index_history st.1
  /\ videos st'.1 = videos st.1
  /\ (st.2 ≠ [] -> st'.2 ≠ []).
Proof.
  destruct st as [d l]. cbv zeta.
  unfold repair_total_videos, repair_video_ids, repair_last_updated, check.
  cbn [fst snd].
  destruct (bool_decide (last_updated d = None)); cbn [fst snd];
    match goal with
    | |- context [match video_ids ?x with _ => _ end] =>
        destruct (match video_ids x with Some (_ :: _) => false | _ => true end)
    end; cbn [fst snd];
    match goal with |- context [negb ?b] => destruct (negb b) end; cbn [fst snd];
    destruct dry_run; repeat split; try done;
    intros Hl; try done;
    intros Happ; repeat (apply app_eq_nil in Happ as [Happ _]); done.
Qed.

(** C4, amended: repairing (not as a dry run) an index record that has a
    non-empty singular cutoff date and none of the fields cutoff_dates,
    index_history and current_cutoff_date rewrites the file with the list
    of cutoff dates holding exactly that date, the current cutoff date
    equal to it, and a history of exactly one entry, which carries that
    date; the videos are untouched. *)
Theorem repair_legacy (now : string) (index_data : IndexData) (c : string) :
  cutoff_date index_data = Some c -> PyStr.truthy c = true ->
  cutoff_dates index_data = None -> index_history index_data = None ->
  current_cutoff_date index_data = None ->
  exists d h,
    repair_index_file now (Content index_data) false = (Some true, Content d)
    /\ cutoff_dates d = Some [c]
    /\ current_cutoff_date d = Some c
    /\ index_history d = Some [h]
    /\ h_cutoff_date h = Some c
    /\ videos d = videos index_data.
Proof.
  intros Hc Ht Hdates Hhist Hcur.
  unfold repair_index_file, repair_index_data.
  rewrite (repair_cutoff_dates_legacy _ _ c) by assumption.
  rewrite repair_index_history_legacy by exact Hhist.
  rewrite (repair_current_cutoff_date_legacy _ _ c) by assumption.
  match goal with
  | |- context [repair_total_videos false (repair_video_ids false
                  (repair_last_updated now false ?st))] =>
      pose proof (repair_tail_frame now false st) as Hframe;
      cbv zeta in Hframe;
      destruct (repair_total_videos false (repair_video_ids false
                  (repair_last_updated now false st))) as [repaired repairs_needed]
  end.
  cbn [fst snd] in Hframe. destruct Hframe as (H1 & H2 & H3 & H4 & H5).
  destruct repairs_needed as [| r rs]; [by exfalso; apply H5 |].
  eexists repaired, _. split; [reflexivity |].
  rewrite H1, H2, H3, H4. cbn. rewrite Hc. repeat split.
Qed.

(** The legacy record with cutoff date 2024-01-01. *)
Lemma repair_legacy_witness :
  exists d h,
    repair_index_file Scenarios.clock (Content Scenarios.legacy_index) false
    = (Some true, Content d)
    /\ cutoff_dates d = Some ["2024-01-01"]
    /\ current_cutoff_date d = Some "2024-01-01"
    /\ index_history d = Some [h]
    /\ h_cutoff_date h = Some "2024-01-01"
    /\ videos d = videos Scenarios.legacy_index.
Proof.
  apply (repair_legacy Scenarios.clock Scenarios.legacy_index "2024-01-01");
    reflexivity.
Defined.

(** A second repair finds nothing to do and leaves the file alone. *)
Example repair_twice :
  forall d, (repair_index_file Scenarios.clock (Content Scenarios.legacy_index) false).2
            = Content d ->
            repair_index_file Scenarios.clock (Content d) false = (Some true, Content d).
Proof.
  intros d Hd. vm_compute in Hd. injection Hd as <-. by vm_compute.
Qed.

(** A dry run reports the repairs, changes nothing and falls off the end
    of the function. *)
Example repair_dry_run :
  repair_index_file Scenarios.clock (Content Scenarios.legacy_index) true
  = (None, Content Scenarios.legacy_index).
Proof. by vm_compute. Qed.

End RepairSpec.

(** ** The summarization client *)

Module ClientSpec.
Import Summarizer.

Example extract_completion :
  extract (JDict [("choices",
                   JList [JDict [("message", JDict [("role", JStr "assistant");
                                                    ("content", JStr " ok ")])]])])
  = Completion " ok ".
Proof. reflexivity. Qed.

Example extract_no_choices : extract (JDict [("error", JStr "overloaded")]) = InvalidFormat.
Proof. reflexivity. Qed.

Example extract_empty_choices : extract (JDict [("choices", JList [])]) = InvalidFormat.
Proof. reflexivity. Qed.

Example extract_no_message : extract (JDict [("choices", JList [JDict []])]) = Raises.
Proof. reflexivity. Qed.

Example extract_null_content :
  extract (JDict [("choices", JList [JDict [("message", JDict [("content", JNull)])]])])
  = Raises.
Proof. reflexivity. Qed.

(** A first choice without [message], or whose message has no [content],
    makes the extraction raise. *)
Lemma missing_content_raises (kvs m : list (string * json)) :
  (dict_get "message" kvs = None -> message_content (JDict kvs) = Raises)
  /\ (dict_get "message" kvs = Some (JDict m) -> dict_get "content" m = None ->
      message_content (JDict kvs) = Raises).
Proof.
  split.
  - intros H. unfold message_content. by rewrite H.
  - intros H1 H2. unfold message_content. by rewrite H1, H2.
Qed.



(** An exception ends the computation it occurs in. *)
Lemma bind_raised {A B} (m : M A) (k : A -> M B) (w w' : World) :
  m w = (Raised, w') -> bind m k w = (Raised, w').
Proof. intros H. unfold bind. by rewrite H. Qed.

(** The pause of a failed attempt: nothing after the last attempt, an
    exception for a negative delay, else one more event in the log. *)
Lemma retry_wait_then {A} attempt n delay (k : M A) (w : World) :
  bind (retry_wait attempt n delay) (fun _ => k) w
  = if (Z.of_nat attempt <? Z.of_nat n - 1)%Z
    then if (delay <? 0)%Z then (Raised, w)
         else k (mkWorld (folder w) (log w ++ [Sleep delay]))
    else k w.
Proof.
  unfold bind, retry_wait.
  destruct (Z.of_nat attempt <? Z.of_nat n - 1)%Z; [| reflexivity].
  by destruct (delay <? 0)%Z.
Qed.


Section Loop.
Variable server : list Event -> Request -> Outcome.
Variables (req : Request) (timeout delay : Z) (n : nat).

(** One turn of the loop on an outcome that is retryable: the request, then
    the pause and the remaining attempts, or an exception when the pause is
    due and the delay is negative. *)
Lemma attempt_loop_again attempt rest (w : World) :
  retryable (server (log w) req) = true ->
  attempt_loop server req timeout delay n (attempt :: rest) w
  = if (Z.of_nat attempt <? Z.of_nat n - 1)%Z
    then if (delay <? 0)%Z
         then (Raised, mkWorld (folder w) (log w ++ [Urlopen req timeout attempt]))
         else attempt_loop server req timeout delay n rest
                (mkWorld (folder w) (log w ++ [Urlopen req timeout attempt; Sleep delay]))
    else attempt_loop server req timeout delay n rest
           (mkWorld (folder w) (log w ++ [Urlopen req timeout attempt])).
Proof.
  intros Hr. cbn [attempt_loop]. unfold bind at 1. unfold get_log at 1.
  unfold bind at 1. unfold emit at 1. unfold retryable in Hr.
  assert (Hagain :
    bind (retry_wait attempt n delay)
      (fun _ => attempt_loop server req timeout delay n rest)
      (mkWorld (folder w) (log w ++ [Urlopen req timeout attempt]))
    = if (Z.of_nat attempt <? Z.of_nat n - 1)%Z
      then if (delay <? 0)%Z
           then (Raised, mkWorld (folder w) (log w ++ [Urlopen req timeout attempt]))
           else attempt_loop server req timeout delay n rest
                  (mkWorld (folder w) (log w ++ [Urlopen req timeout attempt; Sleep delay]))
      else attempt_loop server req timeout delay n rest
             (mkWorld (folder w) (log w ++ [Urlopen req timeout attempt]))).
  { rewrite retry_wait_then. cbn [folder log]. by rewrite <- app_assoc. }
  destruct (server (log w) req) as [status body | code dd | |].
  - destruct (status =? 200)%Z.
    + destruct body as [data |]; [| exact Hagain].
      destruct (extract data); try discriminate. exact Hagain.
    + exact Hagain.
  - subst dd. exact Hagain.
  - exact Hagain.
  - exact Hagain.
Qed.

(** One turn of the loop on a body without a non-empty [choices]. *)
Lemma attempt_loop_invalid attempt rest (w : World) response_data :
  server (log w) req = Response 200 (Some response_data) ->
  extract response_data = InvalidFormat ->
  attempt_loop server req timeout delay n (attempt :: rest) w
  = (Ok None, mkWorld (folder w) (log w ++ [Urlopen req timeout attempt])).
Proof.
  intros Hs He. cbn [attempt_loop]. unfold bind at 1. unfold get_log at 1.
  unfold bind at 1. unfold emit at 1. rewrite Hs. simpl. by rewrite He.
Qed.

(** One turn of the loop on a completion. *)
Lemma attempt_loop_completion attempt rest (w : World) response_data content :
  server (log w) req = Response 200 (Some response_data) ->
  extract response_data = Completion content ->
  attempt_loop server req timeout delay n (attempt :: rest) w
  = (Ok (Some (PyStr.strip content)),
     mkWorld (folder w) (log w ++ [Urlopen req timeout attempt])).
Proof.
  intros Hs He. cbn [attempt_loop]. unfold bind at 1. unfold get_log at 1.
  unfold bind at 1. unfold emit at 1. rewrite Hs. simpl. by rewrite He.
Qed.

(** One turn of the loop on an HTTP error whose body does not decode. *)
Lemma attempt_loop_raise attempt rest (w : World) code :
  server (log w) req = HTTPError code false ->
  attempt_loop server req timeout delay n (attempt :: rest) w
  = (Raised, mkWorld (folder w) (log w ++ [Urlopen req timeout attempt])).
Proof.
  intros Hs. cbn [attempt_loop]. unfold bind at 1. unfold get_log at 1.
  unfold bind at 1. unfold emit at 1. by rewrite Hs.
Qed.



End Loop.








(** A service that cannot be reached: three requests, two pauses, then the
    failure value. *)
Example unreachable_service :
  let req := build_request example_config "Summarize the chunk." "transcript text" "chunk" in
  call_llm_api (Some example_config) (fun _ _ => URLError) "transcript text" "chunk"
    (mkWorld (empty_folder []) [])
  = (Ok None,
     mkWorld (empty_folder [])
       [Urlopen req 60 0; Sleep 2; Urlopen req 60 1; Sleep 2; Urlopen req 60 2]).
Proof. by vm_compute. Qed.

(** A service that fails once and then answers: the second attempt, made
    after the pause, returns the stripped completion. *)
Example recovers_on_second_attempt :
  let server := fun (history : list Event) (_ : Request) =>
                  match history with
                  | [] => Response 503 None
                  | _ => Response 200 (Some (Scenarios.completion " summary "))
                  end in
  let req := build_request example_config "Summarize the chunk." "transcript text" "chunk" in
  call_llm_api (Some example_config) server "transcript text" "chunk"
    (mkWorld (empty_folder []) [])
  = (Ok (Some "summary"),
     mkWorld (empty_folder []) [Urlopen req 60 0; Sleep 2; Urlopen req 60 1]).
Proof. by vm_compute. Qed.

(** An HTTP error whose body is not UTF-8 escapes the handler. *)
Example undecodable_error_body_raises :
  (call_llm_api (Some example_config) (fun _ _ => HTTPError 500 false) "transcript text"
     "chunk" (mkWorld (empty_folder []) [])).1
  = Raised.
Proof. by vm_compute. Qed.

(** A negative delay: the pause after the first failed attempt raises. *)
Example negative_delay_raises :
  let cfg := mkLLMConfig "http://localhost:1234" "local-model"
               {["chunk" := "Summarize the chunk."]} None None (Some 3%Z) (Some (-1)%Z)
               (Some 60%Z) in
  let req := build_request cfg "Summarize the chunk." "transcript text" "chunk" in
  call_llm_api (Some cfg) (fun _ _ => Response 503 None) "transcript text" "chunk"
    (mkWorld (empty_folder []) [])
  = (Raised, mkWorld (empty_folder []) [Urlopen req 60 0]).
Proof. by vm_compute. Qed.

End ClientSpec.

(** ** The summarization pipeline *)

Module PipelineSpec.
Import Segmenter Summarizer ClientSpec.


Lemma requests_app evs1 evs2 : requests (evs1 ++ evs2) = requests evs1 ++ requests evs2.
Proof. apply flat_map_app. Qed.


Section Chunks.
Variables (LLM_CONFIG : option LLMConfig) (server : list Event -> Request -> Outcome).

(** A chunk whose summary file exists is loaded. *)
Lemma summarize_chunks_loaded c rest acc (w : World) summary :
  summary_files (folder w) !! chunk_number c = Some summary ->
  summarize_chunks LLM_CONFIG server (c :: rest) acc w
  = summarize_chunks LLM_CONFIG server rest (acc ++ [(chunk_number c, summary)]) w.
Proof.
  intros Hs. cbn [summarize_chunks]. unfold bind at 1. unfold get_folder at 1.
  by rewrite Hs.
Qed.

(** A chunk without summary file is sent to the service; a non-empty
    answer is persisted before the loop goes on. *)
Lemma summarize_chunks_called c rest acc (w w1 : World) r :
  summary_files (folder w) !! chunk_number c = None ->
  call_llm_api LLM_CONFIG server (text c) "chunk" w = (Ok r, w1) ->
  summarize_chunks LLM_CONFIG server (c :: rest) acc w
  = match r with
    | Some summary =>
        if PyStr.truthy summary
        then summarize_chunks LLM_CONFIG server rest (acc ++ [(chunk_number c, summary)])
               (mkWorld
                  (mkFolder (folder_name (folder w1)) (srt_files (folder w1))
                     (chunk_files (folder w1))
                     (<[chunk_number c := summary]> (summary_files (folder w1)))
                     (final_summary_file (folder w1)) (metadata_file (folder w1)))
                  (log w1))
        else summarize_chunks LLM_CONFIG server rest acc w1
    | None => summarize_chunks LLM_CONFIG server rest acc w1
    end.
Proof.
  intros Hs Hcall. cbn [summarize_chunks]. unfold bind at 1. unfold get_folder at 1.
  rewrite Hs. unfold bind at 1. rewrite Hcall.
  destruct r as [summary |]; [| done].
  destruct (PyStr.truthy summary); [| done].
  unfold bind at 1. unfold write_summary, bind, get_folder, put_folder. done.
Qed.

(** A chunk without summary file whose call ends in an exception ends the
    loop. *)
Lemma summarize_chunks_aborted c rest acc (w w1 : World) :
  summary_files (folder w) !! chunk_number c = None ->
  call_llm_api LLM_CONFIG server (text c) "chunk" w = (Raised, w1) ->
  summarize_chunks LLM_CONFIG server (c :: rest) acc w = (Raised, w1).
Proof.
  intros Hs Hcall. cbn [summarize_chunks]. unfold bind at 1. unfold get_folder at 1.
  rewrite Hs. unfold bind at 1. by rewrite Hcall.
Qed.

End Chunks.

Section Resume.
Variables (cfg : LLMConfig) (server : list Event -> Request -> Outcome).
Variable chunk_prompt : string.
Hypothesis chunk_prompt_set : system_prompts cfg !! "chunk" = Some chunk_prompt.
Hypothesis chunk_prompt_truthy : PyStr.truthy chunk_prompt = true.
Hypothesis attempts_configured : (0 < default 3 (max_retries cfg))%Z.


End Resume.

Lemma bind_ok {A B} (m : M A) (k : A -> M B) (w w' : World) (a : A) :
  m w = (Ok a, w') -> bind m k w = k a w'.
Proof. intros H. unfold bind. by rewrite H. Qed.






(** The run of that folder, evaluated: one call for chunk 3, then the
    final call over the two loaded summaries and the fresh one. *)
Example resume_two_of_three :
  let outcome := process_video_folder (Some example_config) Scenarios.answering_server
                   Scenarios.clock "pl" (mkWorld Scenarios.folder_two_of_three []) in
  outcome.1 = Ok true
  /\ map user_content (requests (log outcome.2))
     = [user_prompt "chunk" "d";
        user_prompt "final"
          (combined_summaries [(1, "first"); (2, "second"); (3, "summary")])]
  /\ final_summary_file (folder outcome.2) = Some "summary".
Proof. by vm_compute. Qed.

End PipelineSpec.

(** ** More on segmentation *)

Module SegmenterFacts.
Import Segmenter.

(** The loop emits at most one chunk per pending window and subtitle, and at
    least one as soon as there is anything to emit. *)
Lemma chunk_loop_count d subtitles : forall chunks current start n out,
  chunk_loop d subtitles chunks current start n = Some out ->
  length chunks + (match current, subtitles with [], [] => 0 | _, _ => 1 end) <= length out
  /\ length out <= length chunks + (match current with [] => 0 | _ => 1 end) + length subtitles.
Proof.
  induction subtitles as [| s rest IH]; intros chunks current start n out H; simpl in H.
  - destruct current; injection H as <-; rewrite ?length_app; simpl; lia.
  - destruct (Qle_bool (start + inject_Z d) (sub_start_time s)).
    + destruct current as [| c0 cur]; destruct (py_mod (sub_start_time s) d) as [r |];
        try discriminate; apply IH in H; rewrite ?length_app in H; simpl in *;
        destruct rest; lia.
    + apply IH in H. destruct current, rest; simpl in *; lia.
Qed.

(** X1: For a positive duration, segmentation returns at most one chunk per
    subtitle, and no chunk only for the empty transcript. *)
Theorem chunk_count (subtitles : list Subtitle) (chunk_duration : Z) :
  (0 < chunk_duration)%Z ->
  exists chunks,
    create_5min_chunks subtitles chunk_duration = Some chunks
    /\ length chunks <= length subtitles
    /\ (chunks = [] <-> subtitles = []).
Proof.
  intros Hd.
  destruct (SegmenterSpec.chunk_loop_well_formed chunk_duration subtitles Hd [] [] 0%Q 1)
    as (out & Hout & _).
  { repeat split; try constructor. exists 0%Z. split; [lia | reflexivity]. }
  exists out. split; [exact Hout |].
  apply chunk_loop_count in Hout as [Hlo Hhi]. simpl in *.
  split; [lia |]. split.
  - intros ->. destruct subtitles; [done | simpl in Hlo; lia].
  - intros ->. destruct out; [done | simpl in Hhi; lia].
Qed.

Lemma chunk_count_witness :
  exists chunks,
    create_5min_chunks Scenarios.transcript 300 = Some chunks
    /\ length chunks <= length Scenarios.transcript
    /\ (chunks = [] <-> Scenarios.transcript = []).
Proof. apply chunk_count. lia. Defined.

(** Two aligned starts in strict order are at least one duration apart. *)
Lemma aligned_gap d (c c' : Chunk) :
  (0 < d)%Z -> aligned d c -> aligned d c' -> starts_before c c' ->
  (start_time c + inject_Z d <= start_time c')%Q.
Proof.
  intros Hd (k & _ & Hk) (k' & _ & Hk') Hlt. unfold starts_before in Hlt.
  rewrite Hk, Hk' in *. rewrite <- Zlt_Qlt in Hlt.
  rewrite <- inject_Z_plus, <- Zle_Qle.
  assert (k < k')%Z by nia. nia.
Qed.

(** X2: For a positive duration, the windows of the emitted chunks do not
    overlap: every chunk but the last ends no later than the next one
    starts. *)
Theorem windows_disjoint (subtitles : list Subtitle) (chunk_duration : Z)
    (chunks : list Chunk) :
  (0 < chunk_duration)%Z ->
  create_5min_chunks subtitles chunk_duration = Some chunks ->
  forall i c c',
    chunks !! i = Some c -> chunks !! S i = Some c' ->
    (end_time c <= start_time c')%Q.
Proof.
  intros Hd Hcreate i c c' Hc Hc'.
  destruct (SegmenterSpec.chunk_loop_well_formed chunk_duration subtitles Hd [] [] 0%Q 1)
    as (out & Hout & Hall & Hsorted & Hfull & _).
  { repeat split; try constructor. exists 0%Z. split; [lia | reflexivity]. }
  unfold create_5min_chunks in Hcreate. rewrite Hcreate in Hout. injection Hout as <-.
  assert (Hlen : S i < length chunks) by (by eapply lookup_lt_Some).
  rewrite (Hfull i c Hc Hlen).
  rewrite Forall_forall in Hall.
  apply aligned_gap; [exact Hd | apply Hall | apply Hall |].
  - by eapply list_elem_of_lookup_2.
  - by eapply list_elem_of_lookup_2.
  - apply (take_drop_middle chunks i c) in Hc as Hsplit.
    rewrite <- Hsplit in Hsorted.
    apply StronglySorted_app_1_r in Hsorted.
    apply StronglySorted_cons in Hsorted as [Hfa _].
    rewrite Forall_forall in Hfa. apply Hfa.
    apply list_elem_of_lookup. exists 0.
    rewrite lookup_drop. by replace (S i + 0) with (S i) by lia.
Qed.

Lemma windows_disjoint_witness :
  exists c c',
    default [] (create_5min_chunks Scenarios.transcript 300) !! 1 = Some c
    /\ default [] (create_5min_chunks Scenarios.transcript 300) !! 2 = Some c'
    /\ (end_time c <= start_time c')%Q.
Proof.
  eexists _, _. split; [reflexivity |]. split; [reflexivity |].
  eapply (windows_disjoint Scenarios.transcript 300 _ ltac:(lia) eq_refl 1);
    reflexivity.
Defined.

(** The last element of a list extended at the right. *)
Lemma last_snoc_app {A} (l1 l2 : list A) (x : A) :
  last ((l1 ++ [x]) ++ l2) = last (l1 ++ x :: l2).
Proof. by rewrite <- app_assoc. Qed.

Lemma last_start_time_last current s :
  last current = Some s -> last_start_time current = sub_start_time s.
Proof. intros H. unfold last_start_time. by rewrite H. Qed.

(** The chunk emitted last ends 60 seconds after the start of the last
    subtitle. *)
Lemma chunk_loop_final_end d subtitles : forall chunks current start n out,
  chunk_loop d subtitles chunks current start n = Some out ->
  current ++ subtitles <> [] ->
  exists c s, last out = Some c /\ last (current ++ subtitles) = Some s
              /\ end_time c = (sub_start_time s + 60)%Q.
Proof.
  induction subtitles as [| s0 rest IH]; intros chunks current start n out H Hne;
    simpl in H.
  - rewrite app_nil_r in *. destruct current as [| c0 cur]; [done |].
    injection H as <-.
    destruct (last (c0 :: cur)) as [s |] eqn:Hlast.
    2:{ apply last_None in Hlast. done. }
    eexists _, s. split; [apply last_snoc |]. split; [done |].
    simpl. by rewrite (last_start_time_last _ s Hlast).
  - destruct (Qle_bool (start + inject_Z d) (sub_start_time s0)).
    + assert (Hlast : last (current ++ s0 :: rest) = last ([s0] ++ rest)).
      { by rewrite last_app_cons. }
      rewrite Hlast.
      destruct current as [| c0 cur]; destruct (py_mod (sub_start_time s0) d) as [r |];
        try discriminate; eapply IH in H; try done.
    + rewrite <- last_snoc_app. eapply IH in H; [exact H |].
      destruct current; done.
Qed.

(** X3: Whenever segmentation returns for a transcript whose last subtitle
    starts at a whole number of seconds [t], with [t + 60] at most 2^53 so
    that the sum is exact in double precision, the last chunk carries the
    approximate end [t + 60]. *)
Theorem final_chunk_end (subtitles : list Subtitle) (chunk_duration : Z)
    (chunks : list Chunk) (s : Subtitle) (t : Z) :
  last subtitles = Some s ->
  sub_start_time s = inject_Z t ->
  (0 <= t)%Z ->
  (t + 60 <= 2 ^ 53)%Z ->
  create_5min_chunks subtitles chunk_duration = Some chunks ->
  exists c, last chunks = Some c /\ (end_time c == inject_Z (t + 60))%Q.
Proof.
  intros Hlast Hs _ _ H.
  destruct (chunk_loop_final_end _ _ _ _ _ _ _ H) as (c & s' & Hc & Hs' & Hend).
  { simpl. intros ->. discriminate. }
  simpl in Hs'. rewrite Hlast in Hs'. injection Hs' as <-.
  exists c. split; [exact Hc |]. rewrite Hend, Hs.
  rewrite inject_Z_plus. reflexivity.
Qed.

Lemma final_chunk_end_witness :
  exists c,
    last (default [] (create_5min_chunks Scenarios.transcript 300)) = Some c
    /\ (end_time c == inject_Z (610 + 60))%Q.
Proof.
  apply (final_chunk_end Scenarios.transcript 300 _ (event_at 610 "d") 610);
    [reflexivity | reflexivity | lia | lia | reflexivity].
Defined.

End SegmenterFacts.

(** ** More on the summarization client *)

Module ClientFacts.
Import Summarizer ClientSpec.

Lemma string_length_append (s1 s2 : string) :
  String.length (s1 +:+ s2) = String.length s1 + String.length s2.
Proof. induction s1 as [| c s1 IH]; simpl; [done | by rewrite IH]. Qed.

Lemma substring_prefix_length (n : nat) (s : string) :
  String.length (String.substring 0 n s) = Nat.min n (String.length s).
Proof.
  revert s. induction n as [| n IH]; intros [| c s]; simpl; try done.
  by rewrite IH.
Qed.

Lemma substring_is_prefix (n : nat) (s : string) :
  String.prefix (String.substring 0 n s) s = true.
Proof.
  revert s. induction n as [| n IH]; intros [| c s]; simpl; try done.
  destruct (ascii_dec c c); [apply IH | done].
Qed.

(** X4: With a budget of at least 25 tokens, the text handed to the service
    never exceeds four characters per token: a text that fits is passed
    unchanged, a longer one is cut to a prefix of 4*max_tokens - 100
    characters followed by the truncation note. *)
Theorem truncation_bound (text : string) (max_tokens_ : Z) :
  (25 <= max_tokens_)%Z ->
  (Z.of_nat (String.length (truncate_text_to_context text max_tokens_)) <= max_tokens_ * 4)%Z
  /\ ((Z.of_nat (String.length text) <= max_tokens_ * 4)%Z ->
      truncate_text_to_context text max_tokens_ = text)
  /\ ((max_tokens_ * 4 < Z.of_nat (String.length text))%Z ->
      exists kept,
        truncate_text_to_context text max_tokens_
        = kept +:+ String "010" (String "010" "[Note: Content truncated to fit context length]")
        /\ String.prefix kept text = true
        /\ Z.of_nat (String.length kept) = (max_tokens_ * 4 - 100)%Z).
Proof.
  intros Hm. unfold truncate_text_to_context, PyStr.slice_to.
  destruct (Z.of_nat (String.length text) <=? max_tokens_ * 4)%Z eqn:Hfit.
  - apply Z.leb_le in Hfit. split; [exact Hfit |]. split; [done | lia].
  - apply Z.leb_gt in Hfit.
    destruct (0 <=? max_tokens_ * 4 - 100)%Z eqn:Hpos; [| apply Z.leb_gt in Hpos; lia].
    split; [| split; [lia |]].
    + rewrite string_length_append, substring_prefix_length. simpl. lia.
    + intros _. eexists. split; [reflexivity |].
      split; [apply substring_is_prefix |].
      rewrite substring_prefix_length. lia.
Qed.

Lemma truncation_bound_witness :
  (Z.of_nat (String.length
               (truncate_text_to_context (PyStr.join "" (replicate 60 "ab")) 25)) <= 25 * 4)%Z
  /\ truncate_text_to_context (PyStr.join "" (replicate 60 "ab")) 25
     = String "010" (String "010" "[Note: Content truncated to fit context length]").
Proof.
  destruct (truncation_bound (PyStr.join "" (replicate 60 "ab")) 25 ltac:(lia))
    as (Hlen & _ & _).
  split; [exact Hlen | reflexivity].
Defined.

(** Below 25 tokens the cut counts from the end of the text and the result
    can be longer than the budget. *)
Example truncation_small_budget :
  String.length (truncate_text_to_context (PyStr.join "" (replicate 60 "ab")) 10) = 109.
Proof. reflexivity. Qed.

(** *** White space *)

Lemma lstrip_head (s : string) :
  PyStr.lstrip s = "" \/ exists c r, PyStr.lstrip s = String c r /\ PyStr.isspace c = false.
Proof.
  induction s as [| c s IH]; simpl; [by left |].
  destruct (PyStr.isspace c) eqn:E; [exact IH |]. right. by exists c, s.
Qed.

Lemma rstrip_idempotent (s : string) : PyStr.rstrip (PyStr.rstrip s) = PyStr.rstrip s.
Proof.
  induction s as [| c s IH]; simpl; [done |].
  destruct (PyStr.rstrip s) as [| c' r] eqn:E.
  - destruct (PyStr.isspace c) eqn:Ec; simpl; [done | by rewrite Ec].
  - change (PyStr.rstrip (String c (String c' r)))
      with (match PyStr.rstrip (String c' r) with
            | "" => if PyStr.isspace c then "" else String c ""
            | r' => String c r'
            end).
    by rewrite IH.
Qed.

Lemma rstrip_keeps_head (c : ascii) (r : string) :
  PyStr.isspace c = false -> exists r', PyStr.rstrip (String c r) = String c r'.
Proof.
  intros Hc. simpl. destruct (PyStr.rstrip r); [rewrite Hc |]; eauto.
Qed.

(** Stripping a stripped string changes nothing. *)
Lemma strip_idempotent (s : string) : PyStr.strip (PyStr.strip s) = PyStr.strip s.
Proof.
  unfold PyStr.strip. destruct (lstrip_head s) as [-> | (c & r & -> & Hc)]; [done |].
  destruct (rstrip_keeps_head c r Hc) as [r' Hr']. rewrite Hr'.
  simpl PyStr.lstrip. rewrite Hc. rewrite <- Hr'. apply rstrip_idempotent.
Qed.

(** *** The request budget *)

(** Whatever the service does, the loop leaves the folder alone, makes at
    most one request per attempt still to make, all of them the same, and a
    summary it returns is a stripped completion. *)
Lemma attempt_loop_budget server req timeout delay n todo : forall w,
  exists r evs,
    attempt_loop server req timeout delay n todo w
    = (r, mkWorld (folder w) (log w ++ evs))
    /\ length (requests evs) <= length todo
    /\ Forall (fun r' => r' = req) (requests evs)
    /\ (forall s, r = Ok (Some s) -> exists content, s = PyStr.strip content).
Proof.
  induction todo as [| attempt rest IH]; intros w.
  - exists (Ok None), []. simpl. unfold ret. destruct w as [f l]. simpl.
    rewrite app_nil_r. repeat split; try done.
  - destruct (retryable (server (log w) req)) eqn:Hr.
    + rewrite attempt_loop_again by exact Hr.
      assert (Hnext : forall w1 pause,
                log w1 = log w ++ Urlopen req timeout attempt :: pause ->
                folder w1 = folder w ->
                requests pause = [] ->
                exists r evs,
                  attempt_loop server req timeout delay n rest w1
                  = (r, mkWorld (folder w) (log w ++ evs))
                  /\ length (requests evs) <= length (attempt :: rest)
                  /\ Forall (fun r' => r' = req) (requests evs)
                  /\ (forall s, r = Ok (Some s) -> exists content, s = PyStr.strip content)).
      { intros w1 pause Hlog Hfolder Hpause.
        destruct (IH w1) as (r & evs & Heq & Hlen & Hall & Hstrip).
        exists r, (Urlopen req timeout attempt :: pause ++ evs). split.
        { rewrite Heq, Hlog, Hfolder. by rewrite <- app_assoc. }
        cbn [requests flat_map app].
        change (flat_map _ (pause ++ evs)) with (requests (pause ++ evs)).
        rewrite PipelineSpec.requests_app, Hpause. simpl.
        split; [lia |]. split; [by constructor | exact Hstrip]. }
      destruct (Z.of_nat attempt <? Z.of_nat n - 1)%Z.
      * destruct (delay <? 0)%Z.
        -- exists Raised, [Urlopen req timeout attempt]. split; [reflexivity |]. simpl.
           split; [lia |]. split; [by repeat constructor | done].
        -- by apply (Hnext _ [Sleep delay]).
      * by apply (Hnext _ []).
    + unfold retryable in Hr.
      destruct (server (log w) req) as [status body | code dd | |] eqn:Hs;
        try discriminate.
      * destruct (status =? 200)%Z eqn:E; [| discriminate].
        apply Z.eqb_eq in E. subst status.
        destruct body as [data |]; [| discriminate].
        destruct (extract data) as [content | |] eqn:He; [| | discriminate].
        -- rewrite (attempt_loop_completion _ _ _ _ _ _ _ _ data content) by assumption.
           eexists _, _. split; [reflexivity |]. simpl.
           split; [lia |]. split; [by repeat constructor |].
           intros s [= <-]. by exists content.
        -- rewrite (attempt_loop_invalid _ _ _ _ _ _ _ _ data) by assumption.
           eexists _, _. split; [reflexivity |]. simpl.
           split; [lia |]. split; [by repeat constructor | done].
      * subst dd. rewrite (attempt_loop_raise _ _ _ _ _ _ _ _ code) by assumption.
        eexists _, _. split; [reflexivity |]. simpl.
        split; [lia |]. split; [by repeat constructor | done].
Qed.

Lemma call_llm_api_frame (LLM_CONFIG : option LLMConfig)
    (server : list Event -> Request -> Outcome) (text prompt_type : string) (w : World) :
  exists r evs,
    call_llm_api LLM_CONFIG server text prompt_type w
    = (r, mkWorld (folder w) (log w ++ evs)).
Proof.
  unfold call_llm_api. destruct LLM_CONFIG as [cfg |].
  - destruct (PyStr.truthy (default "" (system_prompts cfg !! prompt_type))); simpl.
    + match goal with
      | |- context [attempt_loop server ?req ?t ?d ?n ?todo] =>
          destruct (attempt_loop_budget server req t d n todo w)
            as (r & evs & Heq & _)
      end.
      by exists r, evs.
    + exists (Ok None), []. unfold ret. destruct w as [f l]. simpl. by rewrite app_nil_r.
  - exists (Ok None), []. unfold ret. destruct w as [f l]. simpl. by rewrite app_nil_r.
Qed.

(** X5: Whatever the configuration and whatever the service does, a call never
    changes the folder and never makes more requests than max_retries; it
    makes none at all without configuration or without a system prompt for
    its prompt type; and all its requests are the same. *)
Theorem request_budget (LLM_CONFIG : option LLMConfig)
    (server : list Event -> Request -> Outcome) (text prompt_type : string) (w : World) :
  exists r evs,
    call_llm_api LLM_CONFIG server text prompt_type w
    = (r, mkWorld (folder w) (log w ++ evs))
    /\ length (requests evs)
       <= match LLM_CONFIG with
          | Some cfg =>
              if PyStr.truthy (default "" (system_prompts cfg !! prompt_type))
              then Z.to_nat (default 3%Z (max_retries cfg))
              else 0
          | None => 0
          end
    /\ (forall r1 r2, r1 ∈ requests evs -> r2 ∈ requests evs -> r1 = r2).
Proof.
  unfold call_llm_api. destruct LLM_CONFIG as [cfg |].
  - destruct (PyStr.truthy (default "" (system_prompts cfg !! prompt_type))); simpl.
    + match goal with
      | |- context [attempt_loop server ?req ?t ?d ?n ?todo] =>
          destruct (attempt_loop_budget server req t d n todo w)
            as (r & evs & Heq & Hlen & Hall & _)
      end.
      exists r, evs. split; [exact Heq |]. rewrite length_seq in Hlen.
      split; [exact Hlen |]. rewrite Forall_forall in Hall.
      intros r1 r2 H1 H2. by rewrite (Hall r1 H1), (Hall r2 H2).
    + exists (Ok None), []. unfold ret. destruct w as [f l]. simpl. rewrite app_nil_r.
      repeat split; try done. intros r1 r2 H1. by apply elem_of_nil in H1.
  - exists (Ok None), []. unfold ret. destruct w as [f l]. simpl. rewrite app_nil_r.
    repeat split; try done. intros r1 r2 H1. by apply elem_of_nil in H1.
Qed.

(** X6: A summary returned by a call has no white space at either end. *)
Theorem completion_stripped (LLM_CONFIG : option LLMConfig)
    (server : list Event -> Request -> Outcome) (text prompt_type s : string)
    (w w' : World) :
  call_llm_api LLM_CONFIG server text prompt_type w = (Ok (Some s), w') ->
  PyStr.strip s = s.
Proof.
  unfold call_llm_api. destruct LLM_CONFIG as [cfg |]; [| by intros [= ]].
  destruct (PyStr.truthy (default "" (system_prompts cfg !! prompt_type))); simpl;
    [| by intros [= ]].
  match goal with
  | |- context [attempt_loop server ?req ?t ?d ?n ?todo] =>
      destruct (attempt_loop_budget server req t d n todo w)
        as (r & evs & Heq & _ & _ & Hstrip)
  end.
  rewrite Heq. intros [= -> _]. destruct (Hstrip s eq_refl) as [content ->].
  apply strip_idempotent.
Qed.

Lemma completion_stripped_witness : PyStr.strip "summary" = "summary".
Proof.
  apply (completion_stripped (Some example_config)
           (fun _ _ => Response 200 (Some (Scenarios.completion "  summary ")))
           "transcript text" "chunk" "summary" (mkWorld (empty_folder []) [])
           (mkWorld (empty_folder [])
              [Urlopen (build_request example_config "Summarize the chunk."
                          "transcript text" "chunk") 60 0])).
  reflexivity.
Defined.

End ClientFacts.

(** ** More on the summarization pipeline *)

Module PipelineFacts.
Import Segmenter Summarizer ClientSpec PipelineSpec ClientFacts.

Section AnyService.
Variables (LLM_CONFIG : option LLMConfig) (server : list Event -> Request -> Outcome).

(** Whatever the service does, the chunk loop changes nothing in the folder
    but the summary files, never replaces or removes a summary file, and
    returns at most one summary per chunk. *)
Lemma summarize_chunks_frame chunks : forall acc (w : World),
  exists r evs f',
    summarize_chunks LLM_CONFIG server chunks acc w = (r, mkWorld f' (log w ++ evs))
    /\ folder_name f' = folder_name (folder w)
    /\ srt_files f' = srt_files (folder w)
    /\ chunk_files f' = chunk_files (folder w)
    /\ final_summary_file f' = final_summary_file (folder w)
    /\ metadata_file f' = metadata_file (folder w)
    /\ (forall k s, summary_files (folder w) !! k = Some s -> summary_files f' !! k = Some s)
    /\ (forall out, r = Ok out -> length out <= length acc + length chunks).
Proof.
  induction chunks as [| c rest IH]; intros acc w.
  - exists (Ok acc), [], (folder w). simpl. unfold ret. destruct w as [f l]. simpl.
    rewrite app_nil_r. repeat split; try done. intros out [= <-]. lia.
  - destruct (summary_files (folder w) !! chunk_number c) as [summary |] eqn:Hs.
    + rewrite (summarize_chunks_loaded _ _ _ _ _ _ summary) by exact Hs.
      destruct (IH (acc ++ [(chunk_number c, summary)]) w)
        as (r & evs & f' & Heq & H1 & H2 & H3 & H4 & H5 & H6 & H7).
      exists r, evs, f'. repeat split; try done.
      intros out Hout. apply H7 in Hout. rewrite length_app in Hout. simpl in *. lia.
    + destruct (call_llm_api_frame LLM_CONFIG server (text c) "chunk" w)
        as (r1 & evs1 & Hcall).
      assert (Hstep : forall acc' (w2 : World),
                 length acc' <= S (length acc) ->
                 log w2 = log w ++ evs1 ->
                 folder_name (folder w2) = folder_name (folder w) ->
                 srt_files (folder w2) = srt_files (folder w) ->
                 chunk_files (folder w2) = chunk_files (folder w) ->
                 final_summary_file (folder w2) = final_summary_file (folder w) ->
                 metadata_file (folder w2) = metadata_file (folder w) ->
                 (forall k s, summary_files (folder w) !! k = Some s ->
                              summary_files (folder w2) !! k = Some s) ->
                 exists r evs f',
                   summarize_chunks LLM_CONFIG server rest acc' w2
                   = (r, mkWorld f' (log w ++ evs))
                   /\ folder_name f' = folder_name (folder w)
                   /\ srt_files f' = srt_files (folder w)
                   /\ chunk_files f' = chunk_files (folder w)
                   /\ final_summary_file f' = final_summary_file (folder w)
                   /\ metadata_file f' = metadata_file (folder w)
                   /\ (forall k s, summary_files (folder w) !! k = Some s ->
                                   summary_files f' !! k = Some s)
                   /\ (forall out, r = Ok out -> length out <= length acc + length (c :: rest))).
      { intros acc' w2 Hacc Hlog G1 G2 G3 G4 G5 G6.
        destruct (IH acc' w2) as (r & evs & f' & Heq & H1 & H2 & H3 & H4 & H5 & H6 & H7).
        exists r, (evs1 ++ evs), f'.
        split; [by rewrite Heq, Hlog, <- app_assoc |].
        rewrite H1, H2, H3, H4, H5. repeat split; try done.
        - intros k s Hk. by apply H6, G6.
        - intros out Hout. apply H7 in Hout. simpl. lia. }
      destruct r1 as [[summary |] |].
      * rewrite (summarize_chunks_called _ _ _ _ _ _ _ _ Hs Hcall).
        destruct (PyStr.truthy summary).
        -- apply Hstep; simpl; try done.
           ++ rewrite length_app. simpl. lia.
           ++ intros k s Hk. destruct (decide (k = chunk_number c)) as [-> | Hne].
              ** rewrite Hs in Hk. discriminate.
              ** by rewrite lookup_insert_ne.
        -- apply Hstep; simpl; try done. lia.
      * rewrite (summarize_chunks_called _ _ _ _ _ _ _ _ Hs Hcall).
        apply Hstep; simpl; try done. lia.
      * rewrite (summarize_chunks_aborted _ _ _ _ _ _ _ Hs Hcall).
        exists Raised, evs1, (folder w). repeat split; try done.
Qed.

Variables (now lang : string).

(** What any run does to the folder. *)
Lemma run_frame (w : World) :
  exists r evs f',
    process_video_folder LLM_CONFIG server now lang w = (r, mkWorld f' (log w ++ evs))
    /\ folder_name f' = folder_name (folder w)
    /\ srt_files f' = srt_files (folder w)
    /\ (forall k s, summary_files (folder w) !! k = Some s -> summary_files f' !! k = Some s)
    /\ (r = Ok true ->
        is_Some (final_summary_file f')
        /\ is_Some (preferred_srt lang (srt_files (folder w)))
        /\ (final_summary_file (folder w) = None ->
            exists md, metadata_file f' = Some md
                       /\ md_processed_chunks md <= md_total_chunks md))
    /\ (r = Ok false ->
        final_summary_file f' = final_summary_file (folder w)
        /\ metadata_file f' = metadata_file (folder w)).
Proof.
  unfold process_video_folder. unfold bind at 1. unfold get_folder at 1.
  destruct (preferred_srt lang (srt_files (folder w))) as [[srt_name subtitles] |] eqn:Hsrt.
  2:{ exists (Ok false), [], (folder w). unfold ret. destruct w as [f l]. simpl.
      rewrite app_nil_r. repeat split; try done. }
  destruct (final_summary_file (folder w)) as [final |] eqn:Hfinal.
  { exists (Ok true), [], (folder w). unfold ret. destruct w as [f l]. simpl in *.
    rewrite app_nil_r. repeat split; try done; try (by rewrite Hfinal). }
  destruct subtitles as [| s0 subtitles].
  { exists (Ok false), [], (folder w). unfold ret. destruct w as [f l]. simpl in *.
    rewrite app_nil_r. repeat split; try done. }
  destruct (create_5min_chunks (s0 :: subtitles) default_chunk_duration) as [chunks |].
  2:{ exists Raised, [], (folder w). unfold raise. destruct w as [f l]. simpl in *.
      rewrite app_nil_r. repeat split; try done. }
  set (w0 := mkWorld
               (mkFolder (folder_name (folder w)) (srt_files (folder w))
                  (fold_left (fun m c => <[chunk_number c := c]> m) chunks
                     (chunk_files (folder w)))
                  (summary_files (folder w)) (final_summary_file (folder w))
                  (metadata_file (folder w)))
               (log w)).
  assert (Hsave : save_chunks chunks w = (Ok tt, w0)) by reflexivity.
  rewrite (bind_ok _ _ _ _ _ Hsave).
  destruct (summarize_chunks_frame chunks [] w0)
    as (r1 & evs1 & f1 & Hloop & F1 & F2 & F3 & F4 & F5 & F6 & F7).
  simpl in F1, F2, F3, F4, F5, F6. rewrite Hfinal in F4.
  destruct r1 as [out |].
  2:{ rewrite (bind_raised _ _ _ _ Hloop).
      exists Raised, evs1, f1. repeat split; try done; try (by rewrite Hfinal). }
  rewrite (bind_ok _ _ _ _ _ Hloop).
  destruct (call_llm_api_frame LLM_CONFIG server (combined_summaries out) "final"
              (mkWorld f1 (log w0 ++ evs1))) as (r2 & evs2 & Hcall).
  simpl in Hcall.
  destruct r2 as [[final |] |].
  - rewrite (bind_ok _ _ _ _ _ Hcall).
    destruct (PyStr.truthy final).
    + eexists (Ok true), (evs1 ++ evs2), _. split.
      { unfold bind, write_final, get_folder, put_folder, ret. simpl.
        by rewrite <- app_assoc. }
      simpl. repeat split; try done.
      all: try (intros _; eexists; split; [reflexivity |]; simpl;
                specialize (F7 out eq_refl); simpl in F7; exact F7).
    + exists (Ok false), (evs1 ++ evs2), f1. split.
      { unfold ret. simpl. by rewrite <- app_assoc. }
      repeat split; try done; try (by rewrite Hfinal).
  - rewrite (bind_ok _ _ _ _ _ Hcall).
    exists (Ok false), (evs1 ++ evs2), f1. split.
    { unfold ret. simpl. by rewrite <- app_assoc. }
    repeat split; try done; try (by rewrite Hfinal).
  - rewrite (bind_raised _ _ _ _ Hcall).
    exists Raised, (evs1 ++ evs2), f1. split; [by simpl; rewrite <- app_assoc |].
    repeat split; try done; try (by rewrite Hfinal).
Qed.

End AnyService.

(** X7: Whatever the configuration and the service do, and however a run ends,
    it leaves the transcripts and the folder name alone, keeps every chunk
    summary that was persisted before with its content, and only appends to
    the request log. *)
Theorem run_keeps_artifacts (LLM_CONFIG : option LLMConfig)
    (server : list Event -> Request -> Outcome) (now lang : string) (w : World) :
  let after := (process_video_folder LLM_CONFIG server now lang w).2 in
  srt_files (folder after) = srt_files (folder w)
  /\ folder_name (folder after) = folder_name (folder w)
  /\ (forall k s, summary_files (folder w) !! k = Some s ->
                  summary_files (folder after) !! k = Some s)
  /\ exists evs, log after = log w ++ evs.
Proof.
  destruct (run_frame LLM_CONFIG server now lang w)
    as (r & evs & f' & Heq & H1 & H2 & H3 & _).
  cbv zeta. rewrite Heq. simpl. repeat split; try done. by exists evs.
Qed.

(** X8: A run returns true only with the final summary in place, and a run that
    returns false leaves the final summary and its metadata as they were:
    an item is never marked done by a run that reports failure. *)
Theorem done_only_on_success (LLM_CONFIG : option LLMConfig)
    (server : list Event -> Request -> Outcome) (now lang : string) (w : World) :
  let outcome := process_video_folder LLM_CONFIG server now lang w in
  (outcome.1 = Ok true -> is_Some (final_summary_file (folder outcome.2)))
  /\ (outcome.1 = Ok false ->
      final_summary_file (folder outcome.2) = final_summary_file (folder w)
      /\ metadata_file (folder outcome.2) = metadata_file (folder w)).
Proof.
  destruct (run_frame LLM_CONFIG server now lang w)
    as (r & evs & f' & Heq & _ & _ & _ & Hok & Hnot).
  cbv zeta. rewrite Heq. simpl. split.
  - intros Hr. by apply Hok.
  - intros Hr. by apply Hnot.
Qed.

(** X9: After a run that returned true, a second run changes nothing, makes no
    request and returns true again. *)
Theorem rerun_after_success (LLM_CONFIG : option LLMConfig)
    (server : list Event -> Request -> Outcome) (now lang : string) (w w' : World) :
  process_video_folder LLM_CONFIG server now lang w = (Ok true, w') ->
  forall LLM_CONFIG' server' now',
    process_video_folder LLM_CONFIG' server' now' lang w' = (Ok true, w').
Proof.
  intros Hrun LLM' server' now'.
  destruct (run_frame LLM_CONFIG server now lang w)
    as (r & evs & f' & Heq & _ & Hsrt & _ & Hok & _).
  rewrite Hrun in Heq. injection Heq as <- ->.
  destruct (Hok eq_refl) as ([final Hfinal] & [srt Hpref] & _).
  unfold process_video_folder. unfold bind at 1. unfold get_folder at 1. simpl.
  rewrite Hsrt, Hpref. destruct srt as [srt_name subtitles]. by rewrite Hfinal.
Qed.

Lemma rerun_after_success_witness :
  let first := process_video_folder (Some example_config) Scenarios.answering_server
                 Scenarios.clock "pl" (mkWorld Scenarios.folder_two_of_three []) in
  process_video_folder None (fun _ _ => URLError) "later" "pl" first.2
  = (Ok true, first.2).
Proof.
  cbv zeta.
  apply (rerun_after_success (Some example_config) Scenarios.answering_server
           Scenarios.clock "pl" (mkWorld Scenarios.folder_two_of_three [])).
  by vm_compute.
Defined.

(** X10: The metadata written with a new final summary never reports more
    processed chunks than chunks. *)
Theorem metadata_counts (LLM_CONFIG : option LLMConfig)
    (server : list Event -> Request -> Outcome) (now lang : string) (w w' : World) :
  final_summary_file (folder w) = None ->
  process_video_folder LLM_CONFIG server now lang w = (Ok true, w') ->
  exists md, metadata_file (folder w') = Some md
             /\ md_processed_chunks md <= md_total_chunks md.
Proof.
  intros Hnone Hrun.
  destruct (run_frame LLM_CONFIG server now lang w)
    as (r & evs & f' & Heq & _ & _ & _ & Hok & _).
  rewrite Hrun in Heq. injection Heq as <- ->.
  destruct (Hok eq_refl) as (_ & _ & Hmd). by apply Hmd.
Qed.

Lemma metadata_counts_witness :
  exists md,
    metadata_file (folder (process_video_folder (Some example_config)
                             Scenarios.answering_server Scenarios.clock "pl"
                             (mkWorld Scenarios.folder_two_of_three [])).2) = Some md
    /\ md_processed_chunks md <= md_total_chunks md.
Proof.
  apply (metadata_counts (Some example_config) Scenarios.answering_server
           Scenarios.clock "pl" (mkWorld Scenarios.folder_two_of_three [])).
  - reflexivity.
  - by vm_compute.
Defined.

End PipelineFacts.

(** ** The loop over the video folders of a channel *)

Module ChannelFacts.
Import Summarizer Channel.

Section AnyService.
Variable LLM_CONFIG : option LLMConfig.
Variable server : list Event -> Request -> Outcome.
Variable now : string.

Lemma visit_step (p : Progress) (f : Folder) :
  exists f',
    visited (visit LLM_CONFIG server now p f) = visited p ++ [f']
    /\ same_item f f'
    /\ processed_count (visit LLM_CONFIG server now p f)
       + failed_count (visit LLM_CONFIG server now p f)
       = S (processed_count p + failed_count p)
    /\ (processed_count (visit LLM_CONFIG server now p f) = processed_count p
        \/ processed_count (visit LLM_CONFIG server now p f) = S (processed_count p)
           /\ summarized f' = true).
Proof.
  destruct (PipelineFacts.run_frame LLM_CONFIG server now "pl" (mkWorld f (requests_log p)))
    as (r & evs & f' & Heq & Hname & Hsrt & Hsum & Hok & _).
  exists f'. unfold visit. rewrite Heq.
  assert (Hsame : same_item f f') by (by repeat split).
  destruct r as [[|]|]; cbn [processed_count failed_count visited folder];
    (split; [done|]; split; [done|]; split; [lia|]).
  - right. split; [lia|]. destruct (Hok eq_refl) as ([s Hs] & _).
    unfold summarized. by rewrite Hs.
  - by left.
  - by left.
Qed.

Lemma visit_fold (folders : list Folder) (p : Progress) :
  exists vs,
    visited (fold_left (visit LLM_CONFIG server now) folders p) = visited p ++ vs
    /\ Forall2 same_item folders vs
    /\ processed_count (fold_left (visit LLM_CONFIG server now) folders p)
       + failed_count (fold_left (visit LLM_CONFIG server now) folders p)
       = processed_count p + failed_count p + length folders
    /\ processed_count (fold_left (visit LLM_CONFIG server now) folders p)
       <= processed_count p + length (List.filter summarized vs).
Proof.
  revert p. induction folders as [|f folders IH]; intros p.
  - exists []. simpl. rewrite app_nil_r. repeat split; [constructor | lia | lia].
  - destruct (visit_step p f) as (f' & Hv & Hsame & Hsum & Hproc).
    destruct (IH (visit LLM_CONFIG server now p f)) as (vs & Hvs & Hall & Hcount & Hle).
    exists (f' :: vs). cbn [fold_left]. repeat split.
    + rewrite Hvs, Hv. by rewrite <- app_assoc.
    + by constructor.
    + rewrite Hcount, Hsum. simpl. lia.
    + simpl. destruct Hproc as [Hp | [Hp Hdone]].
      * destruct (summarized f'); simpl; lia.
      * rewrite Hdone. simpl. lia.
Qed.

Lemma process_channel_frame (channel_dir : option (list Folder)) (log0 : list Event) :
  let outcome := process_channel LLM_CONFIG server now channel_dir log0 in
  let folders := video_folders (default [] channel_dir) in
  Forall2 same_item folders (visited outcome.2)
  /\ processed_count outcome.2 + failed_count outcome.2 = length folders
  /\ processed_count outcome.2 <= length (List.filter summarized (visited outcome.2))
  /\ outcome.1 = (0 <? processed_count outcome.2).
Proof.
  cbv zeta. unfold process_channel.
  destruct channel_dir as [subdirs|]; cbn [default from_option id].
  2: { simpl. repeat split; [constructor | lia]. }
  destruct (video_folders subdirs) as [|f folders] eqn:Hfolders.
  { simpl. repeat split; [constructor | lia]. }
  destruct (visit_fold (f :: folders) (mkProgress 0 0 [] log0))
    as (vs & Hvs & Hall & Hcount & Hle).
  cbv beta iota zeta delta [fst snd]. rewrite Hvs. cbn [visited app].
  cbn [processed_count failed_count Nat.add] in Hcount, Hle.
  repeat split; try done.
Qed.

End AnyService.

(** X11: Every video folder of the channel is visited once, in order, whatever
    happens in the others: a run that raises counts as a failure and the
    loop goes on. The two counters add up to the number of video folders,
    each visited folder keeps its name, its transcripts and the chunk
    summaries it held, and at least as many folders hold a final summary
    afterwards as were counted as processed. *)
Theorem every_folder_visited (LLM_CONFIG : option LLMConfig)
    (server : list Event -> Request -> Outcome) (now : string)
    (channel_dir : option (list Folder)) (log0 : list Event) :
  let outcome := process_channel LLM_CONFIG server now channel_dir log0 in
  let folders := video_folders (default [] channel_dir) in
  Forall2 same_item folders (visited outcome.2)
  /\ processed_count outcome.2 + failed_count outcome.2 = length folders
  /\ processed_count outcome.2 <= length (List.filter summarized (visited outcome.2)).
Proof.
  destruct (process_channel_frame LLM_CONFIG server now channel_dir log0)
    as (H1 & H2 & H3 & _).
  by repeat split.
Qed.

(** X12: When [process_channel] returns true, the channel directory exists and
    one of its video folders holds a final summary afterwards. *)
Theorem channel_success (LLM_CONFIG : option LLMConfig)
    (server : list Event -> Request -> Outcome) (now : string)
    (channel_dir : option (list Folder)) (log0 : list Event) (p : Progress) :
  process_channel LLM_CONFIG server now channel_dir log0 = (true, p) ->
  is_Some channel_dir
  /\ exists f, f ∈ visited p /\ is_Some (final_summary_file f).
Proof.
  intros Hrun.
  destruct (process_channel_frame LLM_CONFIG server now channel_dir log0)
    as (_ & _ & Hle & Hflag).
  rewrite Hrun in Hle, Hflag. cbn [fst snd] in Hle, Hflag.
  symmetry in Hflag. apply Nat.ltb_lt in Hflag.
  split.
  - destruct channel_dir; [done|]. unfold process_channel in Hrun.
    injection Hrun as _ <-. simpl in Hflag. lia.
  - destruct (List.filter summarized (visited p)) as [|f fs] eqn:Hfilter.
    { simpl in Hle. lia. }
    assert (Hin : In f (List.filter summarized (visited p))) by (rewrite Hfilter; by left).
    apply filter_In in Hin as [Hin Hdone].
    exists f. split; [by apply list_elem_of_In|].
    unfold summarized in Hdone. by destruct (final_summary_file f).
Qed.

Lemma channel_success_witness :
  is_Some (Some [Scenarios.folder_two_of_three; empty_folder []])
  /\ exists f,
       f ∈ visited (process_channel (Some example_config) Scenarios.answering_server
                     Scenarios.clock
                     (Some [Scenarios.folder_two_of_three; empty_folder []]) []).2
       /\ is_Some (final_summary_file f).
Proof.
  apply (channel_success (Some example_config) Scenarios.answering_server
           Scenarios.clock (Some [Scenarios.folder_two_of_three; empty_folder []]) []).
  by vm_compute.
Defined.

End ChannelFacts.

(** ** The unified index under updates *)

Module IndexFacts.
Import Control (OnDisk, Absent, Corrupt, Content).
Import Index Harvester.

Lemma keys_NoDup (m : gmap string Video) : NoDup (keys m).
Proof. apply NoDup_fst_map_to_list. Qed.

Lemma elem_of_keys (m : gmap string Video) (k : string) : k ∈ keys m <-> is_Some (m !! k).
Proof.
  unfold keys. rewrite <- elem_of_dom. rewrite (dom_alt m).
  by rewrite elem_of_list_to_set.
Qed.

Lemma keys_length (m : gmap string Video) : length (keys m) = size m.
Proof. unfold keys. rewrite length_fmap. apply length_map_to_list. Qed.

Lemma keys_nonempty (m : gmap string Video) : m ≠ ∅ -> exists k l, keys m = k :: l.
Proof.
  intros Hne. destruct (keys m) as [|k l] eqn:E; [| by eauto].
  exfalso. apply Hne. apply map_size_empty_inv. by rewrite <- keys_length, E.
Qed.

Lemma larger_ge_l a b : payload_size a <= payload_size (larger a b).
Proof.
  unfold larger. destruct (payload_size a <? payload_size b) eqn:E; [| lia].
  apply Nat.ltb_lt in E. lia.
Qed.

Lemma larger_ge_r a b : payload_size b <= payload_size (larger a b).
Proof.
  unfold larger. destruct (payload_size a <? payload_size b) eqn:E; [lia |].
  apply Nat.ltb_ge in E. lia.
Qed.

Lemma merge_video_kept m v (k : string) old :
  m !! k = Some old ->
  exists v', merge_video m v !! k = Some v' /\ payload_size old <= payload_size v'.
Proof.
  intros Hk. destruct (decide (k = id v)) as [-> | Hne].
  - rewrite IndexSpec.merge_video_self, Hk. eexists. split; [done |]. apply larger_ge_l.
  - rewrite IndexSpec.merge_video_other by done. by exists old.
Qed.

Lemma merge_video_new m v :
  exists v', merge_video m v !! id v = Some v' /\ payload_size v <= payload_size v'.
Proof.
  rewrite IndexSpec.merge_video_self. eexists. split; [done |].
  destruct (m !! id v); [apply larger_ge_r | lia].
Qed.

Lemma merge_video_origin m v (k : string) v' :
  merge_video m v !! k = Some v' -> m !! k = Some v' \/ v' = v.
Proof.
  destruct (decide (k = id v)) as [-> | Hne].
  - rewrite IndexSpec.merge_video_self. intros [= <-].
    destruct (m !! id v) as [old |]; [| by right].
    unfold larger. destruct (payload_size old <? payload_size v); [by right | by left].
  - rewrite IndexSpec.merge_video_other by done. by left.
Qed.

Lemma fold_merge_kept new_videos : forall m (k : string) old,
  m !! k = Some old ->
  exists v', fold_left merge_video new_videos m !! k = Some v'
             /\ payload_size old <= payload_size v'.
Proof.
  induction new_videos as [| v l IH]; intros m k old Hk; simpl; [by exists old |].
  destruct (merge_video_kept m v k old Hk) as (v1 & H1 & Hle1).
  destruct (IH _ _ _ H1) as (v2 & H2 & Hle2).
  exists v2. split; [done | lia].
Qed.

Lemma fold_merge_batch new_videos : forall m v,
  v ∈ new_videos ->
  exists v', fold_left merge_video new_videos m !! id v = Some v'
             /\ payload_size v <= payload_size v'.
Proof.
  induction new_videos as [| a l IH]; intros m v Hv; [by apply elem_of_nil in Hv |].
  simpl. apply elem_of_cons in Hv as [-> | Hv]; [| by apply IH].
  destruct (merge_video_new m a) as (v1 & H1 & Hle1).
  destruct (fold_merge_kept l _ _ _ H1) as (v2 & H2 & Hle2).
  exists v2. split; [done | lia].
Qed.

Lemma fold_merge_origin new_videos : forall m (k : string) v',
  fold_left merge_video new_videos m !! k = Some v' ->
  m !! k = Some v' \/ v' ∈ new_videos.
Proof.
  induction new_videos as [| a l IH]; intros m k v' Hk; simpl in Hk; [by left |].
  destruct (IH _ _ _ Hk) as [H | H].
  - destruct (merge_video_origin _ _ _ _ H) as [H' | ->]; [by left |].
    right. apply list_elem_of_here.
  - right. by apply list_elem_of_further.
Qed.

Lemma fold_merge_fixed new_videos : forall m,
  (forall v, v ∈ new_videos ->
     exists v', m !! id v = Some v' /\ payload_size v <= payload_size v') ->
  fold_left merge_video new_videos m = m.
Proof.
  induction new_videos as [| a l IH]; intros m Hall; simpl; [done |].
  assert (Ha : merge_video m a = m).
  { destruct (Hall a) as (v' & Hv' & Hle); [apply list_elem_of_here |].
    unfold merge_video. rewrite Hv'.
    destruct (payload_size v' <? payload_size a) eqn:E; [| done].
    apply Nat.ltb_lt in E. lia. }
  rewrite Ha. apply IH. intros v Hv. apply Hall. by apply list_elem_of_further.
Qed.

(** *** The list of cutoff dates *)

Lemma insert_sorted_ascending (x : string) (l : list string) :
  ascending l -> ascending (insert_sorted x l).
Proof.
  unfold ascending. induction l as [| y l IH]; intros Hl; simpl.
  - by repeat constructor.
  - destruct (String.leb x y) eqn:E.
    + constructor; [done |]. by constructor.
    + assert (Hyx : String.leb y x = true).
      { destruct (String.leb_total x y) as [H | H]; [congruence | done]. }
      apply Sorted_inv in Hl as [Hl Hhd]. constructor; [by apply IH |].
      destruct l as [| z l]; simpl; [by constructor |].
      apply HdRel_inv in Hhd.
      destruct (String.leb x z); by constructor.
Qed.

Lemma sorted_ascending (l : list string) : ascending (sorted l).
Proof.
  induction l as [| x l IH]; simpl; [constructor |].
  by apply insert_sorted_ascending.
Qed.

Lemma insert_sorted_perm (x : string) (l : list string) : insert_sorted x l ≡ₚ x :: l.
Proof.
  induction l as [| y l IH]; simpl; [done |].
  destruct (String.leb x y); [done |]. rewrite IH. apply Permutation_swap.
Qed.

Lemma sorted_perm (l : list string) : sorted l ≡ₚ l.
Proof.
  induction l as [| x l IH]; simpl; [done |].
  by rewrite insert_sorted_perm, IH.
Qed.

Lemma existsb_eqb (c : string) (l : list string) :
  existsb (String.eqb c) l = true <-> c ∈ l.
Proof.
  rewrite existsb_exists. split.
  - intros (x & Hin & Heq). apply String.eqb_eq in Heq as ->. by apply list_elem_of_In.
  - intros Hin. exists c. split; [by apply list_elem_of_In | apply String.eqb_refl].
Qed.

Lemma add_cutoff_date_spec (c : string) (l : list string) :
  (forall x, x ∈ add_cutoff_date c l <-> x ∈ l \/ x = c)
  /\ (NoDup l -> NoDup (add_cutoff_date c l))
  /\ (ascending l -> ascending (add_cutoff_date c l))
  /\ (c ∈ l -> add_cutoff_date c l = l).
Proof.
  unfold add_cutoff_date. destruct (existsb (String.eqb c) l) eqn:E.
  - apply existsb_eqb in E. repeat split; try done.
    + by left.
    + by intros [H | ->].
  - assert (Hc : c ∉ l).
    { intros Hin. apply existsb_eqb in Hin. congruence. }
    repeat split.
    + rewrite sorted_perm, elem_of_app, list_elem_of_singleton. done.
    + rewrite sorted_perm, elem_of_app, list_elem_of_singleton. done.
    + intros Hnd. rewrite sorted_perm. apply NoDup_app.
      repeat split; [done | | apply NoDup_singleton].
      intros x Hx Hx'. apply list_elem_of_singleton in Hx' as ->. done.
    + intros _. apply sorted_ascending.
    + done.
Qed.

(** X13: After [update_unified_index] the index is consistent with itself: the
    counter equals the number of stored videos, the list of ids names each
    stored video exactly once, the stored ids are those of the previous
    index and of the new batch, and the history has one more entry, which
    records the size of the batch. *)
Theorem update_consistent (now : string) (existing : IndexData) (new_videos : list Video)
    (cutoff : string) :
  let updated := update_unified_index now existing new_videos cutoff in
  total_videos updated = Some (Z.of_nat (size (videos_of updated)))
  /\ (exists ids, video_ids updated = Some ids /\ NoDup ids
                  /\ length ids = size (videos_of updated)
                  /\ forall k, k ∈ ids <-> is_Some (videos_of updated !! k))
  /\ dom (videos_of updated) = dom (videos_of existing) ∪ list_to_set (map id new_videos)
  /\ (exists entry,
        default [] (index_history updated)
        = default [] (index_history existing) ++ [entry]
        /\ h_total_videos entry = Z.of_nat (length new_videos)
        /\ h_cutoff_date entry = Some cutoff).
Proof.
  cbv zeta. split; [reflexivity |]. split; [| split].
  - eexists. split; [reflexivity |]. split; [apply keys_NoDup |].
    split; [apply keys_length |]. intros k. apply elem_of_keys.
  - rewrite IndexSpec.update_videos. apply IndexSpec.fold_merge_dom.
  - eexists. split; [reflexivity |]. by split.
Qed.

(** X14: [update_unified_index] loses nothing: every video of the previous
    index and every video of the batch is stored afterwards under its id
    with a display at least as long, and whatever is stored came from the
    previous index or from the batch. *)
Theorem update_monotone (now : string) (existing : IndexData) (new_videos : list Video)
    (cutoff : string) :
  let stored := videos_of (update_unified_index now existing new_videos cutoff) in
  (forall k old, videos_of existing !! k = Some old ->
     exists v, stored !! k = Some v /\ payload_size old <= payload_size v)
  /\ (forall a, a ∈ new_videos ->
        exists v, stored !! id a = Some v /\ payload_size a <= payload_size v)
  /\ (forall k v, stored !! k = Some v ->
        videos_of existing !! k = Some v \/ v ∈ new_videos).
Proof.
  cbv zeta. rewrite IndexSpec.update_videos. repeat split.
  - intros k old. apply fold_merge_kept.
  - intros a. apply fold_merge_batch.
  - intros k v. apply fold_merge_origin.
Qed.

(** X15: Merging the same batch a second time changes no stored video: only the
    bookkeeping fields move (the history gets its entry each time). *)
Theorem update_same_batch_again (now now' cutoff cutoff' : string) (existing : IndexData)
    (new_videos : list Video) :
  let once := update_unified_index now existing new_videos cutoff in
  let twice := update_unified_index now' once new_videos cutoff' in
  videos twice = videos once
  /\ video_ids twice = video_ids once
  /\ total_videos twice = total_videos once
  /\ length (default [] (index_history twice))
     = S (length (default [] (index_history once))).
Proof.
  cbv zeta.
  assert (Hfix : fold_left merge_video new_videos
                   (fold_left merge_video new_videos (videos_of existing))
                 = fold_left merge_video new_videos (videos_of existing)).
  { apply fold_merge_fixed. intros v Hv. by apply fold_merge_batch. }
  assert (Hv : videos_of (update_unified_index now'
                            (update_unified_index now existing new_videos cutoff)
                            new_videos cutoff')
               = videos_of (update_unified_index now existing new_videos cutoff)).
  { rewrite (IndexSpec.update_videos now'), (IndexSpec.update_videos now). exact Hfix. }
  repeat split.
  - change (Some (videos_of (update_unified_index now'
                               (update_unified_index now existing new_videos cutoff)
                               new_videos cutoff'))
            = Some (videos_of (update_unified_index now existing new_videos cutoff))).
    by rewrite Hv.
  - change (Some (keys (videos_of (update_unified_index now'
                                     (update_unified_index now existing new_videos cutoff)
                                     new_videos cutoff')))
            = Some (keys (videos_of (update_unified_index now existing new_videos cutoff)))).
    by rewrite Hv.
  - change (Some (Z.of_nat (size (videos_of (update_unified_index now'
                                     (update_unified_index now existing new_videos cutoff)
                                     new_videos cutoff'))))
            = Some (Z.of_nat (size (videos_of
                                      (update_unified_index now existing new_videos cutoff))))).
    by rewrite Hv.
  - cbn [update_unified_index index_history]. unfold default. cbn [from_option].
    unfold Datatypes.id. rewrite !length_app. simpl. lia.
Qed.

(** X16: The list of cutoff dates after an update holds the dates it held and
    the requested date, no date twice if none was there twice, in ascending
    order if it was in ascending order (and whenever the requested date is
    new), and is untouched when the requested date is already listed. *)
Theorem cutoff_dates_ascending (now : string) (existing : IndexData)
    (new_videos : list Video) (cutoff : string) :
  let before := default [] (cutoff_dates existing) in
  let after := default [] (cutoff_dates (update_unified_index now existing new_videos cutoff)) in
  (forall c, c ∈ after <-> c ∈ before \/ c = cutoff)
  /\ (NoDup before -> NoDup after)
  /\ (ascending before -> ascending after)
  /\ (cutoff ∉ before -> ascending after)
  /\ (cutoff ∈ before -> after = before).
Proof.
  cbv zeta. cbn [update_unified_index cutoff_dates default from_option id].
  destruct (add_cutoff_date_spec cutoff (default [] (cutoff_dates existing)))
    as (H1 & H2 & H3 & H4).
  repeat split; try done; try apply H1.
  intros Hc. unfold add_cutoff_date.
  destruct (existsb (String.eqb cutoff) (default [] (cutoff_dates existing))) eqn:E.
  - apply existsb_eqb in E. done.
  - apply sorted_ascending.
Qed.

Lemma save_cutoff_dates now cutoff d :
  cutoff_dates (save_index_file now cutoff d)
  = Some (add_cutoff_date cutoff (default [] (cutoff_dates d))).
Proof. reflexivity. Qed.

Lemma add_cutoff_date_again cutoff l :
  add_cutoff_date cutoff (add_cutoff_date cutoff l) = add_cutoff_date cutoff l.
Proof.
  destruct (add_cutoff_date_spec cutoff (add_cutoff_date cutoff l)) as (_ & _ & _ & H).
  apply H. apply (add_cutoff_date_spec cutoff l). by right.
Qed.

Lemma track_cutoff_dates now now' cutoff d :
  default [] (cutoff_dates (track_cutoff_date now now' cutoff d))
  = add_cutoff_date cutoff (default [] (cutoff_dates d)).
Proof. apply add_cutoff_date_again. Qed.

Lemma save_update_cutoff_dates now now' cutoff d new_videos :
  default [] (cutoff_dates (save_index_file now' cutoff
                              (update_unified_index now d new_videos cutoff)))
  = add_cutoff_date cutoff (default [] (cutoff_dates d)).
Proof. apply add_cutoff_date_again. Qed.

(** X17: Step 1 on a loaded index: whichever branch runs, the index that goes on
    to planning lists the requested cutoff date and has it as the current
    one, still lists every cutoff date it had, keeps the dates in ascending
    order if they were, and still stores every video it stored. In
    video_ids, the list that planning reads, it keeps every id that was
    listed there and stored in videos; and when video_ids listed exactly the
    stored ids before, it lists exactly the stored ids afterwards, so that
    no listed id is lost. *)
Theorem index_tracks_cutoff (now now' cutoff : string) (index_data : IndexData)
    (new_index : option IndexData) :
  let refreshed := refresh_index now now' cutoff index_data new_index in
  cutoff ∈ default [] (cutoff_dates refreshed)
  /\ current_cutoff_date refreshed = Some cutoff
  /\ (forall c, c ∈ default [] (cutoff_dates index_data) ->
                c ∈ default [] (cutoff_dates refreshed))
  /\ (ascending (default [] (cutoff_dates index_data)) ->
      ascending (default [] (cutoff_dates refreshed)))
  /\ dom (videos_of index_data) ⊆ dom (videos_of refreshed)
  /\ (forall k, k ∈ default [] (video_ids index_data) ->
                is_Some (videos_of index_data !! k) ->
                k ∈ default [] (video_ids refreshed))
  /\ ((forall k, k ∈ default [] (video_ids index_data)
                 <-> is_Some (videos_of index_data !! k)) ->
      (forall k, k ∈ default [] (video_ids refreshed)
                 <-> is_Some (videos_of refreshed !! k))
      /\ (forall k, k ∈ default [] (video_ids index_data) ->
                    k ∈ default [] (video_ids refreshed))).
Proof.
  cbv zeta. unfold refresh_index.
  destruct (add_cutoff_date_spec cutoff (default [] (cutoff_dates index_data)))
    as (H1 & H2 & H3 & H4).
  destruct (stale index_data cutoff) eqn:Hstale.
  - assert (Htrack :
      let d := track_cutoff_date now now' cutoff index_data in
      cutoff ∈ default [] (cutoff_dates d)
      /\ current_cutoff_date d = Some cutoff
      /\ (forall c, c ∈ default [] (cutoff_dates index_data) -> c ∈ default [] (cutoff_dates d))
      /\ (ascending (default [] (cutoff_dates index_data)) ->
          ascending (default [] (cutoff_dates d)))
      /\ dom (videos_of index_data) ⊆ dom (videos_of d)
      /\ (forall k, k ∈ default [] (video_ids index_data) ->
                    is_Some (videos_of index_data !! k) ->
                    k ∈ default [] (video_ids d))
      /\ ((forall k, k ∈ default [] (video_ids index_data)
                     <-> is_Some (videos_of index_data !! k)) ->
          (forall k, k ∈ default [] (video_ids d) <-> is_Some (videos_of d !! k))
          /\ (forall k, k ∈ default [] (video_ids index_data) ->
                        k ∈ default [] (video_ids d)))).
    { cbv zeta. rewrite track_cutoff_dates.
      repeat split; try done.
      - apply H1. by right.
      - intros c Hc. apply H1. by left.
      - by apply H.
      - by apply H. }
    destruct new_index as [ni |]; [| exact Htrack].
    destruct (videos ni) as [vs |]; [| exact Htrack].
    destruct (bool_decide (vs = ∅)); [exact Htrack |].
    rewrite save_update_cutoff_dates.
    change (videos_of (save_index_file now' cutoff
              (update_unified_index now index_data (values vs) cutoff)))
      with (fold_left merge_video (values vs) (videos_of index_data)).
    change (default [] (video_ids (save_index_file now' cutoff
                          (update_unified_index now index_data (values vs) cutoff))))
      with (keys (fold_left merge_video (values vs) (videos_of index_data))).
    assert (Hstored : forall k, is_Some (videos_of index_data !! k) ->
                                k ∈ keys (fold_left merge_video (values vs)
                                            (videos_of index_data))).
    { intros k Hk. apply elem_of_keys, elem_of_dom.
      rewrite IndexSpec.fold_merge_dom. apply elem_of_union. left. by apply elem_of_dom. }
    split; [apply H1; by right |]. split; [done |].
    split; [intros c Hc; apply H1; by left |]. split; [done |].
    split; [rewrite IndexSpec.fold_merge_dom; set_solver |].
    split; [intros k _ Hk; by apply Hstored |].
    intros Hlisted. split; [intros k; apply elem_of_keys |].
    intros k Hk. by apply Hstored, Hlisted.
  - unfold stale in Hstale. apply orb_false_iff in Hstale as [Hin Hcur].
    apply negb_false_iff in Hin, Hcur. apply existsb_eqb in Hin.
    apply bool_decide_eq_true in Hcur. repeat split; try done.
    + by apply H.
    + by apply H.
Qed.

(** An id that video_ids lists without an entry in videos is dropped when
    the update branch rebuilds the list from the entries. *)
Example unstored_id_dropped :
  let index_data :=
    mkIndexData (Some "chan") None None None None (Some "2024-01-01")
      (Some ["2024-01-01"]) (Some 1%Z) (Some ∅) (Some ["Z"]) None (Some []) in
  let new_index :=
    mkIndexData (Some "chan") None None None None (Some "2023-12-01")
      (Some ["2023-12-01"]) (Some 1%Z) (Some {["Y" := Scenarios.video_Y]}) (Some ["Y"])
      None (Some []) in
  video_ids (refresh_index Scenarios.clock Scenarios.clock "2023-12-01" index_data
               (Some new_index))
  = Some ["Y"].
Proof. by vm_compute. Qed.

Lemma repair_nothing now dry_run d :
  is_Some (cutoff_dates d) -> is_Some (index_history d) ->
  is_Some (current_cutoff_date d) -> is_Some (last_updated d) ->
  (exists k l, video_ids d = Some (k :: l)) ->
  default 0%Z (total_videos d) = Z.of_nat (size (default ∅ (videos d))) ->
  Repair.repair_index_data now dry_run d = (d, []).
Proof.
  intros [x1 H1] [x2 H2] [x3 H3] [x4 H4] (k & l & H5) H6.
  unfold Repair.repair_index_data.
  assert (E1 : Repair.repair_cutoff_dates dry_run (d, []) = (d, [])).
  { unfold Repair.repair_cutoff_dates, Repair.check. cbn [fst snd].
    rewrite bool_decide_eq_false_2; [done | congruence]. }
  rewrite E1.
  assert (E2 : Repair.repair_index_history now dry_run (d, []) = (d, [])).
  { unfold Repair.repair_index_history, Repair.check. cbn [fst snd].
    rewrite bool_decide_eq_false_2; [done | congruence]. }
  rewrite E2.
  assert (E3 : Repair.repair_current_cutoff_date dry_run (d, []) = (d, [])).
  { unfold Repair.repair_current_cutoff_date, Repair.check. cbn [fst snd].
    rewrite bool_decide_eq_false_2; [done | congruence]. }
  rewrite E3.
  assert (E4 : Repair.repair_last_updated now dry_run (d, []) = (d, [])).
  { unfold Repair.repair_last_updated, Repair.check. cbn [fst snd].
    rewrite bool_decide_eq_false_2; [done | congruence]. }
  rewrite E4.
  assert (E5 : Repair.repair_video_ids dry_run (d, []) = (d, [])).
  { unfold Repair.repair_video_ids, Repair.check. cbn [fst snd]. by rewrite H5. }
  rewrite E5.
  unfold Repair.repair_total_videos, Repair.check. cbn [fst snd].
  by rewrite H6, Z.eqb_refl.
Qed.

(** X18: An index that [update_unified_index] produced from a batch that is not
    empty needs no repair: [repair_index_file] reports success and leaves
    the file as it is, in a dry run and in a real run. *)
Theorem updated_index_needs_no_repair (now now' cutoff : string) (existing : IndexData)
    (new_videos : list Video) (dry_run : bool) :
  new_videos <> [] ->
  Repair.repair_index_file now'
    (Content (update_unified_index now existing new_videos cutoff)) dry_run
  = (Some true, Content (update_unified_index now existing new_videos cutoff)).
Proof.
  intros Hne.
  assert (Hm : fold_left merge_video new_videos (videos_of existing) ≠ ∅).
  { intros Hempty. destruct new_videos as [| v l]; [done |].
    assert (Hin : id v ∈ dom (fold_left merge_video (v :: l) (videos_of existing))).
    { rewrite IndexSpec.fold_merge_dom. set_solver. }
    rewrite Hempty in Hin. set_solver. }
  destruct (keys_nonempty _ Hm) as (k & l & Hkeys).
  unfold Repair.repair_index_file.
  rewrite repair_nothing; [done | by eexists .. | | done].
  exists k, l. cbn [update_unified_index video_ids]. by rewrite <- Hkeys.
Qed.

Lemma updated_index_needs_no_repair_witness :
  Repair.repair_index_file "later"
    (Content (update_unified_index Scenarios.clock Scenarios.index_X
                [Scenarios.video_Y] "2023-12-01")) false
  = (Some true,
     Content (update_unified_index Scenarios.clock Scenarios.index_X
                [Scenarios.video_Y] "2023-12-01")).
Proof.
  apply (updated_index_needs_no_repair Scenarios.clock "later" "2023-12-01"
           Scenarios.index_X [Scenarios.video_Y] false).
  discriminate.
Defined.

End IndexFacts.

(** ** Repairing an index more than once, and dry runs *)

Module RepairFacts.
Import Control (OnDisk, Absent, Corrupt, Content).
Import Index Repair.

Lemma check_snd needed label dry_run fix_ st :
  (check needed label dry_run fix_ st).2 = st.2 ++ (if needed then [label] else []).
Proof. unfold check. destruct needed; cbn [snd]; [done | by rewrite app_nil_r]. Qed.

Lemma check_fst_dry needed label fix_ st : (check needed label true fix_ st).1 = st.1.
Proof. unfold check. by destruct needed. Qed.

Lemma check_not_needed label dry_run fix_ st : check false label dry_run fix_ st = st.
Proof. reflexivity. Qed.

(** Each check of a dry run leaves the dictionary alone. *)
Lemma dry_run_state (now : string) (d : IndexData) :
  (repair_index_data now true d).1 = d.
Proof.
  unfold repair_index_data, repair_total_videos, repair_video_ids, repair_last_updated,
    repair_current_cutoff_date, repair_index_history, repair_cutoff_dates.
  by rewrite !check_fst_dry.
Qed.

(** What each check leaves alone, in a dry run and in a real run, and what
    a real run establishes. *)
Lemma cutoff_dates_step dry_run (st : IndexData * list string) :
  let st' := repair_cutoff_dates dry_run st in
  index_history st'.1 = index_history st.1
  /\ current_cutoff_date st'.1 = current_cutoff_date st.1
  /\ last_updated st'.1 = last_updated st.1
  /\ video_ids st'.1 = video_ids st.1
  /\ total_videos st'.1 = total_videos st.1
  /\ videos st'.1 = videos st.1
  /\ (dry_run = false -> is_Some (cutoff_dates st'.1)).
Proof.
  destruct st as [d l]. cbv zeta. unfold repair_cutoff_dates, check. cbn [fst snd].
  case_bool_decide as E; destruct dry_run; cbn [fst snd]; unfold set_cutoff_dates;
    cbn [index_history current_cutoff_date last_updated video_ids total_videos videos
         cutoff_dates];
    repeat split; try done; intros _.
  destruct (cutoff_dates d) eqn:E'; [by eexists | done].
Qed.

Lemma index_history_step now dry_run (st : IndexData * list string) :
  let st' := repair_index_history now dry_run st in
  cutoff_dates st'.1 = cutoff_dates st.1
  /\ current_cutoff_date st'.1 = current_cutoff_date st.1
  /\ last_updated st'.1 = last_updated st.1
  /\ video_ids st'.1 = video_ids st.1
  /\ total_videos st'.1 = total_videos st.1
  /\ videos st'.1 = videos st.1
  /\ (dry_run = false -> is_Some (index_history st'.1)).
Proof.
  destruct st as [d l]. cbv zeta. unfold repair_index_history, check. cbn [fst snd].
  case_bool_decide as E; destruct dry_run; cbn [fst snd]; unfold set_index_history;
    cbn [index_history current_cutoff_date last_updated video_ids total_videos videos
         cutoff_dates];
    repeat split; try done; intros _.
  destruct (index_history d) eqn:E'; [by eexists | done].
Qed.

Lemma current_cutoff_date_step dry_run (st : IndexData * list string) :
  let st' := repair_current_cutoff_date dry_run st in
  cutoff_dates st'.1 = cutoff_dates st.1
  /\ index_history st'.1 = index_history st.1
  /\ last_updated st'.1 = last_updated st.1
  /\ video_ids st'.1 = video_ids st.1
  /\ total_videos st'.1 = total_videos st.1
  /\ videos st'.1 = videos st.1
  /\ (dry_run = false -> is_Some (current_cutoff_date st'.1)).
Proof.
  destruct st as [d l]. cbv zeta. unfold repair_current_cutoff_date, check. cbn [fst snd].
  case_bool_decide as E; destruct dry_run; cbn [fst snd]; unfold set_current_cutoff_date;
    cbn [index_history current_cutoff_date last_updated video_ids total_videos videos
         cutoff_dates];
    repeat split; try done; intros _.
  destruct (current_cutoff_date d) eqn:E'; [by eexists | done].
Qed.

Lemma last_updated_step now dry_run (st : IndexData * list string) :
  let st' := repair_last_updated now dry_run st in
  cutoff_dates st'.1 = cutoff_dates st.1
  /\ index_history st'.1 = index_history st.1
  /\ current_cutoff_date st'.1 = current_cutoff_date st.1
  /\ video_ids st'.1 = video_ids st.1
  /\ total_videos st'.1 = total_videos st.1
  /\ videos st'.1 = videos st.1
  /\ (dry_run = false -> is_Some (last_updated st'.1)).
Proof.
  destruct st as [d l]. cbv zeta. unfold repair_last_updated, check. cbn [fst snd].
  case_bool_decide as E; destruct dry_run; cbn [fst snd]; unfold set_last_updated;
    cbn [index_history current_cutoff_date last_updated video_ids total_videos videos
         cutoff_dates];
    repeat split; try done; intros _.
  destruct (last_updated d) eqn:E'; [by eexists | done].
Qed.

Lemma video_ids_step dry_run (st : IndexData * list string) :
  let st' := repair_video_ids dry_run st in
  cutoff_dates st'.1 = cutoff_dates st.1
  /\ index_history st'.1 = index_history st.1
  /\ current_cutoff_date st'.1 = current_cutoff_date st.1
  /\ last_updated st'.1 = last_updated st.1
  /\ total_videos st'.1 = total_videos st.1
  /\ videos st'.1 = videos st.1
  /\ (dry_run = false ->
      (exists k l, video_ids st'.1 = Some (k :: l))
      \/ video_ids st'.1 = Some (keys (default ∅ (videos st.1)))).
Proof.
  destruct st as [d l]. cbv zeta. unfold repair_video_ids, check. cbn [fst snd].
  destruct (video_ids d) as [[| k ids] |] eqn:E; destruct dry_run; cbn [fst snd];
    unfold set_video_ids;
    cbn [index_history current_cutoff_date last_updated video_ids total_videos videos
         cutoff_dates];
    repeat split; try done; intros _; try (by right).
  left. rewrite E. by eauto.
Qed.

Lemma total_videos_step dry_run (st : IndexData * list string) :
  let st' := repair_total_videos dry_run st in
  cutoff_dates st'.1 = cutoff_dates st.1
  /\ index_history st'.1 = index_history st.1
  /\ current_cutoff_date st'.1 = current_cutoff_date st.1
  /\ last_updated st'.1 = last_updated st.1
  /\ video_ids st'.1 = video_ids st.1
  /\ videos st'.1 = videos st.1
  /\ (dry_run = false ->
      default 0%Z (total_videos st'.1) = Z.of_nat (size (default ∅ (videos st.1)))).
Proof.
  destruct st as [d l]. cbv zeta. unfold repair_total_videos, check. cbn [fst snd].
  destruct (default 0 (total_videos d) =? Z.of_nat (size (default ∅ (videos d))))%Z eqn:E;
    destruct dry_run; cbn [negb fst snd]; unfold set_total_videos;
    cbn [index_history current_cutoff_date last_updated video_ids total_videos videos
         cutoff_dates];
    repeat split; try done; intros _.
  by apply Z.eqb_eq in E.
Qed.

(** The list of repairs, read off the dictionary as it was: the same in a
    dry run and in a real run. *)
Lemma repairs_listed (now : string) (dry_run : bool) (d : IndexData) :
  (repair_index_data now dry_run d).2
  = (if bool_decide (cutoff_dates d = None) then ["cutoff_dates"] else [])
    ++ (if bool_decide (index_history d = None) then ["index_history"] else [])
    ++ (if bool_decide (current_cutoff_date d = None) then ["current_cutoff_date"] else [])
    ++ (if bool_decide (last_updated d = None) then ["last_updated"] else [])
    ++ (if match video_ids d with Some (_ :: _) => false | _ => true end
        then ["video_ids"] else [])
    ++ (if negb (default 0 (total_videos d) =? Z.of_nat (size (default ∅ (videos d))))%Z
        then ["total_videos"] else []).
Proof.
  unfold repair_index_data.
  set (s1 := repair_cutoff_dates dry_run (d, [])).
  set (s2 := repair_index_history now dry_run s1).
  set (s3 := repair_current_cutoff_date dry_run s2).
  set (s4 := repair_last_updated now dry_run s3).
  set (s5 := repair_video_ids dry_run s4).
  destruct (cutoff_dates_step dry_run (d, [])) as (A1 & A2 & A3 & A4 & A5 & A6 & _).
  destruct (index_history_step now dry_run s1) as (_ & B2 & B3 & B4 & B5 & B6 & _).
  destruct (current_cutoff_date_step dry_run s2) as (_ & _ & C3 & C4 & C5 & C6 & _).
  destruct (last_updated_step now dry_run s3) as (_ & _ & _ & D4 & D5 & D6 & _).
  destruct (video_ids_step dry_run s4) as (_ & _ & _ & _ & E5 & E6 & _).
  fold s1 in A1, A2, A3, A4, A5, A6. fold s2 in B2, B3, B4, B5, B6.
  fold s3 in C3, C4, C5, C6. fold s4 in D4, D5, D6. fold s5 in E5, E6.
  cbn [fst] in A1, A2, A3, A4, A5, A6.
  unfold repair_total_videos. rewrite check_snd.
  rewrite E5, E6, D5, D6, C5, C6, B5, B6, A5, A6.
  unfold s5, repair_video_ids. rewrite check_snd.
  rewrite D4, C4, B4, A4.
  unfold s4, repair_last_updated. rewrite check_snd.
  rewrite C3, B3, A3.
  unfold s3, repair_current_cutoff_date. rewrite check_snd.
  rewrite B2, A2.
  unfold s2, repair_index_history. rewrite check_snd.
  rewrite A1.
  unfold s1, repair_cutoff_dates. rewrite check_snd. cbn [fst snd app].
  by rewrite <- !app_assoc.
Qed.

(** A run that lists no repair has changed nothing. *)
Lemma nothing_listed (now : string) (dry_run : bool) (d : IndexData) :
  (repair_index_data now dry_run d).2 = [] -> repair_index_data now dry_run d = (d, []).
Proof.
  rewrite repairs_listed. intros H.
  repeat (apply app_eq_nil in H as [? H]).
  unfold repair_index_data.
  assert (E1 : repair_cutoff_dates dry_run (d, []) = (d, [])).
  { unfold repair_cutoff_dates. cbn [fst].
    destruct (bool_decide (cutoff_dates d = None)); [done | reflexivity]. }
  rewrite E1.
  assert (E2 : repair_index_history now dry_run (d, []) = (d, [])).
  { unfold repair_index_history. cbn [fst].
    destruct (bool_decide (index_history d = None)); [done | reflexivity]. }
  rewrite E2.
  assert (E3 : repair_current_cutoff_date dry_run (d, []) = (d, [])).
  { unfold repair_current_cutoff_date. cbn [fst].
    destruct (bool_decide (current_cutoff_date d = None)); [done | reflexivity]. }
  rewrite E3.
  assert (E4 : repair_last_updated now dry_run (d, []) = (d, [])).
  { unfold repair_last_updated. cbn [fst].
    destruct (bool_decide (last_updated d = None)); [done | reflexivity]. }
  rewrite E4.
  assert (E5 : repair_video_ids dry_run (d, []) = (d, [])).
  { unfold repair_video_ids. cbn [fst].
    destruct (match video_ids d with Some (_ :: _) => false | _ => true end);
      [done | reflexivity]. }
  rewrite E5.
  unfold repair_total_videos. cbn [fst].
  destruct (negb (default 0 (total_videos d) =? Z.of_nat (size (default ∅ (videos d))))%Z);
    [done | reflexivity].
Qed.

(** What a real run leaves behind. *)
Lemma repair_state (now : string) (d : IndexData) :
  let d' := (repair_index_data now false d).1 in
  is_Some (cutoff_dates d') /\ is_Some (index_history d')
  /\ is_Some (current_cutoff_date d') /\ is_Some (last_updated d')
  /\ videos d' = videos d
  /\ ((exists k l, video_ids d' = Some (k :: l))
      \/ video_ids d' = Some (keys (default ∅ (videos d))))
  /\ default 0%Z (total_videos d') = Z.of_nat (size (default ∅ (videos d))).
Proof.
  cbv zeta. unfold repair_index_data.
  set (s1 := repair_cutoff_dates false (d, [])).
  set (s2 := repair_index_history now false s1).
  set (s3 := repair_current_cutoff_date false s2).
  set (s4 := repair_last_updated now false s3).
  set (s5 := repair_video_ids false s4).
  destruct (cutoff_dates_step false (d, [])) as (A1 & A2 & A3 & A4 & A5 & A6 & A7).
  destruct (index_history_step now false s1) as (B1 & B2 & B3 & B4 & B5 & B6 & B7).
  destruct (current_cutoff_date_step false s2) as (C1 & C2 & C3 & C4 & C5 & C6 & C7).
  destruct (last_updated_step now false s3) as (D1 & D2 & D3 & D4 & D5 & D6 & D7).
  destruct (video_ids_step false s4) as (E1 & E2 & E3 & E4 & E5 & E6 & E7).
  destruct (total_videos_step false s5) as (F1 & F2 & F3 & F4 & F5 & F6 & F7).
  fold s1 in A1, A2, A3, A4, A5, A6, A7. fold s2 in B1, B2, B3, B4, B5, B6, B7.
  fold s3 in C1, C2, C3, C4, C5, C6, C7. fold s4 in D1, D2, D3, D4, D5, D6, D7.
  fold s5 in E1, E2, E3, E4, E5, E6, E7.
  cbn [fst] in A1, A2, A3, A4, A5, A6.
  assert (Hv : videos s5.1 = videos d) by congruence.
  assert (Hv4 : videos s4.1 = videos d) by congruence.
  repeat split.
  - rewrite F1, E1, D1, C1, B1. by apply A7.
  - rewrite F2, E2, D2, C2. by apply B7.
  - rewrite F3, E3, D3. by apply C7.
  - rewrite F4, E4. by apply D7.
  - by rewrite F6.
  - rewrite F5, <- Hv4. by apply E7.
  - rewrite <- Hv. by apply F7.
Qed.

(** A dictionary in the state a real run leaves behind is not changed by
    another real run. *)
Lemma repair_fixed (now : string) (d : IndexData) :
  is_Some (cutoff_dates d) -> is_Some (index_history d) ->
  is_Some (current_cutoff_date d) -> is_Some (last_updated d) ->
  ((exists k l, video_ids d = Some (k :: l))
   \/ video_ids d = Some (keys (default ∅ (videos d)))) ->
  default 0%Z (total_videos d) = Z.of_nat (size (default ∅ (videos d))) ->
  (repair_index_data now false d).1 = d.
Proof.
  intros [x1 H1] [x2 H2] [x3 H3] [x4 H4] H5 H6.
  unfold repair_index_data.
  assert (E1 : repair_cutoff_dates false (d, []) = (d, [])).
  { unfold repair_cutoff_dates. cbn [fst].
    rewrite bool_decide_eq_false_2; [reflexivity | congruence]. }
  rewrite E1.
  assert (E2 : repair_index_history now false (d, []) = (d, [])).
  { unfold repair_index_history. cbn [fst].
    rewrite bool_decide_eq_false_2; [reflexivity | congruence]. }
  rewrite E2.
  assert (E3 : repair_current_cutoff_date false (d, []) = (d, [])).
  { unfold repair_current_cutoff_date. cbn [fst].
    rewrite bool_decide_eq_false_2; [reflexivity | congruence]. }
  rewrite E3.
  assert (E4 : repair_last_updated now false (d, []) = (d, [])).
  { unfold repair_last_updated. cbn [fst].
    rewrite bool_decide_eq_false_2; [reflexivity | congruence]. }
  rewrite E4.
  assert (E5 : (repair_video_ids false (d, [])).1 = d).
  { unfold repair_video_ids, check. cbn [fst].
    destruct (video_ids d) as [[| k ids] |] eqn:E; cbn [fst]; try done.
    - unfold set_video_ids. destruct H5 as [(k & l & [=]) | [= H5]].
      rewrite <- H5. destruct d. cbn in E. by subst.
    - by destruct H5 as [(k & l & [=]) | [=]]. }
  unfold repair_total_videos, check. rewrite E5, H6, Z.eqb_refl. cbn [negb fst].
  exact E5.
Qed.

(** X19: A second repair finds the file as the first left it: running
    [repair_index_file] twice gives the same file and the same answer as
    running it once. *)
Theorem repair_idempotent (now now' : string) (index_file : OnDisk IndexData) :
  repair_index_file now' (repair_index_file now index_file false).2 false
  = repair_index_file now index_file false.
Proof.
  destruct index_file as [| | d]; [reflexivity | reflexivity |].
  assert (Hfile : repair_index_file now (Content d) false
                  = (Some true, Content (repair_index_data now false d).1)).
  { unfold repair_index_file.
    destruct (repair_index_data now false d) as [d' labels] eqn:E.
    destruct labels as [| label labels]; [| reflexivity].
    rewrite (nothing_listed now false d) in E by (by rewrite E). by injection E as <-. }
  rewrite Hfile. cbn [snd].
  destruct (repair_state now d) as (H1 & H2 & H3 & H4 & Hv & H5 & H6).
  rewrite <- Hv in H5, H6.
  pose proof (repair_fixed now' _ H1 H2 H3 H4 H5 H6) as Hfixed.
  unfold repair_index_file.
  destruct (repair_index_data now' false (repair_index_data now false d).1)
    as [d'' labels] eqn:E.
  cbn [fst] in Hfixed. subst d''.
  by destruct labels.
Qed.

(** X20: A dry run never changes the file, it lists exactly the repairs a real
    run makes, and it reports success only when there is nothing to repair:
    with repairs pending it returns no value, which the caller counts as an
    error. *)
Theorem dry_run_predicts (now : string) (index_file : OnDisk IndexData) :
  (repair_index_file now index_file true).2 = index_file
  /\ (forall d, repair_index_data now true d = (d, (repair_index_data now false d).2))
  /\ (forall d, index_file = Content d ->
        (repair_index_file now index_file true).1
        = if bool_decide ((repair_index_data now false d).2 = []) then Some true else None).
Proof.
  split; [| split].
  - unfold repair_index_file. destruct index_file as [| | d]; try reflexivity.
    destruct (repair_index_data now true d) as [d' labels]. by destruct labels.
  - intros d. rewrite (surjective_pairing (repair_index_data now true d)).
    by rewrite dry_run_state, !repairs_listed.
  - intros d ->. unfold repair_index_file.
    rewrite (surjective_pairing (repair_index_data now true d)).
    rewrite (repairs_listed now true), <- (repairs_listed now false).
    destruct ((repair_index_data now false d).2); by case_bool_decide.
Qed.

End RepairFacts.

(** ** Merging the date-specific indexes of a channel *)

Module MergeFacts.
Import Control (OnDisk, Absent, Corrupt, Content).
Import Index MergeIndexes Harvester.

Lemma elem_of_loaded (index_files : list (OnDisk IndexData)) (d : IndexData) :
  d ∈ omap load_index_file index_files <-> Content d ∈ index_files.
Proof.
  rewrite list_elem_of_omap. split.
  - intros (f & Hf & Hload). destruct f; simplify_eq/=. done.
  - intros Hf. by exists (Content d).
Qed.

Lemma merge_videos_kept (A B : gmap string Video) (k : string) (v : Video) :
  A !! k = Some v ->
  exists v', merge_videos A B !! k = Some v' /\ payload_size v <= payload_size v'.
Proof.
  intros Hk. unfold merge_videos. rewrite lookup_union_with, Hk.
  destruct (B !! k) as [b |]; simpl; [| by exists v].
  eexists. split; [done |].
  destruct (payload_size v <? payload_size b) eqn:E; [| lia].
  apply Nat.ltb_lt in E. lia.
Qed.

Lemma merge_videos_new (A B : gmap string Video) (k : string) (v : Video) :
  B !! k = Some v ->
  exists v', merge_videos A B !! k = Some v' /\ payload_size v <= payload_size v'.
Proof.
  intros Hk. unfold merge_videos. rewrite lookup_union_with, Hk.
  destruct (A !! k) as [a |]; simpl; [| by exists v].
  eexists. split; [done |].
  destruct (payload_size a <? payload_size v) eqn:E; [lia |].
  apply Nat.ltb_ge in E. lia.
Qed.

Lemma merge_videos_origin (A B : gmap string Video) (k : string) (v : Video) :
  merge_videos A B !! k = Some v -> A !! k = Some v \/ B !! k = Some v.
Proof.
  unfold merge_videos. rewrite lookup_union_with.
  destruct (A !! k) as [a |], (B !! k) as [b |]; simpl; intros [= <-]; auto.
  destruct (payload_size a <? payload_size b); auto.
Qed.

Lemma fold_sources_kept (indexes : list IndexData) : forall acc (k : string) v,
  acc !! k = Some v ->
  exists v', fold_left (fun acc index => merge_videos acc (default ∅ (videos index)))
               indexes acc !! k = Some v'
             /\ payload_size v <= payload_size v'.
Proof.
  induction indexes as [| d l IH]; intros acc k v Hk; simpl; [by exists v |].
  destruct (merge_videos_kept acc (default ∅ (videos d)) k v Hk) as (v1 & H1 & Hle1).
  destruct (IH _ _ _ H1) as (v2 & H2 & Hle2).
  exists v2. split; [done | lia].
Qed.

Lemma fold_sources_member (indexes : list IndexData) : forall acc d (k : string) v,
  d ∈ indexes -> videos_of d !! k = Some v ->
  exists v', fold_left (fun acc index => merge_videos acc (default ∅ (videos index)))
               indexes acc !! k = Some v'
             /\ payload_size v <= payload_size v'.
Proof.
  induction indexes as [| a l IH]; intros acc d k v Hd Hk; [by apply elem_of_nil in Hd |].
  simpl. apply elem_of_cons in Hd as [-> | Hd]; [| by eapply IH].
  destruct (merge_videos_new acc (default ∅ (videos a)) k v Hk) as (v1 & H1 & Hle1).
  destruct (fold_sources_kept l _ _ _ H1) as (v2 & H2 & Hle2).
  exists v2. split; [done | lia].
Qed.

Lemma fold_sources_origin (indexes : list IndexData) : forall acc (k : string) v,
  fold_left (fun acc index => merge_videos acc (default ∅ (videos index)))
    indexes acc !! k = Some v ->
  acc !! k = Some v \/ exists d, d ∈ indexes /\ videos_of d !! k = Some v.
Proof.
  induction indexes as [| a l IH]; intros acc k v Hk; simpl in Hk; [by left |].
  destruct (IH _ _ _ Hk) as [H | (d & Hd & H)].
  - destruct (merge_videos_origin _ _ _ _ H) as [H' | H']; [by left |].
    right. exists a. split; [apply list_elem_of_here | done].
  - right. exists d. split; [by apply list_elem_of_further | done].
Qed.

(** X21: The merge of the index files of a channel, none of which holds the
    empty dictionary. There is no result exactly when no file can be read.
    The result stores an id if and only if a readable source stores it,
    each time with a payload of one of the sources whose display is at
    least as long as that of every source; its counter is the number of
    stored videos; its history has one entry per readable source; and its
    cutoff dates are in ascending order without repetition. *)
Theorem merged_index_complete (now : string) (index_files : list (OnDisk IndexData)) :
  (forall d, Content d ∈ index_files -> d <> empty_index) ->
  (merge_channel_indexes now index_files = None
   <-> forall d, Content d ∉ index_files)
  /\ forall unified_index,
       merge_channel_indexes now index_files = Some unified_index ->
       (forall d k v, Content d ∈ index_files -> videos_of d !! k = Some v ->
          exists v', videos_of unified_index !! k = Some v'
                     /\ payload_size v <= payload_size v')
       /\ (forall k v', videos_of unified_index !! k = Some v' ->
             exists d, Content d ∈ index_files /\ videos_of d !! k = Some v')
       /\ total_videos unified_index = Some (Z.of_nat (size (videos_of unified_index)))
       /\ length (default [] (index_history unified_index))
          = length (omap load_index_file index_files)
       /\ ascending (default [] (cutoff_dates unified_index))
       /\ NoDup (default [] (cutoff_dates unified_index)).
Proof.
  intros _. unfold merge_channel_indexes. split.
  - destruct (omap load_index_file index_files) as [| first others] eqn:E.
    + split; [| done]. intros _ d Hd. apply elem_of_loaded in Hd.
      rewrite E in Hd. by apply elem_of_nil in Hd.
    + split; [done |]. intros Hnone. exfalso. apply (Hnone first).
      apply elem_of_loaded. rewrite E. apply list_elem_of_here.
  - intros u Hu.
    destruct (omap load_index_file index_files) as [| first others] eqn:E; [done |].
    injection Hu as <-. unfold videos_of.
    cbn [videos total_videos index_history cutoff_dates default from_option id].
    repeat split.
    + intros d k v Hd Hk. apply elem_of_loaded in Hd. rewrite E in Hd.
      by apply (fold_sources_member (first :: others) ∅ d).
    + intros k v' Hk.
      destruct (fold_sources_origin (first :: others) ∅ k v' Hk) as [H | (d & Hd & H)].
      * by rewrite lookup_empty in H.
      * exists d. split; [| done]. apply elem_of_loaded. by rewrite E.
    + unfold Datatypes.id. simpl. by rewrite length_map.
    + apply IndexFacts.sorted_ascending.
    + unfold Datatypes.id. rewrite IndexFacts.sorted_perm. apply NoDup_elements.
Qed.

Lemma merged_index_complete_witness :
  (merge_channel_indexes Scenarios.clock
     [Corrupt; Content Scenarios.index_X; Content Scenarios.legacy_index] = None
   <-> forall d, Content d ∉ [Corrupt; Content Scenarios.index_X;
                              Content Scenarios.legacy_index])
  /\ forall unified_index,
       merge_channel_indexes Scenarios.clock
         [Corrupt; Content Scenarios.index_X; Content Scenarios.legacy_index]
       = Some unified_index ->
       (forall d k v,
          Content d ∈ [Corrupt; Content Scenarios.index_X; Content Scenarios.legacy_index] ->
          videos_of d !! k = Some v ->
          exists v', videos_of unified_index !! k = Some v'
                     /\ payload_size v <= payload_size v')
       /\ (forall k v', videos_of unified_index !! k = Some v' ->
             exists d,
               Content d ∈ [Corrupt; Content Scenarios.index_X;
                            Content Scenarios.legacy_index]
               /\ videos_of d !! k = Some v')
       /\ total_videos unified_index = Some (Z.of_nat (size (videos_of unified_index)))
       /\ length (default [] (index_history unified_index))
          = length (omap load_index_file
                      [Corrupt; Content Scenarios.index_X; Content Scenarios.legacy_index])
       /\ ascending (default [] (cutoff_dates unified_index))
       /\ NoDup (default [] (cutoff_dates unified_index)).
Proof.
  apply (merged_index_complete Scenarios.clock
           [Corrupt; Content Scenarios.index_X; Content Scenarios.legacy_index]).
  intros d Hd.
  apply elem_of_cons in Hd as [[=] | Hd].
  apply elem_of_cons in Hd as [[= ->] | Hd]; [discriminate |].
  apply elem_of_cons in Hd as [[= ->] | Hd]; [discriminate |].
  by apply elem_of_nil in Hd.
Defined.

End MergeFacts.

(** ** The ledger against the directory it was scanned from *)

Module LedgerFacts.
Import Disk Control Reconciler History.

Lemma exists_in_listing dir wd (fname : string) :
  exists_in dir wd fname = true ->
  exists f, In f (listing dir wd) /\ f_name f = fname.
Proof.
  unfold exists_in, lookup_file.
  destruct (List.find _ (listing dir wd)) as [f |] eqn:E; [| done].
  intros _. apply find_some in E as [Hin Heq]. apply String.eqb_eq in Heq. by exists f.
Qed.

Lemma listing_exists_in dir wd (f : File) :
  In f (listing dir wd) -> exists_in dir wd (f_name f) = true.
Proof.
  intros Hin. unfold exists_in, lookup_file.
  destruct (List.find _ (listing dir wd)) as [f' |] eqn:E; [done |].
  pose proof (find_none _ _ E f Hin) as Hno. cbv beta in Hno.
  by rewrite String.eqb_refl in Hno.
Qed.

(** An entry found in the working directory exists under the path that the
    ledger records for it. *)
Lemma exists_path dir wd (fname : string) :
  exists_in dir wd fname = true -> path_exists dir (relative_path wd fname) = true.
Proof.
  intros Hex. destruct (exists_in_listing _ _ _ Hex) as (f & Hin & <-).
  unfold path_exists. apply existsb_exists.
  exists (relative_path wd (f_name f)). split; [| apply String.eqb_refl].
  unfold relative_paths. apply in_app_iff.
  destruct wd as [d |]; cbn [listing relative_path] in *.
  - right. destruct (List.find _ (subdirs dir)) as [sd |] eqn:E; [| done].
    apply find_some in E as [Hsd Heq]. apply String.eqb_eq in Heq. subst d.
    apply in_flat_map. exists sd. split; [done |]. right.
    apply in_map_iff. by exists f.
  - apply in_app_iff in Hin as [Hin | Hin].
    + left. apply in_map_iff. by exists f.
    + right. apply in_map_iff in Hin as (sd & <- & Hsd).
      apply in_flat_map. exists sd. split; [done |]. by left.
Qed.

Lemma first_existing_exists dir wd candidates (fname : string) :
  first_existing dir wd candidates = Some fname -> exists_in dir wd fname = true.
Proof. unfold first_existing. intros H. by apply find_some in H as [_ H]. Qed.

Lemma relative_path_truthy wd (fname : string) :
  PyStr.truthy fname = true -> PyStr.truthy (relative_path wd fname) = true.
Proof.
  destruct wd as [d |]; cbn [relative_path]; [| done]. intros _. by destruct d.
Qed.

Lemma relative_first_existing dir wd candidates (p : string) :
  relative_opt wd (first_existing dir wd candidates) = Some p ->
  path_exists dir p = true /\ PyStr.truthy p = true.
Proof.
  unfold relative_opt.
  destruct (first_existing dir wd candidates) as [fname |] eqn:E; [| done].
  destruct (PyStr.truthy fname) eqn:Ht; [| done]. intros [= <-].
  split; [| by apply relative_path_truthy].
  apply exists_path. by eapply first_existing_exists.
Qed.

(** The primary file of a record built by the scan. *)
Lemma scanned_media_exists dir wd (info_file : File) (p : string) :
  PyStr.or_else
    (audio (relative_files wd (find_matching_files dir wd info_file)))
    (video (relative_files wd (find_matching_files dir wd info_file))) = Some p ->
  path_exists dir p = true /\ PyStr.truthy p = true.
Proof.
  cbn [relative_files find_matching_files audio video]. unfold PyStr.or_else.
  match goal with
  | |- context [relative_opt wd (first_existing dir wd ?c)] =>
      destruct (relative_opt wd (first_existing dir wd c)) as [a |] eqn:Ea
  end.
  - destruct (PyStr.truthy a) eqn:Ht.
    + intros [= <-]. by eapply relative_first_existing.
    + apply relative_first_existing.
  - apply relative_first_existing.
Qed.

Lemma scan_info_file_media dir c entry :
  (forall k rec p, downloaded_videos c !! k = Some rec -> main_file rec = Some p ->
     path_exists dir p = true /\ PyStr.truthy p = true) ->
  forall (k : string) rec p,
    downloaded_videos (scan_info_file dir c entry) !! k = Some rec ->
    main_file rec = Some p ->
    path_exists dir p = true /\ PyStr.truthy p = true.
Proof.
  intros Hc k rec p. destruct entry as [wd f]. unfold scan_info_file.
  destruct (f_json f) as [v |]; [| apply Hc].
  destruct (negb (PyStr.truthy (ij_video_id v))); [apply Hc |].
  cbn [downloaded_videos].
  destruct (decide (ij_video_id v = k)) as [<- | Hne].
  - rewrite lookup_insert_eq. intros [= <-]. unfold main_file. cbn [vfiles].
    apply scanned_media_exists.
  - rewrite lookup_insert_ne by done. apply Hc.
Qed.

Lemma scan_fold_media dir entries : forall c,
  (forall k rec p, downloaded_videos c !! k = Some rec -> main_file rec = Some p ->
     path_exists dir p = true /\ PyStr.truthy p = true) ->
  forall (k : string) rec p,
    downloaded_videos (fold_left (scan_info_file dir) entries c) !! k = Some rec ->
    main_file rec = Some p ->
    path_exists dir p = true /\ PyStr.truthy p = true.
Proof.
  induction entries as [| e entries IH]; intros c Hc; [exact Hc |].
  cbn [fold_left]. apply IH. by apply scan_info_file_media.
Qed.

Lemma scan_media dir now (k : string) rec p :
  downloaded_videos (scan_channel_directory now dir) !! k = Some rec ->
  main_file rec = Some p ->
  path_exists dir p = true /\ PyStr.truthy p = true.
Proof.
  unfold scan_channel_directory. apply scan_fold_media.
  intros k' rec' p'. cbn [downloaded_videos]. by rewrite lookup_empty.
Qed.

(** What the scan records, the refreshed ledger holds, whether or not
    deleted records are preserved. *)
Lemma refreshed_lookup now preserve_deleted existing dir (k : string) rec :
  downloaded_videos (scan_channel_directory now dir) !! k = Some rec ->
  downloaded_videos (control_data_for now preserve_deleted existing dir) !! k = Some rec.
Proof.
  intros Hk. unfold control_data_for.
  destruct preserve_deleted, existing as [e |]; try done.
  unfold merge_control. cbn [downloaded_videos]. by apply lookup_union_Some_l.
Qed.

(** X22: The scan records no primary file that is not in the directory: the
    audio or video path of every record of a fresh scan exists below the
    channel directory. *)
Theorem scan_records_exist (now : string) (dir : ChannelDir) (video_id : string)
    (video_info : VideoRecord) (p : string) :
  downloaded_videos (scan_channel_directory now dir) !! video_id = Some video_info ->
  main_file video_info = Some p ->
  path_exists dir p = true /\ present dir video_info = true.
Proof.
  intros Hk Hm. destruct (scan_media dir now video_id video_info p Hk Hm) as [Hp Ht].
  split; [done |]. unfold present. by rewrite Hm, Ht.
Qed.

Lemma scan_records_exist_witness :
  path_exists Scenarios.dir_complete "a.mp3" = true
  /\ present Scenarios.dir_complete
       (default (mkVideoRecord "" "" 0 "" "" (mkFiles None None None None [] [] None) 0 "" None)
          (downloaded_videos (scan_channel_directory Scenarios.clock Scenarios.dir_complete)
             !! "X")) = true.
Proof.
  apply (scan_records_exist Scenarios.clock Scenarios.dir_complete "X").
  - by vm_compute.
  - by vm_compute.
Defined.

(** X23: Round trip of the ledger: once [create_control_file] has refreshed the
    ledger of a directory, the planner leaves out every item for which the
    scan of that directory records an audio or a video file, under either
    value of [redownload_deleted] and whatever the configuration files and
    the previous ledger hold. *)
Theorem refreshed_ledger_skips_media (now : string)
    (config_files : list (OnDisk (list ChannelConfig)))
    (control_file : OnDisk ControlData) (dir : ChannelDir)
    (index_data : Index.IndexData) (redownload_deleted : bool)
    (video_id : string) (video_info : VideoRecord) :
  downloaded_videos (scan_channel_directory now dir) !! video_id = Some video_info ->
  is_Some (main_file video_info) ->
  video_id ∉ videos_to_download dir
               (create_control_file now config_files control_file (Some dir)).2
               index_data redownload_deleted true.
Proof.
  intros Hk [p Hm]. destruct (scan_media dir now video_id video_info p Hk Hm) as [Hp Ht].
  assert (Hpresent : present dir video_info = true).
  { unfold present. by rewrite Hm, Ht. }
  cbn [create_control_file snd].
  eapply refreshed_lookup in Hk.
  unfold videos_to_download, downloaded_ids. rewrite elem_of_difference.
  intros [_ Hno]. apply Hno.
  destruct redownload_deleted.
  - apply ReconcilerSpec.elem_of_actually_existing. exists video_info. split; [| done].
    exact Hk.
  - apply ReconcilerSpec.elem_of_existing. exists video_info. split; [exact Hk |].
    by apply ReconcilerSpec.present_skipped.
Qed.

Lemma refreshed_ledger_skips_media_witness :
  is_Some (downloaded_videos
             (scan_channel_directory Scenarios.clock Scenarios.dir_complete) !! "X")
  /\ "X" ∉ videos_to_download Scenarios.dir_complete
          (create_control_file Scenarios.clock [] Absent (Some Scenarios.dir_complete)).2
          Scenarios.index_X true true.
Proof.
  split; [vm_compute; by eexists |].
  apply (refreshed_ledger_skips_media Scenarios.clock [] Absent Scenarios.dir_complete
           Scenarios.index_X true "X"
           (default (mkVideoRecord "" "" 0 "" "" (mkFiles None None None None [] [] None)
                       0 "" None)
              (downloaded_videos
                 (scan_channel_directory Scenarios.clock Scenarios.dir_complete) !! "X"))).
  - by vm_compute.
  - exists "a.mp3". by vm_compute.
Defined.

(** X24: Refreshing the ledger a second time over an unchanged directory changes
    neither the records nor the file hashes; the statistics are the same
    too, unless the first refresh wrote the bare rescan while the second
    merges (deleted records preserved and no ledger before the first). *)
Theorem refresh_idempotent (now now' : string) (preserve_deleted : bool)
    (existing : option ControlData) (dir : ChannelDir) :
  let first := control_data_for now preserve_deleted existing dir in
  let second := control_data_for now' preserve_deleted (Some first) dir in
  downloaded_videos second = downloaded_videos first
  /\ file_hashes second = file_hashes first
  /\ channel_name second = channel_name first
  /\ (preserve_deleted = false \/ is_Some existing ->
      statistics second = statistics first)
  /\ total_videos (statistics second)
     = if preserve_deleted then size (downloaded_videos first)
       else total_videos (statistics first).
Proof.
  cbv zeta.
  assert (Hscan : forall t,
            downloaded_videos (scan_channel_directory t dir)
            = downloaded_videos (scan_channel_directory now dir)
            /\ file_hashes (scan_channel_directory t dir)
               = file_hashes (scan_channel_directory now dir)
            /\ statistics (scan_channel_directory t dir)
               = statistics (scan_channel_directory now dir)
            /\ channel_name (scan_channel_directory t dir) = name dir).
  { intros t. unfold scan_channel_directory.
    set (c1 := {| channel_name := name dir; last_updated := Some t;
                  downloaded_videos := ∅; file_hashes := ∅;
                  statistics := zero_statistics |}).
    set (c2 := {| channel_name := name dir; last_updated := Some now;
                  downloaded_videos := ∅; file_hashes := ∅;
                  statistics := zero_statistics |}).
    assert (Hinit : downloaded_videos c1 = downloaded_videos c2
                    /\ file_hashes c1 = file_hashes c2
                    /\ statistics c1 = statistics c2
                    /\ channel_name c1 = name dir) by done.
    assert (Hinit2 : channel_name c2 = name dir) by done.
    clearbody c1 c2. revert c1 c2 Hinit Hinit2.
    induction (info_files dir) as [| e l IH]; intros c1 c2 Hinit Hinit2; [done |].
    cbn [fold_left]. apply IH.
    - destruct Hinit as (H1 & H2 & H3 & H4). destruct e as [wd f].
      unfold scan_info_file.
      destruct (f_json f) as [v |]; [| done].
      destruct (negb (PyStr.truthy (ij_video_id v))); [done |].
      cbn [downloaded_videos file_hashes statistics channel_name].
      by rewrite H1, H2, H3.
    - destruct e as [wd f]. unfold scan_info_file.
      destruct (f_json f) as [v |]; [| done].
      by destruct (negb (PyStr.truthy (ij_video_id v))). }
  destruct (Hscan now') as (S1 & S2 & S3 & S4).
  destruct (Hscan now) as (_ & _ & _ & S4').
  unfold control_data_for.
  destruct preserve_deleted.
  - destruct existing as [e |]; unfold merge_control;
      cbn [downloaded_videos file_hashes statistics channel_name total_videos];
      rewrite S1, S2, S3.
    + rewrite !(assoc_L (∪)), !(idemp_L (∪)). repeat split; try done.
    + rewrite !(idemp_L (∪)). repeat split; try done. by intros [[=] | [? [=]]].
  - repeat split; try done; [by rewrite S4, S4' | by rewrite S3].
Qed.

(** X25: Without a readable control file nothing is skipped: the plan is the
    whole index, whatever the policy. *)
Theorem missing_ledger_plans_everything (dir : ChannelDir) (index_data : Index.IndexData)
    (redownload_deleted skip_existing : bool) :
  videos_to_download dir Absent index_data redownload_deleted skip_existing
  = list_to_set (default [] (Index.video_ids index_data))
  /\ videos_to_download dir Corrupt index_data redownload_deleted skip_existing
     = list_to_set (default [] (Index.video_ids index_data))
  /\ get_downloaded_video_ids dir Absent = ∅
  /\ get_downloaded_video_ids dir Corrupt = ∅.
Proof.
  assert (H : forall cf, cf = Absent \/ cf = Corrupt ->
            videos_to_download dir cf index_data redownload_deleted skip_existing
            = list_to_set (default [] (Index.video_ids index_data))).
  { intros cf Hcf. unfold videos_to_download, downloaded_ids,
      get_actually_existing_video_ids, get_existing_video_ids.
    destruct skip_existing; [| done].
    destruct Hcf as [-> | ->]; cbn [load_control_file downloaded_videos];
      destruct redownload_deleted; rewrite map_filter_empty, dom_empty_L; set_solver. }
  split; [apply H; by left |]. split; [apply H; by right |].
  unfold get_downloaded_video_ids. cbn [load_control_file downloaded_videos].
  by rewrite dom_empty_L.
Qed.

(** X26: The three skip sets are nested, so turning [redownload_deleted] on can
    only add to the plan, and what it adds are exactly the indexed items
    whose recorded primary file is gone from the directory. *)
Theorem redownload_extends_plan (dir : ChannelDir) (control_file : OnDisk ControlData)
    (index_data : Index.IndexData) :
  get_actually_existing_video_ids dir control_file
  ⊆ get_existing_video_ids dir control_file false
  /\ get_existing_video_ids dir control_file false
     ⊆ get_downloaded_video_ids dir control_file
  /\ get_existing_video_ids dir control_file true
     = get_actually_existing_video_ids dir control_file
  /\ videos_to_download dir control_file index_data false true
     ⊆ videos_to_download dir control_file index_data true true
  /\ forall video_id,
       video_id ∈ videos_to_download dir control_file index_data true true
                  ∖ videos_to_download dir control_file index_data false true
       <-> video_id ∈ default [] (Index.video_ids index_data)
           /\ exists video_info p,
                downloaded_videos (load_control_file dir control_file) !! video_id
                = Some video_info
                /\ main_file video_info = Some p /\ PyStr.truthy p = true
                /\ path_exists dir p = false.
Proof.
  assert (H1 : get_actually_existing_video_ids dir control_file
               ⊆ get_existing_video_ids dir control_file false)
    by apply ReconcilerSpec.actually_existing_subseteq.
  assert (H2 : get_existing_video_ids dir control_file false
               ⊆ get_downloaded_video_ids dir control_file).
  { unfold get_existing_video_ids, get_downloaded_video_ids. apply dom_filter_subseteq. }
  assert (H3 : get_existing_video_ids dir control_file true
               = get_actually_existing_video_ids dir control_file).
  { apply set_eq. intros k.
    rewrite ReconcilerSpec.elem_of_existing, ReconcilerSpec.elem_of_actually_existing.
    by setoid_rewrite ReconcilerSpec.skipped_redownload. }
  split; [exact H1 |]. split; [exact H2 |]. split; [exact H3 |].
  unfold videos_to_download, downloaded_ids. split; [set_solver |].
  intros k. rewrite !elem_of_difference, elem_of_list_to_set.
  rewrite ReconcilerSpec.elem_of_existing, ReconcilerSpec.elem_of_actually_existing.
  split.
  - intros [[Hin Hnot] Hskip]. split; [done |].
    destruct (decide (k ∈ get_existing_video_ids dir control_file false)) as [Hex | Hex].
    + apply ReconcilerSpec.elem_of_existing in Hex as (v & Hv & Hs).
      exists v. unfold skipped in Hs.
      destruct (main_file v) as [p |] eqn:Hm; [| done].
      destruct (PyStr.truthy p) eqn:Ht; [| done].
      exists p. repeat split; try done.
      destruct (path_exists dir p) eqn:Hp; [| done].
      exfalso. apply Hnot. exists v. split; [done |]. unfold present. by rewrite Hm, Ht.
    + exfalso. apply Hskip. split; [done |].
      by rewrite <- ReconcilerSpec.elem_of_existing.
  - intros [Hin (v & p & Hv & Hm & Ht & Hp)]. split; [split; [done |] |].
    + intros (v' & Hv' & Hpres). rewrite Hv in Hv'. injection Hv' as <-.
      unfold present in Hpres. by rewrite Hm, Ht, Hp in Hpres.
    + intros [_ Hno]. apply Hno. exists v. split; [done |].
      by eapply ReconcilerSpec.skipped_keep_deleted.
Qed.

(** X27: The number announced as deleted when [redownload_deleted] is on is the
    number of ledger entries whose primary file is not in the directory; it
    is never negative. *)
Theorem deleted_count_counts (dir : ChannelDir) (control_file : OnDisk ControlData) :
  deleted_count dir control_file
  = Z.of_nat (size (filter (fun kv => ~ (present dir kv.2 = true))
                      (downloaded_videos (load_control_file dir control_file))))
  /\ (0 <= deleted_count dir control_file)%Z.
Proof.
  unfold deleted_count, get_actually_existing_video_ids. cbv zeta.
  set (m := downloaded_videos (load_control_file dir control_file)).
  rewrite size_dom.
  assert (Hsize : size m
                  = size (filter (fun kv => present dir kv.2 = true) m)
                    + size (filter (fun kv => ~ (present dir kv.2 = true)) m)).
  { rewrite <- map_size_disj_union by apply map_disjoint_filter_complement.
    by rewrite map_filter_union_complement. }
  lia.
Qed.

Lemma add_new_inv (P : string -> Prop) (found : list string) (fname : string) :
  Forall P found -> NoDup found -> P fname ->
  Forall P (add_new found fname) /\ NoDup (add_new found fname).
Proof.
  intros HP Hnd Hf. unfold add_new.
  destruct (existsb (String.eqb fname) found) eqn:E; [done |].
  split; [apply Forall_app; split; [done | by constructor] |].
  apply NoDup_app. repeat split; [done | | apply NoDup_singleton].
  intros x Hx Hx'. apply list_elem_of_singleton in Hx' as ->.
  assert (existsb (String.eqb fname) found = true); [| congruence].
  apply existsb_exists. exists fname. split; [by apply list_elem_of_In |].
  apply String.eqb_refl.
Qed.

Lemma fold_add_new_inv (P : string -> Prop) (l : list string) : forall found,
  Forall P found -> NoDup found -> Forall P l ->
  Forall P (fold_left add_new l found) /\ NoDup (fold_left add_new l found).
Proof.
  induction l as [| x l IH]; intros found HP Hnd Hl; [done |].
  apply Forall_cons in Hl as [Hx Hl]. cbn [fold_left].
  destruct (add_new_inv P found x HP Hnd Hx) as [HP' Hnd']. by apply IH.
Qed.

Lemma subtitles_of_base_inv dir wd (found : list string) (base : string) :
  Forall (fun n => exists_in dir wd n = true) found -> NoDup found ->
  Forall (fun n => exists_in dir wd n = true) (subtitles_of_base dir wd found base)
  /\ NoDup (subtitles_of_base dir wd found base).
Proof.
  intros HP Hnd. unfold subtitles_of_base.
  match goal with
  | |- context [fold_left add_new ?l found] =>
      destruct (fold_add_new_inv (fun n => exists_in dir wd n = true) l found HP Hnd)
        as [HP' Hnd']
  end.
  { apply Forall_app. split.
    - apply Forall_forall. intros n Hn. apply list_elem_of_In, in_map_iff in Hn as (f & <- & Hf).
      unfold glob_srt in Hf. apply filter_In in Hf as [Hf _]. by apply listing_exists_in.
    - destruct (exists_in dir wd (base +:+ ".srt")) eqn:E; [| constructor].
      by repeat constructor. }
  apply fold_add_new_inv; [done | done |].
  apply Forall_forall. intros n Hn. apply list_elem_of_In, filter_In in Hn as [_ Hn]. done.
Qed.

(** X28: Every name that [find_matching_files] returns beside the descriptor
    is the name of an entry of the working directory, a file or a directory
    (which [Path.exists] and [glob] do not tell apart), and no subtitle is
    named twice. *)
Theorem matched_files_exist (dir : ChannelDir) (wd : option string) (info_file : File) :
  let found := find_matching_files dir wd info_file in
  (forall n,
     description found = Some n \/ audio found = Some n \/ video found = Some n
     \/ annotations found = Some n \/ n ∈ thumbnails found \/ n ∈ subtitles found ->
     exists f, In f (listing dir wd) /\ f_name f = n)
  /\ NoDup (subtitles found).
Proof.
  cbv zeta. unfold find_matching_files.
  cbn [description audio video annotations thumbnails subtitles].
  set (bases := [PyStr.remove_all ".info.json" (f_name info_file);
                 PyStr.remove_all ".info" (PyStr.remove_all ".info.json" (f_name info_file))]).
  assert (Hsubs : Forall (fun n => exists_in dir wd n = true)
                    (fold_left (subtitles_of_base dir wd) bases [])
                  /\ NoDup (fold_left (subtitles_of_base dir wd) bases [])).
  { unfold bases. cbn [fold_left].
    destruct (subtitles_of_base_inv dir wd []
                (PyStr.remove_all ".info.json" (f_name info_file)))
      as [H1 H2]; [constructor | constructor |].
    by apply subtitles_of_base_inv. }
  destruct Hsubs as [Hall Hnd]. split; [| done].
  intros n Hn.
  assert (Hex : exists_in dir wd n = true).
  { destruct Hn as [H | [H | [H | [H | [H | H]]]]];
      try (by eapply first_existing_exists).
    - apply list_elem_of_In, filter_In in H as [_ H]. done.
    - by eapply (proj1 (Forall_forall _ _) Hall). }
  by apply exists_in_listing.
Qed.

(** A sub-directory of the channel directory that is named like the audio
    file of a descriptor is taken for it. *)
Example directory_taken_for_audio :
  let dir :=
    mkChannelDir "chan" [Scenarios.file_descriptor]
      [mkSubdir (mkFile "a.mp3" 4096 "1704182405.0" "2024-01-02T08:00:05" None) []] in
  audio (find_matching_files dir None Scenarios.file_descriptor) = Some "a.mp3"
  /\ audio (find_matching_files Scenarios.dir_media_deleted None Scenarios.file_descriptor)
     = None.
Proof. by vm_compute. Qed.

End LedgerFacts.
